(** * MySQL binary-protocol row packets: decoding and encoding

    A shallow embedding of
    [pkg/core/proxy/integrations/mysql/command/rowscols/binaryProtocolRowPacket.go]
    and the properties of its row codec.

    Conventions of the embedding:
    - a Go [[]byte] is a [list byte]; slices are modelled with capacity equal
      to length, so that every slice expression or index that reaches past
      the length is the run-time panic [Panic];
    - a Go [string] is a Rocq [string] (both are sequences of 8-bit units);
    - fixed-width Go integers are [Z] with the wrap-around written out;
    - a [float32]/[float64] value is carried by its IEEE-754 bit pattern;
    - a Go [error] is an [option error], [None] being [nil];
    - the [context.Context] and [*zap.Logger] arguments are never used by the
      source (they are bound to [_]) and are dropped. *)

From Stdlib Require Import ZArith NArith List String Ascii Bool Lia.
From Stdlib Require Import Strings.Byte.
From Stdlib Require Import Floats.SpecFloat.
Import ListNotations.

Local Open Scope string_scope.
Local Open Scope list_scope.
Local Open Scope Z_scope.

(** ** Go run-time behaviour: results and panics *)

Inductive panic : Type :=
| IndexOutOfRange
| SliceBoundsOutOfRange.

Inductive outcome (A : Type) : Type :=
| Return (a : A)
| Panic (p : panic).

Arguments Return {A} a.
Arguments Panic {A} p.

Definition bind {A B : Type} (m : outcome A) (k : A -> outcome B) : outcome B :=
  match m with
  | Return a => k a
  | Panic p => Panic p
  end.

Notation "x <- m ;; k" := (bind m (fun x => k))
  (at level 61, m at next level, right associativity).
Notation "' pat <- m ;; k" := (bind m (fun x => match x with pat => k end))
  (at level 61, pat pattern, m at next level, right associativity).

(** Bytes as numbers, and the conversion [byte(x)] of an integer, which keeps
    the low eight bits. *)
Definition byte_to_Z (b : byte) : Z := Z.of_N (Byte.to_N b).

Definition byte_of_Z (z : Z) : byte :=
  match Byte.of_N (Z.to_N (z mod 256)) with
  | Some b => b
  | None => x00
  end.

(** [b[i]] *)
Definition index (b : list byte) (i : nat) : outcome byte :=
  match nth_error b i with
  | Some x => Return x
  | None => Panic IndexOutOfRange
  end.

(** [b[lo:hi]] *)
Definition slice (b : list byte) (lo hi : nat) : outcome (list byte) :=
  if (hi <=? List.length b)%nat && (lo <=? hi)%nat
  then Return (firstn (hi - lo) (skipn lo b))
  else Panic SliceBoundsOutOfRange.

(** [b[lo:]] *)
Definition slice_from (b : list byte) (lo : nat) : outcome (list byte) :=
  if (lo <=? List.length b)%nat then Return (skipn lo b) else Panic SliceBoundsOutOfRange.

(** [s[i]] and [s[lo:]] on a Go string. *)
Definition string_index (s : string) (i : nat) : outcome ascii :=
  match String.get i s with
  | Some c => Return c
  | None => Panic IndexOutOfRange
  end.

Fixpoint string_from (s : string) (lo : nat) {struct lo} : outcome string :=
  match lo with
  | O => Return s
  | S k =>
      match s with
      | EmptyString => Panic SliceBoundsOutOfRange
      | String _ rest => string_from rest k
      end
  end.

(** ** Fixed-width integers *)

Definition wrap (w : Z) (z : Z) : Z := z mod 2 ^ w.

(** Two's-complement reading of a [w]-bit pattern: [int8(x)], [int16(x)],
    [int32(x)], [int64(x)]. *)
Definition signed (w : Z) (z : Z) : Z :=
  let u := wrap w z in
  if u <? 2 ^ (w - 1) then u else u - 2 ^ w.

(** ** Package [encoding/binary]: little-endian integers *)

Module binary.

Fixpoint le_value (b : list byte) : Z :=
  match b with
  | [] => 0
  | x :: rest => byte_to_Z x + 256 * le_value rest
  end.

Fixpoint le_bytes (n : nat) (z : Z) : list byte :=
  match n with
  | O => []
  | S k => byte_of_Z z :: le_bytes k (z / 256)
  end.

(** [binary.LittleEndian.Uint16(b)], [Uint32(b)], [Uint64(b)]: each reads
    [b[n-1]] first (the bounds-check hint of the library) and panics when
    the slice is too short. *)
Definition LittleEndian_Uint (n : nat) (b : list byte) : outcome Z :=
  if (n <=? List.length b)%nat then Return (le_value (firstn n b))
  else Panic IndexOutOfRange.

Definition LittleEndian_Uint16 := LittleEndian_Uint 2.
Definition LittleEndian_Uint32 := LittleEndian_Uint 4.
Definition LittleEndian_Uint64 := LittleEndian_Uint 8.

End binary.

(** ** IEEE-754 values

    A [float32] (resp. [float64]) is carried by its 32-bit (resp. 64-bit)
    pattern.  [math.Float32frombits] is then the identity on patterns, while
    the Go conversion [float32(u)] of an unsigned integer is the numeric
    conversion: the pattern of the float nearest to the number [u]
    (round to nearest, ties to even), computed with the specification of
    binary floats of the Standard Library. *)

Module ieee.

Definition bits_of_spec (prec emax width : Z) (f : spec_float) : Z :=
  let mant := prec - 1 in
  let sign (s : bool) := if s then 2 ^ (width - 1) else 0 in
  let expo_all_ones := (2 ^ (width - 1 - mant) - 1) * 2 ^ mant in
  match f with
  | S754_zero s => sign s
  | S754_infinity s => sign s + expo_all_ones
  | S754_nan => expo_all_ones + 2 ^ (mant - 1)
  | S754_finite s m e =>
      if Zpos m <? 2 ^ mant then sign s + Zpos m
      else sign s + (e + mant + emax - 1) * 2 ^ mant + (Zpos m - 2 ^ mant)
  end.

(** [float32(u)] for an unsigned integer [u]. *)
Definition float32_of_uint (u : Z) : Z :=
  bits_of_spec 24 128 32 (binary_normalize 24 128 u 0 false).

(** [float64(u)] for an unsigned integer [u]. *)
Definition float64_of_uint (u : Z) : Z :=
  bits_of_spec 53 1024 64 (binary_normalize 53 1024 u 0 false).

(** [math.Float32frombits(u)], [math.Float64frombits(u)]. *)
Definition Float32frombits (u : Z) : Z := wrap 32 u.
Definition Float64frombits (u : Z) : Z := wrap 64 u.

End ieee.

(** ** Package [models/mysql]: the row data model *)

Module mysql.

(** Modelled from the spec: the declarations of package [models/mysql] are
    not part of the sources at hand.  [FieldType] is the wire type tag of a
    column; the constructors are the tags the codec names, [FieldTypeOther]
    stands for every other tag value. *)
Inductive FieldType : Type :=
| FieldTypeTiny
| FieldTypeShort
| FieldTypeLong
| FieldTypeLongLong
| FieldTypeYear
| FieldTypeFloat
| FieldTypeDouble
| FieldTypeString
| FieldTypeVarString
| FieldTypeVarChar
| FieldTypeBLOB
| FieldTypeTinyBLOB
| FieldTypeMediumBLOB
| FieldTypeLongBLOB
| FieldTypeJSON
| FieldTypeDate
| FieldTypeNewDate
| FieldTypeTimestamp
| FieldTypeDateTime
| FieldTypeTime
| FieldTypeOther (code : byte).

(** Modelled from the spec: the flag bit of a column definition that marks
    an unsigned integer column (bit 5 in the protocol reference). *)
Definition UNSIGNED_FLAG : Z := 32.

(** The column definition, reduced to the fields the codec reads.  The
    field [Type] already holds the tag, so the conversion
    [mysql.FieldType(col.Type)] of the source is the identity. *)
Record ColumnDefinition41 : Type := {
  col_Name : string;
  col_Type : FieldType;
  col_Flags : Z
}.

Record Header : Type := {
  PayloadLength : Z;
  SequenceID : byte
}.

(** A decoded column value: the dynamic type [interface{}] of the source,
    restricted to the dynamic types the codec produces or inspects. *)
Inductive value : Type :=
| Nil
| Int8 (v : Z)
| Uint8 (v : Z)
| Int16 (v : Z)
| Uint16 (v : Z)
| Int32 (v : Z)
| Uint32 (v : Z)
| Int64 (v : Z)
| Uint64 (v : Z)
| Float32 (bits : Z)
| Float64 (bits : Z)
| Str (s : string).

Record ColumnEntry : Type := {
  ce_Type : FieldType;
  ce_Name : string;
  ce_Value : value
}.

Record BinaryRow : Type := {
  row_Header : Header;
  Values : list ColumnEntry;
  OkAfterRow : bool;
  RowNullBuffer : list byte
}.

End mysql.

Import mysql.

(** ** Errors *)

(** The errors of the codec, by the way the source builds them:
    [errors.New(msg)], [fmt.Errorf] with a column type, [fmt.Errorf] wrapping
    a cause with [%w], the errors of [fmt.Sscanf], and the error of the
    length-encoded string helpers. *)
Inductive error : Type :=
| errors_New (msg : string)
| UnsupportedColumnType (t : FieldType)
| UnsupportedDateTimeFieldType (t : FieldType)
| Wrap (context : string) (cause : error)
| ScanError (msg : string)
| HelperError (msg : string).

(** ** Package [utils]: wire primitives *)

Module utils.

(** Modelled from the spec: [utils.ReadUint24] is not part of the sources at
    hand; it reads a 24-bit little-endian unsigned integer from three bytes. *)
Definition ReadUint24 (b : list byte) : outcome Z :=
  b0 <- index b 0;;
  b1 <- index b 1;;
  b2 <- index b 2;;
  Return (byte_to_Z b0 + byte_to_Z b1 * 2 ^ 8 + byte_to_Z b2 * 2 ^ 16).

(** Modelled from the spec: [utils.WriteUint24] is not part of the sources
    at hand; it appends the three low bytes of the value, little-endian. *)
Definition WriteUint24 (buf : list byte) (v : Z) : list byte * option error :=
  (buf ++ binary.le_bytes 3 v, None).

(** Modelled from the spec: the length-encoded unsigned integer prefix of
    the wire protocol is not part of the sources at hand.  One byte for
    values up to 250; otherwise a marker byte followed by 2, 3 or 8 bytes,
    little-endian (markers [0xfc], [0xfd], [0xfe] of the protocol
    reference).  The result is the value and the number of prefix bytes;
    [None] when the prefix is absent, truncated, or one of the two bytes
    that introduce no integer. *)
Definition ReadLengthEncodedInteger (b : list byte) : option (Z * nat) :=
  match b with
  | [] => None
  | m :: rest =>
      let take (n : nat) :=
        if (n <=? List.length rest)%nat
        then Some (binary.le_value (firstn n rest), S n) else None in
      if byte_to_Z m <? 251 then Some (byte_to_Z m, 1%nat)
      else if byte_to_Z m =? 252 then take 2%nat
      else if byte_to_Z m =? 253 then take 3%nat
      else if byte_to_Z m =? 254 then take 8%nat
      else None
  end.

(** Modelled from the spec: [utils.ReadLengthEncodedString] is not part of
    the sources at hand; it reads a length-encoded unsigned integer prefix,
    then that many raw bytes, and reports the bytes, whether the value is
    null, the count of prefix and payload bytes, and an error when the
    buffer holds less than that. *)
Definition ReadLengthEncodedString (b : list byte)
  : list byte * bool * nat * option error :=
  match ReadLengthEncodedInteger b with
  | None => ([], false, 0%nat, Some (HelperError "malformed length-encoded string"))
  | Some (num, n) =>
      let total := (n + Z.to_nat num)%nat in
      if (total <=? List.length b)%nat
      then (firstn (Z.to_nat num) (skipn n b), false, total, None)
      else ([], false, 0%nat, Some (HelperError "malformed length-encoded string"))
  end.

(** Modelled from the spec: the writer of the length-encoded unsigned
    integer prefix, the inverse of the reader above. *)
Definition AppendLengthEncodedInteger (buf : list byte) (n : Z) : list byte :=
  if n <? 251 then buf ++ [byte_of_Z n]
  else if n <? 2 ^ 16 then buf ++ xfc :: binary.le_bytes 2 n
  else if n <? 2 ^ 24 then buf ++ xfd :: binary.le_bytes 3 n
  else buf ++ xfe :: binary.le_bytes 8 n.

(** Modelled from the spec: [utils.WriteLengthEncodedString] is not part of
    the sources at hand; it appends the length-encoded unsigned integer
    prefix of the string's length, then the raw bytes. *)
Definition WriteLengthEncodedString (buf : list byte) (s : string)
  : list byte * option error :=
  (AppendLengthEncodedInteger buf (Z.of_nat (String.length s))
     ++ list_byte_of_string s, None).

End utils.

(** ** Package [fmt] of the Go library, as far as the codec uses it

    The codec formats unsigned integers with [%d] and [%0Nd], and scans
    with [fmt.Sscanf] under formats made of [%d], [%Nd], single literal
    characters and spaces.  Strings are scanned byte by byte: the texts the
    codec renders are ASCII, and a byte outside ASCII is never a space, a
    sign or a digit here. *)

Module fmt.

Definition digitChar (d : Z) : ascii := ascii_of_N (48 + Z.to_N d).

(** The decimal digits of [n], most significant first, put before [acc];
    [fuel] bounds the number of digits. *)
Fixpoint decimalDigits (fuel : nat) (n : Z) (acc : string) : string :=
  match fuel with
  | O => acc
  | S k =>
      let acc' := String (digitChar (n mod 10)) acc in
      if n <? 10 then acc' else decimalDigits k (n / 10) acc'
  end.

(** [%d] of a non-negative integer; a number has no more decimal digits
    than binary ones. *)
Definition decimal (n : Z) : string :=
  decimalDigits (S (Z.to_nat (Z.log2 n))) n EmptyString.

Fixpoint zeros (n : nat) : string :=
  match n with
  | O => ""
  | S k => String "0" (zeros k)
  end.

(** [%0Wd] of a non-negative integer: zero-padded on the left to width [W],
    never truncated. *)
Definition decimal_padded (w : nat) (n : Z) : string :=
  let s := decimal n in
  (zeros (w - String.length s) ++ s)%string.

(** The pieces of a scan format. *)
Inductive directive : Type :=
| Verb_d (width : option N)
| Literal (c : ascii)
| Spaces
| Unsupported.

Inductive format_state : Type :=
| Plain
| InSpaces
| InVerb (width : option N).

Definition isDigit (c : ascii) : bool :=
  let n := N_of_ascii c in ((48 <=? n) && (n <=? 57))%N.

(** [isSpace] on ASCII: tab, line feed, vertical tab, form feed, carriage
    return and space. *)
Definition isSpace (c : ascii) : bool :=
  let n := N_of_ascii c in (((9 <=? n) && (n <=? 13)) || (n =? 32))%N.

Definition isNewline (c : ascii) : bool := (N_of_ascii c =? 10)%N.

Fixpoint directives (st : format_state) (f : string) : list directive :=
  match f with
  | EmptyString =>
      match st with
      | InVerb _ => [Unsupported]
      | _ => []
      end
  | String c rest =>
      match st with
      | InVerb w =>
          if isDigit c then
            let d := (N_of_ascii c - 48)%N in
            let w' := match w with None => d | Some x => (10 * x + d)%N end in
            directives (InVerb (Some w')) rest
          else if Ascii.eqb c "d" then Verb_d w :: directives Plain rest
          else Unsupported :: directives Plain rest
      | _ =>
          if Ascii.eqb c "%" then directives (InVerb None) rest
          else if isNewline c then Unsupported :: directives Plain rest
          else if isSpace c then
            match st with
            | InSpaces => directives InSpaces rest
            | _ => Spaces :: directives InSpaces rest
            end
          else Literal c :: directives Plain rest
      end
  end.

(** [hugeWid] of the scanner: the width limit when the verb gives none. *)
Definition hugeWid : N := (2 ^ 30)%N.

(** [ss.SkipSpace] with newlines not counted as space: [None] is the
    scanner's error on a newline. *)
Fixpoint SkipSpace (s : string) : option string :=
  match s with
  | EmptyString => Some EmptyString
  | String c rest =>
      if isNewline c then None
      else if isSpace c then SkipSpace rest
      else Some s
  end.

(** Skips spaces up to, and not including, a newline or a non-space. *)
Fixpoint skipBlanks (s : string) : string :=
  match s with
  | EmptyString => EmptyString
  | String c rest =>
      if isSpace c && negb (isNewline c) then skipBlanks rest else s
  end.

(** The loop [for s.accept(ok) {}] under the width limit of the verb: the
    accepted token and the input left. *)
Fixpoint acceptAll (ok : ascii -> bool) (limit : N) (s : string) : string * string :=
  match s with
  | EmptyString => (EmptyString, EmptyString)
  | String c rest =>
      if (0 <? limit)%N && ok c then
        let '(tok, remaining) := acceptAll ok (limit - 1)%N rest in
        (String c tok, remaining)
      else (EmptyString, s)
  end.

Definition isSign (c : ascii) : bool := Ascii.eqb c "+" || Ascii.eqb c "-".

(** The digits the scanner accepts for [%d]: ["0123456789_"]. *)
Definition isScanDigit (c : ascii) : bool := isDigit c || Ascii.eqb c "_".

Definition digitValue (c : ascii) : Z := Z.of_N (N_of_ascii c) - 48.

(** The value of a string of decimal digits, continuing from [acc]; [None]
    when a character is not a digit. *)
Fixpoint parseDigits (acc : Z) (s : string) : option Z :=
  match s with
  | EmptyString => Some acc
  | String c rest =>
      if isDigit c then parseDigits (10 * acc + digitValue c) rest else None
  end.

(** [strconv.ParseInt(tok, 10, 64)]: an optional sign and decimal digits,
    within the range of [int64]. *)
Definition ParseInt (tok : string) : option Z :=
  let '(neg, body) :=
    match tok with
    | String c r =>
        if Ascii.eqb c "-" then (true, r)
        else if Ascii.eqb c "+" then (false, r)
        else (false, tok)
    | EmptyString => (false, tok)
    end in
  match body with
  | EmptyString => None
  | _ =>
      match parseDigits 0 body with
      | Some v =>
          let v := if neg then - v else v in
          if (- 2 ^ 63 <=? v) && (v <=? 2 ^ 63 - 1) then Some v else None
      | None => None
      end
  end.

(** [ss.scanInt('d', 64)] once the caller has skipped the spaces and set
    the width limit: the number or the error, and the input left. *)
Definition scanInt (limit : N) (s : string) : (Z + error) * string :=
  match s with
  | EmptyString => (inr (ScanError "EOF"), s)
  | String c rest =>
      if (limit =? 0)%N then (inr (ScanError "EOF"), s)
      else
        let '(sign, limit1, s1) :=
          if isSign c then (String c EmptyString, (limit - 1)%N, rest)
          else (EmptyString, limit, s) in
        match s1 with
        | EmptyString => (inr (ScanError "EOF"), s1)
        | String c1 _ =>
            if (limit1 =? 0)%N then (inr (ScanError "EOF"), s1)
            else if negb (isScanDigit c1) then (inr (ScanError "expected integer"), s1)
            else
              let '(digits, remaining) := acceptAll isScanDigit limit1 s1 in
              match ParseInt (sign ++ digits)%string with
              | Some v => (inl v, remaining)
              | None => (inr (ScanError "strconv.ParseInt"), remaining)
              end
        end
  end.

(** [ss.doScanf] over the pieces of the format: the operands scanned so
    far and the error. *)
Fixpoint doScanf (ds : list directive) (s : string) (got : list Z)
  : list Z * option error :=
  match ds with
  | [] => (got, None)
  | Unsupported :: _ => (got, Some (ScanError "format outside the model"))
  | Literal c :: ds' =>
      match s with
      | EmptyString => (got, Some (ScanError "unexpected EOF"))
      | String c' rest =>
          if Ascii.eqb c c' then doScanf ds' rest got
          else (got, Some (ScanError "input does not match format"))
      end
  | Spaces :: ds' =>
      match s with
      | EmptyString => doScanf ds' s got
      | String c' _ =>
          if negb (isSpace c') then
            (got, Some (ScanError "expected space in input to match format"))
          else if isNewline c' then
            (got, Some (ScanError "newline in input does not match format"))
          else doScanf ds' (skipBlanks s) got
      end
  | Verb_d w :: ds' =>
      match SkipSpace s with
      | None => (got, Some (ScanError "unexpected newline"))
      | Some s1 =>
          let limit := match w with Some n => n | None => hugeWid end in
          match scanInt limit s1 with
          | (inl v, remaining) => doScanf ds' remaining (got ++ [v])
          | (inr e, _) => (got, Some e)
          end
      end
  end.

(** [fmt.Sscanf(str, format, &a1, ..., &an)] with [int] operands: the values
    stored, in order, and the error. *)
Definition Sscanf (str format : string) : list Z * option error :=
  doScanf (directives Plain format) str [].

End fmt.

(** ** Package [rowscols]: the decoder *)

(** [isNull]: tests bit [index + 2] of the null bitmap. *)
Definition isNull (nullBitmap : list byte) (i : nat) : outcome bool :=
  let bytePos := ((i + 2) / 8)%nat in
  let bitPos := ((i + 2) mod 8)%nat in
  x <- index nullBitmap bytePos;;
  Return (negb (Z.land (byte_to_Z x) (Z.shiftl 1 (Z.of_nat bitPos)) =? 0)).

Definition isUnsigned (col : ColumnDefinition41) : bool :=
  negb (Z.land (col_Flags col) UNSIGNED_FLAG =? 0).

Definition parseBinaryDate (b : list byte) : outcome (value * nat * option error) :=
  if (List.length b =? 0)%nat then Return (Nil, 0%nat, None)
  else
    length <- index b 0;;
    if byte_to_Z length =? 0 then Return (Nil, 1%nat, None)
    else
      yb <- slice b 1 3;;
      year <- binary.LittleEndian_Uint16 yb;;
      month <- index b 3;;
      day <- index b 4;;
      Return (Str (fmt.decimal_padded 4 year ++ "-"
                   ++ fmt.decimal_padded 2 (byte_to_Z month) ++ "-"
                   ++ fmt.decimal_padded 2 (byte_to_Z day))%string,
              (Z.to_nat (byte_to_Z length) + 1)%nat, None).

Definition parseBinaryDateTime (b : list byte) : outcome (value * nat * option error) :=
  if (List.length b =? 0)%nat then Return (Nil, 0%nat, None)
  else
    length <- index b 0;;
    if byte_to_Z length =? 0 then Return (Nil, 1%nat, None)
    else
      yb <- slice b 1 3;;
      year <- binary.LittleEndian_Uint16 yb;;
      month <- index b 3;;
      day <- index b 4;;
      hour <- index b 5;;
      minute <- index b 6;;
      second <- index b 7;;
      let text :=
        (fmt.decimal_padded 4 year ++ "-"
         ++ fmt.decimal_padded 2 (byte_to_Z month) ++ "-"
         ++ fmt.decimal_padded 2 (byte_to_Z day) ++ " "
         ++ fmt.decimal_padded 2 (byte_to_Z hour) ++ ":"
         ++ fmt.decimal_padded 2 (byte_to_Z minute) ++ ":"
         ++ fmt.decimal_padded 2 (byte_to_Z second))%string in
      if 7 <? byte_to_Z length then
        mb <- slice b 8 12;;
        microsecond <- binary.LittleEndian_Uint32 mb;;
        Return (Str (text ++ "." ++ fmt.decimal_padded 6 microsecond)%string,
                (Z.to_nat (byte_to_Z length) + 1)%nat, None)
      else
        Return (Str text, (Z.to_nat (byte_to_Z length) + 1)%nat, None).

Definition parseBinaryTime (b : list byte) : outcome (value * nat * option error) :=
  if (List.length b =? 0)%nat then Return (Nil, 0%nat, None)
  else
    length <- index b 0;;
    if byte_to_Z length =? 0 then Return (Nil, 1%nat, None)
    else
      sign <- index b 1;;
      let isNegative := byte_to_Z sign =? 1 in
      db <- slice b 2 6;;
      days <- binary.LittleEndian_Uint32 db;;
      hours <- index b 6;;
      minutes <- index b 7;;
      seconds <- index b 8;;
      microseconds <-
        (if 8 <? byte_to_Z length then
           mb <- slice b 9 13;;
           binary.LittleEndian_Uint32 mb
         else Return 0);;
      let timeString :=
        (fmt.decimal days ++ " "
         ++ fmt.decimal_padded 2 (byte_to_Z hours) ++ ":"
         ++ fmt.decimal_padded 2 (byte_to_Z minutes) ++ ":"
         ++ fmt.decimal_padded 2 (byte_to_Z seconds) ++ "."
         ++ fmt.decimal_padded 6 microseconds)%string in
      let timeString := if isNegative then ("-" ++ timeString)%string else timeString in
      Return (Str timeString, (Z.to_nat (byte_to_Z length) + 1)%nat, None).

(** The integer of width [n] bytes read after the length check of the
    source: [binary.LittleEndian.UintW(data[:n])]. *)
Definition readUint (n : nat) (data : list byte) : outcome Z :=
  d <- slice data 0 n;;
  binary.LittleEndian_Uint n d.

Definition readBinaryValue (data : list byte) (col : ColumnDefinition41)
  : outcome (value * nat * option error) :=
  let isUnsigned := isUnsigned col in
  match col_Type col with
  | FieldTypeLong =>
      if (List.length data <? 4)%nat
      then Return (Nil, 0%nat, Some (errors_New "malformed FieldTypeLong value"))
      else
        u <- readUint 4 data;;
        if isUnsigned then Return (Uint32 u, 4%nat, None)
        else Return (Int32 (signed 32 u), 4%nat, None)
  | FieldTypeString | FieldTypeVarString | FieldTypeVarChar | FieldTypeBLOB
  | FieldTypeTinyBLOB | FieldTypeMediumBLOB | FieldTypeLongBLOB | FieldTypeJSON =>
      let '(v, _, n, err) := utils.ReadLengthEncodedString data in
      Return (Str (string_of_list_byte v), n, err)
  | FieldTypeTiny =>
      x <- index data 0;;
      if isUnsigned then Return (Uint8 (byte_to_Z x), 1%nat, None)
      else Return (Int8 (signed 8 (byte_to_Z x)), 1%nat, None)
  | FieldTypeShort | FieldTypeYear =>
      if (List.length data <? 2)%nat
      then Return (Nil, 0%nat, Some (errors_New "malformed FieldTypeShort value"))
      else
        u <- readUint 2 data;;
        if isUnsigned then Return (Uint16 u, 2%nat, None)
        else Return (Int16 (signed 16 u), 2%nat, None)
  | FieldTypeLongLong =>
      if (List.length data <? 8)%nat
      then Return (Nil, 0%nat, Some (errors_New "malformed FieldTypeLongLong value"))
      else
        u <- readUint 8 data;;
        if isUnsigned then Return (Uint64 u, 8%nat, None)
        else Return (Int64 (signed 64 u), 8%nat, None)
  | FieldTypeFloat =>
      if (List.length data <? 4)%nat
      then Return (Nil, 0%nat, Some (errors_New "malformed FieldTypeFloat value"))
      else
        u <- readUint 4 data;;
        Return (Float32 (ieee.float32_of_uint u), 4%nat, None)
  | FieldTypeDouble =>
      if (List.length data <? 8)%nat
      then Return (Nil, 0%nat, Some (errors_New "malformed FieldTypeDouble value"))
      else
        u <- readUint 8 data;;
        Return (Float64 (ieee.float64_of_uint u), 8%nat, None)
  | FieldTypeDate | FieldTypeNewDate => parseBinaryDate data
  | FieldTypeTimestamp | FieldTypeDateTime => parseBinaryDateTime data
  | FieldTypeTime => parseBinaryTime data
  | FieldTypeOther _ => Return (Nil, 0%nat, Some (UnsupportedColumnType (col_Type col)))
  end.

(** The loop [for i, col := range columns] of [DecodeBinaryRow]: [i] is the
    index of the first column of [columns], [offset] the cursor and [values]
    the entries appended so far.  The result is the entries ([None] when the
    source returns a nil row), the cursor and the error. *)
Fixpoint decodeColumns (data nullBitmap : list byte) (i : nat)
  (columns : list ColumnDefinition41) (offset : nat) (values : list ColumnEntry)
  : outcome (option (list ColumnEntry) * nat * option error) :=
  match columns with
  | [] => Return (Some values, offset, None)
  | col :: rest =>
      null <- isNull nullBitmap i;;
      if null then
        decodeColumns data nullBitmap (S i) rest offset
          (values ++ [{| ce_Type := col_Type col; ce_Name := col_Name col; ce_Value := Nil |}])
      else
        remaining <- slice_from data offset;;
        '(v, n, err) <- readBinaryValue remaining col;;
        match err with
        | Some e => Return (None, offset, Some e)
        | None =>
            decodeColumns data nullBitmap (S i) rest (offset + n)%nat
              (values ++ [{| ce_Type := col_Type col; ce_Name := col_Name col; ce_Value := v |}])
        end
  end.

Definition DecodeBinaryRow (data : list byte) (columns : list ColumnDefinition41)
  : outcome (option BinaryRow * nat * option error) :=
  let offset := 0%nat in
  hb <- slice data offset (offset + 3);;
  payloadLength <- utils.ReadUint24 hb;;
  sequenceID <- index data (offset + 3);;
  let offset := (offset + 4)%nat in
  marker <- index data offset;;
  if negb (byte_to_Z marker =? 0) then
    Return (None, offset, Some (errors_New "malformed binary row packet"))
  else
    let offset := (offset + 1)%nat in
    let nullBitmapLen := ((List.length columns + 7 + 2) / 8)%nat in
    nullBitmap <- slice data offset (offset + nullBitmapLen);;
    let offset := (offset + nullBitmapLen)%nat in
    '(values, offset, err) <- decodeColumns data nullBitmap 0 columns offset [];;
    match values with
    | Some vs =>
        Return (Some {| row_Header := {| PayloadLength := payloadLength;
                                         SequenceID := sequenceID |};
                        Values := vs;
                        OkAfterRow := true;
                        RowNullBuffer := nullBitmap |}, offset, err)
    | None => Return (None, offset, err)
    end.

(** ** Package [rowscols]: the encoder *)

Definition encodeBinaryDateTime (fieldType : FieldType) (v : value)
  : outcome (option (list byte) * option error) :=
  match fieldType with
  | FieldTypeDate | FieldTypeNewDate =>
      match v with
      | Str dateStr =>
          let '(got, err) := fmt.Sscanf dateStr "%04d-%02d-%02d" in
          match err with
          | Some e => Return (None, Some (Wrap "failed to parse date string" e))
          | None =>
              let year := nth 0 got 0 in
              let month := nth 1 got 0 in
              let day := nth 2 got 0 in
              Return (Some ([byte_of_Z 4] ++ binary.le_bytes 2 (wrap 16 year)
                            ++ [byte_of_Z month] ++ [byte_of_Z day]), None)
          end
      | _ => Return (None, Some (errors_New "invalid value type for date field"))
      end
  | FieldTypeTimestamp | FieldTypeDateTime =>
      match v with
      | Str dateTimeStr =>
          let '(got, err) := fmt.Sscanf dateTimeStr "%04d-%02d-%02d %02d:%02d:%02d" in
          match err with
          | Some e => Return (None, Some (Wrap "failed to parse datetime string" e))
          | None =>
              let year := nth 0 got 0 in
              let month := nth 1 got 0 in
              let day := nth 2 got 0 in
              let hour := nth 3 got 0 in
              let minute := nth 4 got 0 in
              let second := nth 5 got 0 in
              Return (Some ([byte_of_Z 7] ++ binary.le_bytes 2 (wrap 16 year)
                            ++ [byte_of_Z month] ++ [byte_of_Z day]
                            ++ [byte_of_Z hour] ++ [byte_of_Z minute]
                            ++ [byte_of_Z second]), None)
          end
      | _ => Return (None, Some (errors_New "invalid value type for datetime field"))
      end
  | FieldTypeTime =>
      match v with
      | Str timeStr =>
          c <- string_index timeStr 0;;
          '(isNegative, timeStr) <-
            (if Ascii.eqb c "-" then
               t <- string_from timeStr 1;; Return (true, t)
             else Return (false, timeStr));;
          let '(got, err) := fmt.Sscanf timeStr "%d %02d:%02d:%02d" in
          match err with
          | Some e => Return (None, Some (Wrap "failed to parse time string" e))
          | None =>
              let days := nth 0 got 0 in
              let hours := nth 1 got 0 in
              let minutes := nth 2 got 0 in
              let seconds := nth 3 got 0 in
              Return (Some ([byte_of_Z 8]
                            ++ [if isNegative then byte_of_Z 1 else byte_of_Z 0]
                            ++ binary.le_bytes 4 (wrap 32 days)
                            ++ [byte_of_Z hours] ++ [byte_of_Z minutes]
                            ++ [byte_of_Z seconds]), None)
          end
      | _ => Return (None, Some (errors_New "invalid value type for time field"))
      end
  | _ => Return (None, Some (UnsupportedDateTimeFieldType fieldType))
  end.

(** The [switch row.Values[i].Type] of [EncodeBinaryRow]: the buffer after
    the column's value is written, or the error the source returns. *)
Definition encodeColumn (buf : list byte) (entry : ColumnEntry)
  : outcome (list byte * option error) :=
  let v := ce_Value entry in
  match ce_Type entry with
  | FieldTypeLong =>
      match v with
      | Int32 x => Return (buf ++ binary.le_bytes 4 x, None)
      | Uint32 x => Return (buf ++ binary.le_bytes 4 (signed 32 x), None)
      | _ => Return (buf, Some (errors_New "invalid value type for long field"))
      end
  | FieldTypeString | FieldTypeVarString | FieldTypeVarChar | FieldTypeBLOB
  | FieldTypeTinyBLOB | FieldTypeMediumBLOB | FieldTypeLongBLOB | FieldTypeJSON =>
      match v with
      | Str s =>
          match utils.WriteLengthEncodedString buf s with
          | (buf', None) => Return (buf', None)
          | (buf', Some e) =>
              Return (buf', Some (Wrap "failed to write length-encoded string" e))
          end
      | _ => Return (buf, Some (errors_New "invalid value type for string field"))
      end
  | FieldTypeTiny =>
      match v with
      | Int8 x => Return (buf ++ [byte_of_Z x], None)
      | Uint8 x => Return (buf ++ [byte_of_Z (signed 8 x)], None)
      | _ => Return (buf, Some (errors_New "invalid value type for tiny field"))
      end
  | FieldTypeShort | FieldTypeYear =>
      match v with
      | Int16 x => Return (buf ++ binary.le_bytes 2 x, None)
      | Uint16 x => Return (buf ++ binary.le_bytes 2 (signed 16 x), None)
      | _ => Return (buf, Some (errors_New "invalid value type for short field"))
      end
  | FieldTypeLongLong =>
      match v with
      | Int64 x => Return (buf ++ binary.le_bytes 8 x, None)
      | Uint64 x => Return (buf ++ binary.le_bytes 8 (signed 64 x), None)
      | _ => Return (buf, Some (errors_New "invalid value type for long long field"))
      end
  | FieldTypeFloat =>
      match v with
      | Float32 bits => Return (buf ++ binary.le_bytes 4 bits, None)
      | _ => Return (buf, Some (errors_New "invalid value type for float field"))
      end
  | FieldTypeDouble =>
      match v with
      | Float64 bits => Return (buf ++ binary.le_bytes 8 bits, None)
      | _ => Return (buf, Some (errors_New "invalid value type for double field"))
      end
  | FieldTypeDate | FieldTypeNewDate | FieldTypeTimestamp | FieldTypeDateTime
  | FieldTypeTime =>
      '(dateTimeBytes, err) <- encodeBinaryDateTime (ce_Type entry) v;;
      match err, dateTimeBytes with
      | Some e, _ => Return (buf, Some (Wrap "failed to encode date/time value" e))
      | None, Some bytes => Return (buf ++ bytes, None)
      | None, None => Return (buf, None)
      end
  | FieldTypeOther _ => Return (buf, Some (UnsupportedColumnType (ce_Type entry)))
  end.

(** The loop [for i, _ := range columns] of [EncodeBinaryRow]. *)
Fixpoint encodeColumns (row : BinaryRow) (i : nat)
  (columns : list ColumnDefinition41) (buf : list byte)
  : outcome (option (list byte) * option error) :=
  match columns with
  | [] => Return (Some buf, None)
  | _ :: rest =>
      null <- isNull (RowNullBuffer row) i;;
      if null then encodeColumns row (S i) rest buf
      else
        match nth_error (Values row) i with
        | None => Panic IndexOutOfRange
        | Some entry =>
            '(buf', err) <- encodeColumn buf entry;;
            match err with
            | Some e => Return (None, Some e)
            | None => encodeColumns row (S i) rest buf'
            end
        end
  end.

Definition EncodeBinaryRow (row : BinaryRow) (columns : list ColumnDefinition41)
  : outcome (option (list byte) * option error) :=
  let buf := [] in
  match utils.WriteUint24 buf (PayloadLength (row_Header row)) with
  | (_, Some e) => Return (None, Some (Wrap "failed to write PayloadLength" e))
  | (buf, None) =>
      let buf := buf ++ [SequenceID (row_Header row)] in
      let buf := buf ++ [x00] in
      let buf := buf ++ RowNullBuffer row in
      encodeColumns row 0 columns buf
  end.

(** ** Vocabulary of the properties *)

Definition isTemporal (t : FieldType) : bool :=
  match t with
  | FieldTypeDate | FieldTypeNewDate | FieldTypeTimestamp | FieldTypeDateTime
  | FieldTypeTime => true
  | _ => false
  end.

(** The wire width of the fixed-width kinds. *)
Definition fixedWidth (t : FieldType) : option nat :=
  match t with
  | FieldTypeTiny => Some 1%nat
  | FieldTypeShort | FieldTypeYear => Some 2%nat
  | FieldTypeLong => Some 4%nat
  | FieldTypeLongLong => Some 8%nat
  | FieldTypeFloat => Some 4%nat
  | FieldTypeDouble => Some 8%nat
  | _ => None
  end.

(** The least number of bytes a temporal value with a non-zero length byte
    must span for the decoder to read its fixed fields. *)
Definition temporalSpan (t : FieldType) : nat :=
  match t with
  | FieldTypeDate | FieldTypeNewDate => 5%nat
  | FieldTypeTimestamp | FieldTypeDateTime => 8%nat
  | FieldTypeTime => 9%nat
  | _ => 0%nat
  end.

Definition entry (col : ColumnDefinition41) (v : value) : ColumnEntry :=
  {| ce_Type := col_Type col; ce_Name := col_Name col; ce_Value := v |}.

(** The canonical temporal texts, as the decoder renders them. *)
Definition dateText (y m d : Z) : string :=
  (fmt.decimal_padded 4 y ++ "-"
   ++ fmt.decimal_padded 2 m ++ "-"
   ++ fmt.decimal_padded 2 d)%string.

Definition dateTimeText (y m d h mi s : Z) : string :=
  (fmt.decimal_padded 4 y ++ "-"
   ++ fmt.decimal_padded 2 m ++ "-"
   ++ fmt.decimal_padded 2 d ++ " "
   ++ fmt.decimal_padded 2 h ++ ":"
   ++ fmt.decimal_padded 2 mi ++ ":"
   ++ fmt.decimal_padded 2 s)%string.

Definition timeText (negative : bool) (days h mi s us : Z) : string :=
  let text :=
    (fmt.decimal days ++ " "
     ++ fmt.decimal_padded 2 h ++ ":"
     ++ fmt.decimal_padded 2 mi ++ ":"
     ++ fmt.decimal_padded 2 s ++ "."
     ++ fmt.decimal_padded 6 us)%string in
  if negative then ("-" ++ text)%string else text.

Definition isStringKind (t : FieldType) : bool :=
  match t with
  | FieldTypeString | FieldTypeVarString | FieldTypeVarChar | FieldTypeBLOB
  | FieldTypeTinyBLOB | FieldTypeMediumBLOB | FieldTypeLongBLOB | FieldTypeJSON => true
  | _ => false
  end.

(** A value matches the declared type and signedness of its column: an
    integer of the column's width and signedness, a text for the string
    kinds, or the canonical text of a date, of a date and time without
    fraction, or of a time whose microseconds are zero.  FLOAT and DOUBLE
    columns are left out. *)
Inductive matches (col : ColumnDefinition41) : value -> Prop :=
| matches_int8 (x : Z) :
    col_Type col = FieldTypeTiny -> isUnsigned col = false ->
    - 2 ^ 7 <= x < 2 ^ 7 -> matches col (Int8 x)
| matches_uint8 (x : Z) :
    col_Type col = FieldTypeTiny -> isUnsigned col = true ->
    0 <= x < 2 ^ 8 -> matches col (Uint8 x)
| matches_int16 (x : Z) :
    col_Type col = FieldTypeShort \/ col_Type col = FieldTypeYear ->
    isUnsigned col = false ->
    - 2 ^ 15 <= x < 2 ^ 15 -> matches col (Int16 x)
| matches_uint16 (x : Z) :
    col_Type col = FieldTypeShort \/ col_Type col = FieldTypeYear ->
    isUnsigned col = true ->
    0 <= x < 2 ^ 16 -> matches col (Uint16 x)
| matches_int32 (x : Z) :
    col_Type col = FieldTypeLong -> isUnsigned col = false ->
    - 2 ^ 31 <= x < 2 ^ 31 -> matches col (Int32 x)
| matches_uint32 (x : Z) :
    col_Type col = FieldTypeLong -> isUnsigned col = true ->
    0 <= x < 2 ^ 32 -> matches col (Uint32 x)
| matches_int64 (x : Z) :
    col_Type col = FieldTypeLongLong -> isUnsigned col = false ->
    - 2 ^ 63 <= x < 2 ^ 63 -> matches col (Int64 x)
| matches_uint64 (x : Z) :
    col_Type col = FieldTypeLongLong -> isUnsigned col = true ->
    0 <= x < 2 ^ 64 -> matches col (Uint64 x)
| matches_string (s : string) :
    isStringKind (col_Type col) = true ->
    Z.of_nat (String.length s) < 2 ^ 64 -> matches col (Str s)
| matches_date (y m d : Z) :
    col_Type col = FieldTypeDate \/ col_Type col = FieldTypeNewDate ->
    0 <= y <= 9999 -> 0 <= m <= 99 -> 0 <= d <= 99 ->
    matches col (Str (dateText y m d))
| matches_datetime (y m d h mi s : Z) :
    col_Type col = FieldTypeTimestamp \/ col_Type col = FieldTypeDateTime ->
    0 <= y <= 9999 -> 0 <= m <= 99 -> 0 <= d <= 99 ->
    0 <= h <= 99 -> 0 <= mi <= 99 -> 0 <= s <= 99 ->
    matches col (Str (dateTimeText y m d h mi s))
| matches_time (negative : bool) (days h mi s : Z) :
    col_Type col = FieldTypeTime ->
    0 <= days < 2 ^ 32 -> 0 <= h <= 99 -> 0 <= mi <= 99 -> 0 <= s <= 99 ->
    matches col (Str (timeText negative days h mi s 0)).

(** A row is well formed for a list of column definitions: a 24-bit payload
    length, the row marker recorded, a null bitmap of the length the packet
    gives it, and one entry per column carrying the column's type and name,
    with a nil value where the bitmap marks the column null and a matching
    value elsewhere. *)
Record wellFormed (row : BinaryRow) (columns : list ColumnDefinition41) : Prop := {
  wf_payload : 0 <= PayloadLength (row_Header row) < 2 ^ 24;
  wf_marker : OkAfterRow row = true;
  wf_bitmap : List.length (RowNullBuffer row) = ((List.length columns + 7 + 2) / 8)%nat;
  wf_count : List.length (Values row) = List.length columns;
  wf_entries :
    forall (i : nat) (col : ColumnDefinition41) (e : ColumnEntry),
      nth_error columns i = Some col ->
      nth_error (Values row) i = Some e ->
      exists v, e = entry col v
                /\ (isNull (RowNullBuffer row) i = Return true -> v = Nil)
                /\ (isNull (RowNullBuffer row) i = Return false -> matches col v)
}.

(** A text made of decimal digits only. *)
Fixpoint allDigits (s : string) : bool :=
  match s with
  | EmptyString => true
  | String c rest => fmt.isDigit c && allDigits rest
  end.

(** What the round trip of one value asks for: the encoder appends some
    bytes [written] to any buffer, and the decoder reads the value back from
    those bytes, whatever follows them, consuming exactly them. *)
Definition valueRoundTrips (col : ColumnDefinition41) (v : value) : Prop :=
  exists written : list byte,
    (forall buf, encodeColumn buf (entry col v) = Return (buf ++ written, None))
    /\ (forall rest, readBinaryValue (written ++ rest) col
                     = Return (v, List.length written, None)).

(** A sample result set: an unsigned LONG, a VAR_STRING, a DATETIME, a TIME
    and a FLOAT column, and a row of it whose FLOAT value is null (bit
    [4 + 2] of the bitmap). *)
Definition sampleColumns : list ColumnDefinition41 :=
  [ {| col_Name := "id"; col_Type := FieldTypeLong; col_Flags := 32 |};
    {| col_Name := "name"; col_Type := FieldTypeVarString; col_Flags := 0 |};
    {| col_Name := "created"; col_Type := FieldTypeDateTime; col_Flags := 0 |};
    {| col_Name := "elapsed"; col_Type := FieldTypeTime; col_Flags := 0 |};
    {| col_Name := "ratio"; col_Type := FieldTypeFloat; col_Flags := 0 |} ].

Definition sampleRow : BinaryRow :=
  {| row_Header := {| PayloadLength := 30; SequenceID := x05 |};
     Values :=
       [ {| ce_Type := FieldTypeLong; ce_Name := "id"; ce_Value := Uint32 4294967295 |};
         {| ce_Type := FieldTypeVarString; ce_Name := "name"; ce_Value := Str "hello" |};
         {| ce_Type := FieldTypeDateTime; ce_Name := "created";
            ce_Value := Str "2023-06-15 10:30:00" |};
         {| ce_Type := FieldTypeTime; ce_Name := "elapsed";
            ce_Value := Str "-3 02:15:30.000000" |};
         {| ce_Type := FieldTypeFloat; ce_Name := "ratio"; ce_Value := Nil |} ];
     OkAfterRow := true;
     RowNullBuffer := [x40] |}.

(** ** Vocabulary of the further properties *)

(** The integer kinds. *)
Definition isIntegerKind (t : FieldType) : bool :=
  match t with
  | FieldTypeTiny | FieldTypeShort | FieldTypeYear | FieldTypeLong
  | FieldTypeLongLong => true
  | _ => false
  end.

(** The kinds whose case in [readBinaryValue] neither indexes nor slices
    before a length check: the fixed-width kinds other than TINY, and the
    kinds the decoder does not support. *)
Definition isCheckedKind (t : FieldType) : bool :=
  match t with
  | FieldTypeShort | FieldTypeYear | FieldTypeLong | FieldTypeLongLong
  | FieldTypeFloat | FieldTypeDouble | FieldTypeOther _ => true
  | _ => false
  end.

(** The length of the null bitmap of a row of [n] columns. *)
Definition bitmapLength (n : nat) : nat := ((n + 7 + 2) / 8)%nat.

(** The wire forms that the codec reproduces byte for byte: an integer of
    the column's width, a length-encoded string with the shortest prefix,
    a date with length byte 4, a date and time with length byte 7 and a
    time with length byte 8 and sign byte 0 or 1, the year being at most
    9999 and the other fields at most 99. *)
Inductive wireField (col : ColumnDefinition41) : list byte -> Prop :=
| wire_tiny (b : byte) :
    col_Type col = FieldTypeTiny -> wireField col [b]
| wire_short (b0 b1 : byte) :
    col_Type col = FieldTypeShort \/ col_Type col = FieldTypeYear ->
    wireField col [b0; b1]
| wire_long (b0 b1 b2 b3 : byte) :
    col_Type col = FieldTypeLong -> wireField col [b0; b1; b2; b3]
| wire_longlong (b0 b1 b2 b3 b4 b5 b6 b7 : byte) :
    col_Type col = FieldTypeLongLong ->
    wireField col [b0; b1; b2; b3; b4; b5; b6; b7]
| wire_string (payload : list byte) :
    isStringKind (col_Type col) = true ->
    Z.of_nat (List.length payload) < 2 ^ 64 ->
    wireField col (utils.AppendLengthEncodedInteger [] (Z.of_nat (List.length payload))
                   ++ payload)
| wire_date (y0 y1 m d : byte) :
    col_Type col = FieldTypeDate \/ col_Type col = FieldTypeNewDate ->
    binary.le_value [y0; y1] <= 9999 -> byte_to_Z m <= 99 -> byte_to_Z d <= 99 ->
    wireField col [x04; y0; y1; m; d]
| wire_datetime (y0 y1 m d h mi s : byte) :
    col_Type col = FieldTypeTimestamp \/ col_Type col = FieldTypeDateTime ->
    binary.le_value [y0; y1] <= 9999 -> byte_to_Z m <= 99 -> byte_to_Z d <= 99 ->
    byte_to_Z h <= 99 -> byte_to_Z mi <= 99 -> byte_to_Z s <= 99 ->
    wireField col [x07; y0; y1; m; d; h; mi; s]
| wire_time (sign d0 d1 d2 d3 h mi s : byte) :
    col_Type col = FieldTypeTime ->
    sign = x00 \/ sign = x01 ->
    byte_to_Z h <= 99 -> byte_to_Z mi <= 99 -> byte_to_Z s <= 99 ->
    wireField col [x08; sign; d0; d1; d2; d3; h; mi; s].

(** The fields of a packet, one per column from column [i] on: no byte for
    a column that the bitmap marks null, a reproducible wire form for the
    others. *)
Inductive wireFields (bitmap : list byte)
  : nat -> list ColumnDefinition41 -> list (list byte) -> Prop :=
| wireFields_nil (i : nat) : wireFields bitmap i [] []
| wireFields_null (i : nat) (col : ColumnDefinition41)
    (columns : list ColumnDefinition41) (fields : list (list byte)) :
    isNull bitmap i = Return true ->
    wireFields bitmap (S i) columns fields ->
    wireFields bitmap i (col :: columns) ([] :: fields)
| wireFields_value (i : nat) (col : ColumnDefinition41) (field : list byte)
    (columns : list ColumnDefinition41) (fields : list (list byte)) :
    isNull bitmap i = Return false ->
    wireField col field ->
    wireFields bitmap (S i) columns fields ->
    wireFields bitmap i (col :: columns) (field :: fields).

(** A field that the codec reproduces: the decoder reads a value from it,
    whatever follows, consuming exactly the field, and the encoder writes
    the field back for that value. *)
Definition fieldReencodes (col : ColumnDefinition41) (field : list byte) : Prop :=
  exists v : value,
    (forall rest, readBinaryValue (field ++ rest) col
                  = Return (v, List.length field, None))
    /\ (forall buf, encodeColumn buf (entry col v) = Return (buf ++ field, None)).

(** An integer field: the decoder reads from it a value that matches the
    column, consuming exactly the field, and the encoder writes the field
    back for that value. *)
Definition integerFieldSpec (col : ColumnDefinition41) (field : list byte) : Prop :=
  exists v : value,
    (forall rest, readBinaryValue (field ++ rest) col
                  = Return (v, List.length field, None))
    /\ matches col v
    /\ (forall buf, encodeColumn buf (entry col v) = Return (buf ++ field, None)).

(** * Properties *)

(** ** Bytes *)

Lemma byte_to_Z_range (b : byte) : 0 <= byte_to_Z b < 256.
Proof.
  unfold byte_to_Z. pose proof (Byte.to_N_bounded b). lia.
Qed.

Lemma byte_of_to_Z (b : byte) : byte_of_Z (byte_to_Z b) = b.
Proof.
  unfold byte_of_Z, byte_to_Z.
  pose proof (Byte.to_N_bounded b).
  rewrite Z.mod_small by lia.
  rewrite N2Z.id, Byte.of_to_N. reflexivity.
Qed.

Lemma byte_to_of_Z (z : Z) : byte_to_Z (byte_of_Z z) = z mod 256.
Proof.
  unfold byte_of_Z, byte_to_Z.
  pose proof (Z.mod_pos_bound z 256 ltac:(lia)) as Hr.
  destruct (Byte.of_N (Z.to_N (z mod 256))) as [b|] eqn:E.
  - apply Byte.to_of_N in E. rewrite E. lia.
  - apply Byte.of_N_None_iff in E. lia.
Qed.

Lemma byte_to_Z_inj (a b : byte) : byte_to_Z a = byte_to_Z b -> a = b.
Proof.
  intros H. rewrite <- (byte_of_to_Z a), <- (byte_of_to_Z b), H. reflexivity.
Qed.

Lemma byte_to_Z_nonzero (b : byte) : b <> x00 -> (byte_to_Z b =? 0) = false.
Proof.
  intros H. apply Z.eqb_neq. intros E. apply H.
  apply byte_to_Z_inj. rewrite E. reflexivity.
Qed.

(** ** Temporal values on the encode path *)

(** C7: encoding the decoded TIME text ["-3 02:15:30.000000"] gives the
    eight-byte wire form: length byte 8, sign byte 1, day count 3 on four
    little-endian bytes, then 2, 15 and 30.  The microseconds are dropped:
    whatever follows the seconds in the text, the same bytes are written. *)
Theorem encode_negative_time_drops_microseconds :
  encodeBinaryDateTime FieldTypeTime (Str "-3 02:15:30.000000")
  = Return (Some [x08; x01; x03; x00; x00; x00; x02; x0f; x1e], None)
  /\ (forall fraction : string,
        encodeBinaryDateTime FieldTypeTime (Str ("-3 02:15:30" ++ fraction)%string)
        = Return (Some [x08; x01; x03; x00; x00; x00; x02; x0f; x1e], None))
  /\ parseBinaryTime [x08; x01; x03; x00; x00; x00; x02; x0f; x1e]
     = Return (Str "-3 02:15:30.000000", 9%nat, None).
Proof.
  split; [reflexivity | split].
  - intros fraction. destruct fraction; reflexivity.
  - reflexivity.
Qed.

(** ** Little-endian integers *)

Lemma byte_of_Z_add_multiple (x k : Z) : byte_of_Z (x + 256 * k) = byte_of_Z x.
Proof.
  unfold byte_of_Z.
  replace (x + 256 * k) with (x + k * 256) by lia.
  rewrite Z.mod_add by lia. reflexivity.
Qed.

Lemma le_value_range (b : list byte) :
  0 <= binary.le_value b < 256 ^ Z.of_nat (List.length b).
Proof.
  induction b as [|x b IH].
  - simpl. lia.
  - cbn [binary.le_value List.length].
    rewrite Nat2Z.inj_succ, Z.pow_succ_r by lia.
    pose proof (byte_to_Z_range x). lia.
Qed.

Lemma le_bytes_le_value (b : list byte) :
  binary.le_bytes (List.length b) (binary.le_value b) = b.
Proof.
  induction b as [|x b IH].
  - reflexivity.
  - cbn [binary.le_value List.length binary.le_bytes].
    pose proof (byte_to_Z_range x).
    rewrite byte_of_Z_add_multiple, byte_of_to_Z.
    replace ((byte_to_Z x + 256 * binary.le_value b) / 256) with (binary.le_value b).
    + rewrite IH. reflexivity.
    + symmetry. rewrite (Z.mul_comm 256), Z.div_add by lia.
      rewrite Z.div_small by lia. lia.
Qed.

Lemma le_bytes_length (n : nat) (z : Z) : List.length (binary.le_bytes n z) = n.
Proof.
  revert z. induction n as [|n IH]; intros z; simpl; [reflexivity | now rewrite IH].
Qed.

Lemma le_value_le_bytes (n : nat) (z : Z) :
  binary.le_value (binary.le_bytes n z) = z mod 256 ^ Z.of_nat n.
Proof.
  revert z. induction n as [|n IH]; intros z.
  - simpl. now rewrite Z.mod_1_r.
  - cbn [binary.le_bytes binary.le_value].
    rewrite IH, byte_to_of_Z, Nat2Z.inj_succ, Z.pow_succ_r by lia.
    rewrite Z.rem_mul_r by lia. reflexivity.
Qed.

(** Writing a two's-complement reading of a pattern writes the pattern. *)
Lemma le_bytes_signed (n : nat) (w z : Z) :
  (0 < n)%nat ->
  w = 8 * Z.of_nat n ->
  binary.le_bytes n (signed w z) = binary.le_bytes n z.
Proof.
  intros Hn ->.
  assert (Hmod : forall a b, a mod 256 ^ Z.of_nat n = b mod 256 ^ Z.of_nat n ->
                 binary.le_bytes n a = binary.le_bytes n b).
  { intros a b H.
    rewrite <- (le_bytes_le_value (binary.le_bytes n a)) at 1.
    rewrite <- (le_bytes_le_value (binary.le_bytes n b)).
    rewrite !le_bytes_length, !le_value_le_bytes, H. reflexivity. }
  apply Hmod.
  assert (Hp : 2 ^ (8 * Z.of_nat n) = 256 ^ Z.of_nat n).
  { rewrite Z.pow_mul_r by lia. reflexivity. }
  unfold signed, wrap. rewrite Hp.
  pose proof (Z.pow_pos_nonneg 256 (Z.of_nat n) ltac:(lia) ltac:(lia)).
  destruct (z mod 256 ^ Z.of_nat n <? 2 ^ (8 * Z.of_nat n - 1)).
  - apply Z.mod_mod. lia.
  - rewrite <- (Z.mod_add _ 1) by lia.
    replace (z mod 256 ^ Z.of_nat n - 256 ^ Z.of_nat n + 1 * 256 ^ Z.of_nat n)
      with (z mod 256 ^ Z.of_nat n) by lia.
    apply Z.mod_mod. lia.
Qed.

Lemma ReadUint24_le_value (a b c : byte) :
  utils.ReadUint24 [a; b; c] = Return (binary.le_value [a; b; c]).
Proof.
  unfold utils.ReadUint24, index. cbn [nth_error bind binary.le_value].
  f_equal. change (2 ^ 8) with 256. change (2 ^ 16) with 65536. lia.
Qed.

(** ** Slices *)

Lemma slice_middle (a b c : list byte) :
  slice (a ++ b ++ c) (List.length a) (List.length a + List.length b) = Return b.
Proof.
  unfold slice.
  assert (H1 : (List.length a + List.length b <=? List.length (a ++ b ++ c))%nat = true).
  { apply Nat.leb_le. rewrite !length_app. lia. }
  assert (H2 : (List.length a <=? List.length a + List.length b)%nat = true).
  { apply Nat.leb_le. lia. }
  rewrite H1, H2. cbn [andb]. f_equal.
  rewrite skipn_app, skipn_all, Nat.sub_diag. cbn [skipn app].
  replace (List.length a + List.length b - List.length a)%nat with (List.length b + 0)%nat by lia.
  rewrite firstn_app_2. cbn [firstn]. apply app_nil_r.
Qed.

Lemma slice_from_suffix (a b : list byte) :
  slice_from (a ++ b) (List.length a) = Return b.
Proof.
  unfold slice_from.
  assert (H : (List.length a <=? List.length (a ++ b))%nat = true).
  { apply Nat.leb_le. rewrite length_app. lia. }
  rewrite H. f_equal.
  rewrite skipn_app, skipn_all, Nat.sub_diag. reflexivity.
Qed.

(** ** The shape of the row decoder *)

(** On a packet made of a four-byte header, the row marker, a null bitmap of
    the length the decoder computes and a body, the decoder runs its column
    loop from offset [5 + length bitmap] and wraps the entries in a row. *)
Lemma DecodeBinaryRow_packet (h0 h1 h2 seq : byte) (bitmap body : list byte)
    (columns : list ColumnDefinition41) :
  List.length bitmap = ((List.length columns + 7 + 2) / 8)%nat ->
  DecodeBinaryRow (h0 :: h1 :: h2 :: seq :: x00 :: bitmap ++ body) columns
  = bind (decodeColumns (h0 :: h1 :: h2 :: seq :: x00 :: bitmap ++ body) bitmap 0
            columns (5 + List.length bitmap) [])
      (fun r =>
         match r with
         | (Some vs, offset, err) =>
             Return (Some {| row_Header := {| PayloadLength := binary.le_value [h0; h1; h2];
                                              SequenceID := seq |};
                             Values := vs;
                             OkAfterRow := true;
                             RowNullBuffer := bitmap |}, offset, err)
         | (None, offset, err) => Return (None, offset, err)
         end).
Proof.
  intros Hlen. unfold DecodeBinaryRow.
  change (slice (h0 :: h1 :: h2 :: seq :: x00 :: bitmap ++ body) 0 (0 + 3))
    with (Return [h0; h1; h2]).
  cbn [bind]. rewrite ReadUint24_le_value. cbn [bind].
  change (index (h0 :: h1 :: h2 :: seq :: x00 :: bitmap ++ body) (0 + 3)) with (Return seq).
  change (index (h0 :: h1 :: h2 :: seq :: x00 :: bitmap ++ body) (0 + 4)) with (Return x00).
  cbn [bind]. change (negb (byte_to_Z x00 =? 0)) with false. cbv iota.
  rewrite <- Hlen.
  pose proof (slice_middle [h0; h1; h2; seq; x00] bitmap body) as Hs.
  cbn [List.length app] in Hs.
  change (0 + 4 + 1)%nat with 5%nat. rewrite Hs. cbn [bind].
  destruct (decodeColumns _ _ _ _ _ _) as [[[[vs|] off] err]|p]; reflexivity.
Qed.

(** The column loop on a null column and on a column with a value. *)
Lemma decodeColumns_null (data bitmap : list byte) (i : nat)
    (col : ColumnDefinition41) (rest : list ColumnDefinition41)
    (offset : nat) (values : list ColumnEntry) :
  isNull bitmap i = Return true ->
  decodeColumns data bitmap i (col :: rest) offset values
  = decodeColumns data bitmap (S i) rest offset (values ++ [entry col Nil]).
Proof.
  intros H. cbn [decodeColumns]. rewrite H. reflexivity.
Qed.

Lemma decodeColumns_value (data bitmap remaining : list byte) (i : nat)
    (col : ColumnDefinition41) (rest : list ColumnDefinition41)
    (offset n : nat) (values : list ColumnEntry) (v : value) :
  isNull bitmap i = Return false ->
  slice_from data offset = Return remaining ->
  readBinaryValue remaining col = Return (v, n, None) ->
  decodeColumns data bitmap i (col :: rest) offset values
  = decodeColumns data bitmap (S i) rest (offset + n) (values ++ [entry col v]).
Proof.
  intros H1 H2 H3. cbn [decodeColumns]. rewrite H1. cbn [bind].
  rewrite H2. cbn [bind]. rewrite H3. reflexivity.
Qed.

Lemma decodeColumns_error (data bitmap remaining : list byte) (i : nat)
    (col : ColumnDefinition41) (rest : list ColumnDefinition41)
    (offset n : nat) (values : list ColumnEntry) (v : value) (e : error) :
  isNull bitmap i = Return false ->
  slice_from data offset = Return remaining ->
  readBinaryValue remaining col = Return (v, n, Some e) ->
  decodeColumns data bitmap i (col :: rest) offset values
  = Return (None, offset, Some e).
Proof.
  intros H1 H2 H3. cbn [decodeColumns]. rewrite H1. cbn [bind].
  rewrite H2. cbn [bind]. rewrite H3. reflexivity.
Qed.

(** ** Integers *)

(** C8: for a LONG column whose unsigned flag is set, the wire bytes
    [ff ff ff ff] decode to the unsigned value 4294967295 with four bytes
    consumed, and encoding that value for the same column writes the same
    four bytes; so does the row made of that single column. *)
Theorem long_unsigned_max_roundtrip :
  forall (col : ColumnDefinition41) (h0 h1 h2 seq : byte),
    col_Type col = FieldTypeLong ->
    isUnsigned col = true ->
    readBinaryValue [xff; xff; xff; xff] col = Return (Uint32 4294967295, 4%nat, None)
    /\ encodeColumn [] (entry col (Uint32 4294967295))
       = Return ([xff; xff; xff; xff], None)
    /\ exists row,
         DecodeBinaryRow [h0; h1; h2; seq; x00; x00; xff; xff; xff; xff] [col]
         = Return (Some row, 10%nat, None)
         /\ Values row = [entry col (Uint32 4294967295)]
         /\ EncodeBinaryRow row [col]
            = Return (Some [h0; h1; h2; seq; x00; x00; xff; xff; xff; xff], None).
Proof.
  intros col h0 h1 h2 seq Ht Hu.
  assert (Hread : readBinaryValue [xff; xff; xff; xff] col
                  = Return (Uint32 4294967295, 4%nat, None)).
  { unfold readBinaryValue. rewrite Ht, Hu. reflexivity. }
  assert (Hwrite : forall buf, encodeColumn buf (entry col (Uint32 4294967295))
                   = Return (buf ++ [xff; xff; xff; xff], None)).
  { intros buf. unfold encodeColumn, entry. cbn [ce_Type ce_Value]. rewrite Ht.
    reflexivity. }
  split; [exact Hread | split; [apply (Hwrite []) |]].
  eexists. split; [| split].
  - pose proof (DecodeBinaryRow_packet h0 h1 h2 seq [x00] [xff; xff; xff; xff] [col]
                  eq_refl) as Hp.
    cbn [List.length Nat.add app] in Hp. rewrite Hp.
    erewrite decodeColumns_value; [| reflexivity | reflexivity | exact Hread].
    reflexivity.
  - reflexivity.
  - unfold EncodeBinaryRow, utils.WriteUint24.
    cbn [row_Header PayloadLength SequenceID RowNullBuffer app].
    pose proof (le_bytes_le_value [h0; h1; h2]) as Hl.
    cbn [List.length] in Hl. rewrite Hl.
    cbn [encodeColumns app RowNullBuffer Values].
    change (isNull [x00] 0) with (Return false).
    cbn [bind nth_error]. rewrite Hwrite. reflexivity.
Qed.

Lemma long_unsigned_max_roundtrip_witness :
  readBinaryValue [xff; xff; xff; xff]
    {| col_Name := "id"; col_Type := FieldTypeLong; col_Flags := 32 |}
  = Return (Uint32 4294967295, 4%nat, None).
Proof.
  apply (long_unsigned_max_roundtrip
           {| col_Name := "id"; col_Type := FieldTypeLong; col_Flags := 32 |}
           x06 x00 x00 x01); reflexivity.
Defined.

(** ** Temporal values on the decode path *)

Lemma isTemporal_cases (t : FieldType) :
  isTemporal t = true ->
  t = FieldTypeDate \/ t = FieldTypeNewDate \/ t = FieldTypeTimestamp
  \/ t = FieldTypeDateTime \/ t = FieldTypeTime.
Proof.
  destruct t; cbn; intros H; try discriminate H; tauto.
Qed.

(** C9: every temporal decoder, given an empty remaining buffer, returns a
    nil value, zero bytes consumed and no error; the column loop then goes
    on to the next column with the cursor unchanged, as the one-column
    packet that ends right after its null bitmap shows. *)
Theorem temporal_empty_buffer_decodes_nil :
  forall col : ColumnDefinition41,
    isTemporal (col_Type col) = true ->
    readBinaryValue [] col = Return (Nil, 0%nat, None)
    /\ (forall (data bitmap : list byte) (i : nat) (rest : list ColumnDefinition41)
               (values : list ColumnEntry),
          isNull bitmap i = Return false ->
          decodeColumns data bitmap i (col :: rest) (List.length data) values
          = decodeColumns data bitmap (S i) rest (List.length data)
              (values ++ [entry col Nil]))
    /\ (forall h0 h1 h2 seq : byte,
          DecodeBinaryRow [h0; h1; h2; seq; x00; x00] [col]
          = Return (Some {| row_Header := {| PayloadLength := binary.le_value [h0; h1; h2];
                                             SequenceID := seq |};
                            Values := [entry col Nil];
                            OkAfterRow := true;
                            RowNullBuffer := [x00] |}, 6%nat, None)).
Proof.
  intros col Ht.
  assert (Hread : readBinaryValue [] col = Return (Nil, 0%nat, None)).
  { unfold readBinaryValue.
    destruct (isTemporal_cases _ Ht) as [E|[E|[E|[E|E]]]]; rewrite E; reflexivity. }
  assert (Hstep : forall (data bitmap : list byte) (i : nat)
                         (rest : list ColumnDefinition41) (values : list ColumnEntry),
             isNull bitmap i = Return false ->
             decodeColumns data bitmap i (col :: rest) (List.length data) values
             = decodeColumns data bitmap (S i) rest (List.length data)
                 (values ++ [entry col Nil])).
  { intros data bitmap i rest values Hn.
    rewrite (decodeColumns_value data bitmap [] i col rest (List.length data) 0 values Nil
               Hn); [now rewrite Nat.add_0_r | | exact Hread].
    pose proof (slice_from_suffix data []) as Hs.
    rewrite app_nil_r in Hs. exact Hs. }
  split; [exact Hread | split; [exact Hstep |]].
  intros h0 h1 h2 seq.
  pose proof (DecodeBinaryRow_packet h0 h1 h2 seq [x00] [] [col] eq_refl) as Hp.
  cbn [List.length Nat.add app] in Hp. rewrite Hp.
  pose proof (Hstep [h0; h1; h2; seq; x00; x00] [x00] 0%nat [] [] eq_refl) as Hs.
  cbn [List.length] in Hs. rewrite Hs.
  reflexivity.
Qed.

Lemma temporal_empty_buffer_decodes_nil_witness :
  readBinaryValue [] {| col_Name := "t"; col_Type := FieldTypeTime; col_Flags := 0 |}
  = Return (Nil, 0%nat, None).
Proof.
  apply (temporal_empty_buffer_decodes_nil
           {| col_Name := "t"; col_Type := FieldTypeTime; col_Flags := 0 |}).
  reflexivity.
Defined.

(** No temporal decoder ever returns an error. *)
Lemma temporal_decoders_return_no_error (col : ColumnDefinition41) (b : list byte)
    (v : value) (n : nat) (err : option error) :
  isTemporal (col_Type col) = true ->
  readBinaryValue b col = Return (v, n, err) ->
  err = None.
Proof.
  intros Ht H. unfold readBinaryValue in H.
  destruct (isTemporal_cases _ Ht) as [E|[E|[E|[E|E]]]]; rewrite E in H;
    unfold parseBinaryDate, parseBinaryDateTime, parseBinaryTime in H;
    repeat match type of H with
      | (if ?c then _ else _) = _ => destruct c
      | bind ?m _ = _ => destruct m; cbn [bind] in H
      | Return _ = Return _ => inversion H; reflexivity
      | Panic _ = Return _ => discriminate H
      end.
Qed.

(** C10: the temporal decoders never compare the declared length byte with
    the size of the remaining buffer.  A field that starts with a non-zero
    length byte and is shorter than its fixed fields makes the decoder read
    out of bounds (a panic of the run time), for instance the DATE field
    made of the single byte [04]; no temporal decoder ever returns an
    error; and a DATE whose fixed fields are present is accepted with
    [length + 1] bytes reported as consumed, whatever the buffer holds. *)
Theorem temporal_length_byte_unchecked :
  (forall (col : ColumnDefinition41) (l : byte) (rest : list byte),
      isTemporal (col_Type col) = true ->
      l <> x00 ->
      (List.length (l :: rest) < temporalSpan (col_Type col))%nat ->
      exists p, readBinaryValue (l :: rest) col = Panic p)
  /\ (forall col : ColumnDefinition41,
        col_Type col = FieldTypeDate ->
        readBinaryValue [x04] col = Panic SliceBoundsOutOfRange
        /\ forall h0 h1 h2 seq : byte,
             DecodeBinaryRow [h0; h1; h2; seq; x00; x00; x04] [col]
             = Panic SliceBoundsOutOfRange)
  /\ (forall (col : ColumnDefinition41) (b : list byte) (v : value) (n : nat)
             (err : option error),
        isTemporal (col_Type col) = true ->
        readBinaryValue b col = Return (v, n, err) ->
        err = None)
  /\ (forall (col : ColumnDefinition41) (l y0 y1 m d : byte) (rest : list byte),
        col_Type col = FieldTypeDate ->
        l <> x00 ->
        exists text,
          readBinaryValue (l :: y0 :: y1 :: m :: d :: rest) col
          = Return (Str text, (Z.to_nat (byte_to_Z l) + 1)%nat, None)).
Proof.
  split; [| split; [| split]].
  - intros col l rest Ht Hl Hlen.
    unfold readBinaryValue.
    destruct (isTemporal_cases _ Ht) as [E|[E|[E|[E|E]]]]; rewrite E in *;
      cbn [temporalSpan List.length] in Hlen;
      unfold parseBinaryDate, parseBinaryDateTime, parseBinaryTime;
      cbn [List.length Nat.eqb index nth_error bind];
      rewrite (byte_to_Z_nonzero l Hl);
      repeat (destruct rest as [|? rest]; [eexists; reflexivity |]);
      cbn [List.length] in Hlen; lia.
  - intros col E. split.
    + unfold readBinaryValue. rewrite E. reflexivity.
    + intros h0 h1 h2 seq.
      pose proof (DecodeBinaryRow_packet h0 h1 h2 seq [x00] [x04] [col] eq_refl) as Hp.
      cbn [List.length Nat.add app] in Hp. rewrite Hp.
      cbn [decodeColumns]. change (isNull [x00] 0) with (Return false).
      cbn [bind]. change (slice_from [h0; h1; h2; seq; x00; x00; x04] 6)
        with (Return [x04]).
      cbn [bind]. unfold readBinaryValue. rewrite E. reflexivity.
  - intros col b v n err. apply temporal_decoders_return_no_error.
  - intros col l y0 y1 m d rest E Hl.
    unfold readBinaryValue. rewrite E.
    unfold parseBinaryDate.
    cbn [List.length Nat.eqb index nth_error bind].
    rewrite (byte_to_Z_nonzero l Hl).
    eexists. reflexivity.
Qed.

Lemma temporal_length_byte_unchecked_witness :
  exists p,
    readBinaryValue [x07; xe7; x07; x06]
      {| col_Name := "t"; col_Type := FieldTypeDateTime; col_Flags := 0 |}
    = Panic p.
Proof.
  apply (proj1 temporal_length_byte_unchecked
           {| col_Name := "t"; col_Type := FieldTypeDateTime; col_Flags := 0 |}
           x07 [xe7; x07; x06]).
  - reflexivity.
  - discriminate.
  - cbn. lia.
Defined.

(** ** Fixed-width values and short buffers *)

(** The fixed-width kinds that check the remaining length: a buffer shorter
    than the width gives an error with zero bytes consumed. *)
Lemma checked_kinds_short_buffer (col : ColumnDefinition41) (data : list byte) (w : nat) :
  fixedWidth (col_Type col) = Some w ->
  col_Type col <> FieldTypeTiny ->
  (List.length data < w)%nat ->
  exists msg, readBinaryValue data col = Return (Nil, 0%nat, Some (errors_New msg)).
Proof.
  intros Hw Ht Hlen. unfold readBinaryValue.
  destruct (col_Type col); cbn in Hw; try discriminate Hw; try congruence;
    inversion Hw; subst w;
    apply Nat.ltb_lt in Hlen; rewrite Hlen; eexists; reflexivity.
Qed.

(** The row decoder aborts with the error of the value decoder, returning
    no row and the cursor reached. *)
Lemma short_buffer_aborts_row (data bitmap remaining : list byte) (i w : nat)
    (col : ColumnDefinition41) (rest : list ColumnDefinition41)
    (offset : nat) (values : list ColumnEntry) :
  fixedWidth (col_Type col) = Some w ->
  col_Type col <> FieldTypeTiny ->
  isNull bitmap i = Return false ->
  slice_from data offset = Return remaining ->
  (List.length remaining < w)%nat ->
  exists msg,
    decodeColumns data bitmap i (col :: rest) offset values
    = Return (None, offset, Some (errors_New msg)).
Proof.
  intros Hw Ht Hn Hs Hlen.
  destruct (checked_kinds_short_buffer col remaining w Hw Ht Hlen) as [msg Hm].
  exists msg. eapply decodeColumns_error; eassumption.
Qed.

(** A LONG column on a three-byte remainder is a malformed-value error with
    zero bytes consumed. *)
Lemma long_three_byte_remainder (col : ColumnDefinition41) (a b c : byte) :
  col_Type col = FieldTypeLong ->
  readBinaryValue [a; b; c] col
  = Return (Nil, 0%nat, Some (errors_New "malformed FieldTypeLong value")).
Proof.
  intros E. unfold readBinaryValue. rewrite E. reflexivity.
Qed.

(** C3: the TINY case reads [data[0]] with no check of the remaining
    length.  On an empty remainder, which is fewer bytes than the width 1,
    the decoder does not return a malformed-value error with zero bytes
    consumed: it indexes out of bounds and panics, and so does the row
    decoder on a packet that ends after the null bitmap. *)
Theorem tiny_empty_buffer_panics :
  forall col : ColumnDefinition41,
    col_Type col = FieldTypeTiny ->
    fixedWidth (col_Type col) = Some 1%nat
    /\ readBinaryValue [] col = Panic IndexOutOfRange
    /\ (forall (v : value) (n : nat) (err : option error),
          readBinaryValue [] col <> Return (v, n, err))
    /\ (forall h0 h1 h2 seq : byte,
          DecodeBinaryRow [h0; h1; h2; seq; x00; x00] [col] = Panic IndexOutOfRange).
Proof.
  intros col E.
  assert (Hread : readBinaryValue [] col = Panic IndexOutOfRange).
  { unfold readBinaryValue. rewrite E. reflexivity. }
  split; [now rewrite E | split; [exact Hread | split]].
  - intros v n err. rewrite Hread. discriminate.
  - intros h0 h1 h2 seq.
    pose proof (DecodeBinaryRow_packet h0 h1 h2 seq [x00] [] [col] eq_refl) as Hp.
    cbn [List.length Nat.add app] in Hp. rewrite Hp.
    cbn [decodeColumns]. change (isNull [x00] 0) with (Return false).
    cbn [bind]. change (slice_from [h0; h1; h2; seq; x00; x00] 6) with (Return (@nil byte)).
    cbn [bind]. rewrite Hread. reflexivity.
Qed.

Lemma tiny_empty_buffer_panics_witness :
  readBinaryValue [] {| col_Name := "flag"; col_Type := FieldTypeTiny; col_Flags := 0 |}
  = Panic IndexOutOfRange.
Proof.
  apply (tiny_empty_buffer_panics
           {| col_Name := "flag"; col_Type := FieldTypeTiny; col_Flags := 0 |}).
  reflexivity.
Defined.

(** ** The null bitmap *)

Lemma land_bit_testbit (x : Z) (k : Z) :
  0 <= k ->
  negb (Z.land x (Z.shiftl 1 k) =? 0) = Z.testbit x k.
Proof.
  intros Hk. destruct (Z.testbit x k) eqn:E.
  - apply negb_true_iff, Z.eqb_neq. intros H0.
    assert (Hb : Z.testbit (Z.land x (Z.shiftl 1 k)) k = true).
    { rewrite Z.land_spec, E, Z.shiftl_spec by lia.
      now rewrite Z.sub_diag. }
    rewrite H0, Z.bits_0 in Hb. discriminate Hb.
  - apply negb_false_iff, Z.eqb_eq. apply Z.bits_inj'. intros n Hn.
    rewrite Z.land_spec, Z.bits_0, Z.shiftl_spec by lia.
    destruct (Z.eq_dec n k) as [->|Hne].
    + now rewrite E.
    + destruct (Z.ltb_spec n k).
      * rewrite (Z.testbit_neg_r 1 (n - k)) by lia. apply andb_false_r.
      * rewrite (Z.bits_above_log2 1 (n - k)) by (cbn; lia). apply andb_false_r.
Qed.

(** The bits of a bitmap, numbered across its bytes: bit [8 * k + r] of the
    little-endian number is bit [r] of byte [k]. *)
Lemma le_value_testbit (bitmap : list byte) :
  forall (k r : nat) (x : byte),
    (r < 8)%nat ->
    nth_error bitmap k = Some x ->
    Z.testbit (binary.le_value bitmap) (Z.of_nat (8 * k + r))
    = Z.testbit (byte_to_Z x) (Z.of_nat r).
Proof.
  induction bitmap as [|y rest IH]; intros k r x Hr Hx.
  - destruct k; discriminate Hx.
  - cbn [binary.le_value]. pose proof (byte_to_Z_range y) as Hy.
    destruct k as [|k]; cbn [nth_error] in Hx.
    + inversion Hx; subst y. rewrite Nat.mul_0_r, Nat.add_0_l.
      rewrite <- (Z.mod_pow2_bits_low (byte_to_Z x + 256 * binary.le_value rest) 8)
        by lia.
      change (2 ^ 8) with 256. rewrite Z.mul_comm, Z.mod_add by lia.
      now rewrite Z.mod_small by lia.
    + replace (Z.of_nat (8 * S k + r)) with (Z.of_nat (8 * k + r) + 8) by lia.
      rewrite <- Z.div_pow2_bits by lia. change (2 ^ 8) with 256.
      rewrite (Z.mul_comm 256), Z.div_add by lia.
      rewrite Z.div_small by lia. cbn [Z.add]. now apply IH.
Qed.

Lemma DecodeBinaryRow_success (data : list byte) (columns : list ColumnDefinition41)
    (row : BinaryRow) (n : nat) (err : option error) :
  DecodeBinaryRow data columns = Return (Some row, n, err) ->
  exists bitmap,
    slice data 5 (5 + (List.length columns + 7 + 2) / 8) = Return bitmap
    /\ decodeColumns data bitmap 0 columns (5 + (List.length columns + 7 + 2) / 8) []
       = Return (Some (Values row), n, err)
    /\ RowNullBuffer row = bitmap
    /\ OkAfterRow row = true.
Proof.
  unfold DecodeBinaryRow. intros H.
  destruct (slice data 0 (0 + 3)) as [hb|]; cbn [bind] in H; [| discriminate H].
  destruct (utils.ReadUint24 hb) as [pl|]; cbn [bind] in H; [| discriminate H].
  destruct (index data (0 + 3)) as [sq|]; cbn [bind] in H; [| discriminate H].
  destruct (index data (0 + 4)) as [mk|]; cbn [bind] in H; [| discriminate H].
  destruct (negb (byte_to_Z mk =? 0)); [discriminate H |].
  change (0 + 4 + 1)%nat with 5%nat in H.
  destruct (slice data 5 _) as [bitmap|]; cbn [bind] in H; [| discriminate H].
  exists bitmap. split; [reflexivity |].
  destruct (decodeColumns _ _ _ _ _ _) as [[[[vs|] off] e]|]; cbn [bind] in H;
    try discriminate H.
  inversion H; subst. cbn. auto.
Qed.

(** C4: [isNull] tests bit [(i + 2) mod 8] of byte [(i + 2) / 8], that is
    bit [i + 2] of the bitmap read as one little-endian number; for the
    first column this is bit 2 of byte 0 (mask 4), not bit 0; and the
    bitmap of a decoded row is the [(numColumns + 7 + 2) / 8] bytes that
    follow the row marker. *)
Theorem isNull_tests_bit_index_plus_two :
  (forall (bitmap : list byte) (i : nat),
      isNull bitmap i
      = bind (index bitmap ((i + 2) / 8))
          (fun x => Return (Z.testbit (byte_to_Z x) (Z.of_nat ((i + 2) mod 8)))))
  /\ (forall (bitmap : list byte) (i : nat),
        ((i + 2) / 8 < List.length bitmap)%nat ->
        isNull bitmap i = Return (Z.testbit (binary.le_value bitmap) (Z.of_nat (i + 2))))
  /\ (forall (b : byte) (rest : list byte),
        isNull (b :: rest) 0 = Return (negb (Z.land (byte_to_Z b) 4 =? 0)))
  /\ isNull [x04] 0 = Return true
  /\ isNull [x01] 0 = Return false
  /\ (forall (data : list byte) (columns : list ColumnDefinition41) (row : BinaryRow)
             (n : nat) (err : option error),
        DecodeBinaryRow data columns = Return (Some row, n, err) ->
        RowNullBuffer row
        = firstn ((List.length columns + 7 + 2) / 8) (skipn 5 data)
        /\ List.length (RowNullBuffer row) = ((List.length columns + 7 + 2) / 8)%nat).
Proof.
  assert (Hbit : forall (bitmap : list byte) (i : nat),
             isNull bitmap i
             = bind (index bitmap ((i + 2) / 8))
                 (fun x => Return (Z.testbit (byte_to_Z x) (Z.of_nat ((i + 2) mod 8))))).
  { intros bitmap i. unfold isNull.
    destruct (index bitmap ((i + 2) / 8)) as [x|]; cbn [bind]; [| reflexivity].
    rewrite land_bit_testbit by lia. reflexivity. }
  split; [exact Hbit | split; [| split; [| split; [| split]]]].
  - intros bitmap i Hlen. rewrite Hbit. unfold index.
    destruct (nth_error bitmap ((i + 2) / 8)) as [x|] eqn:Hx.
    + cbn [bind]. f_equal.
      rewrite <- (le_value_testbit bitmap ((i + 2) / 8) ((i + 2) mod 8) x).
      * f_equal. f_equal. symmetry. apply Nat.div_mod_eq.
      * apply Nat.mod_upper_bound. lia.
      * exact Hx.
    + apply nth_error_None in Hx. lia.
  - intros b rest. reflexivity.
  - reflexivity.
  - reflexivity.
  - intros data columns row n err H.
    destruct (DecodeBinaryRow_success _ _ _ _ _ H) as (bitmap & Hs & _ & Hb & _).
    rewrite Hb. unfold slice in Hs.
    destruct (_ && _) eqn:Hc; [| discriminate Hs].
    apply andb_true_iff in Hc. destruct Hc as [Hc _]. apply Nat.leb_le in Hc.
    replace (5 + (List.length columns + 7 + 2) / 8 - 5)%nat
      with ((List.length columns + 7 + 2) / 8)%nat in Hs by lia.
    assert (Hbm : firstn ((List.length columns + 7 + 2) / 8) (skipn 5 data) = bitmap)
      by congruence.
    rewrite <- Hbm. split; [reflexivity |].
    rewrite length_firstn, length_skipn. lia.
Qed.

Lemma isNull_tests_bit_index_plus_two_witness :
  RowNullBuffer {| row_Header := {| PayloadLength := 2; SequenceID := x01 |};
                   Values := [entry {| col_Name := "id"; col_Type := FieldTypeLong;
                                       col_Flags := 0 |} Nil];
                   OkAfterRow := true;
                   RowNullBuffer := [x04] |}
  = firstn ((1 + 7 + 2) / 8) (skipn 5 [x02; x00; x00; x01; x00; x04]).
Proof.
  apply (proj2 (proj2 (proj2 (proj2 (proj2 isNull_tests_bit_index_plus_two))))
           [x02; x00; x00; x01; x00; x04]
           [{| col_Name := "id"; col_Type := FieldTypeLong; col_Flags := 0 |}]
           _ 6%nat None).
  reflexivity.
Defined.

(** ** Null columns *)

(** What the column loop of the decoder returns: never an error together
    with entries; on success one entry per column, in order, after the
    entries it started with, each carrying the type and name of its column,
    and a nil value where the bitmap marks the column null. *)
Lemma decodeColumns_no_partial_row (columns : list ColumnDefinition41) :
  forall (data bitmap : list byte) (i offset : nat) (values : list ColumnEntry)
         (vs : option (list ColumnEntry)) (n : nat) (e : error),
    decodeColumns data bitmap i columns offset values = Return (vs, n, Some e) ->
    vs = None.
Proof.
  induction columns as [|col rest IH]; intros data bitmap i offset values vs n e H.
  - cbn in H. discriminate H.
  - cbn [decodeColumns] in H.
    destruct (isNull bitmap i) as [[|]|]; cbn [bind] in H; try discriminate H.
    + eapply IH; eassumption.
    + destruct (slice_from data offset) as [rem|]; cbn [bind] in H; [| discriminate H].
      destruct (readBinaryValue rem col) as [[[v k] [e'|]]|]; cbn [bind] in H;
        try discriminate H.
      * inversion H. reflexivity.
      * eapply IH; eassumption.
Qed.

Lemma decodeColumns_entries (columns : list ColumnDefinition41) :
  forall (data bitmap : list byte) (i offset : nat) (values vs : list ColumnEntry)
         (n : nat) (err : option error),
    decodeColumns data bitmap i columns offset values = Return (Some vs, n, err) ->
    err = None
    /\ exists fresh,
         vs = values ++ fresh
         /\ forall (j : nat) (col : ColumnDefinition41),
              nth_error columns j = Some col ->
              exists v, nth_error fresh j = Some (entry col v)
                        /\ (isNull bitmap (i + j) = Return true -> v = Nil).
Proof.
  induction columns as [|col rest IH]; intros data bitmap i offset values vs n err H.
  - cbn in H. inversion H; subst. split; [reflexivity |].
    exists []. split; [now rewrite app_nil_r |].
    intros j c Hj. destruct j; discriminate Hj.
  - cbn [decodeColumns] in H.
    destruct (isNull bitmap i) as [[|]|] eqn:Hn; cbn [bind] in H; try discriminate H.
    + apply IH in H. destruct H as (He & fresh & Hvs & Hnth).
      split; [exact He |]. exists (entry col Nil :: fresh). split.
      * rewrite Hvs, <- app_assoc. reflexivity.
      * intros [|j] c Hj; cbn [nth_error] in *.
        -- inversion Hj; subst c. exists Nil. auto.
        -- destruct (Hnth j c Hj) as (v & Hv & Hnil). exists v. split; [exact Hv |].
           intros Hb. apply Hnil. now replace (S i + j)%nat with (i + S j)%nat by lia.
    + destruct (slice_from data offset) as [rem|]; cbn [bind] in H; [| discriminate H].
      destruct (readBinaryValue rem col) as [[[v k] [e'|]]|]; cbn [bind] in H;
        try discriminate H.
      apply IH in H. destruct H as (He & fresh & Hvs & Hnth).
      split; [exact He |]. exists (entry col v :: fresh). split.
      * rewrite Hvs, <- app_assoc. reflexivity.
      * intros [|j] c Hj; cbn [nth_error] in *.
        -- inversion Hj; subst c. exists v. split; [reflexivity |].
           rewrite Nat.add_0_r, Hn. intros Hb. discriminate Hb.
        -- destruct (Hnth j c Hj) as (v' & Hv & Hnil). exists v'. split; [exact Hv |].
           intros Hb. apply Hnil. now replace (S i + j)%nat with (i + S j)%nat by lia.
Qed.

(** What one column adds to the buffer of the encoder: on success the
    buffer it was given is a prefix of the buffer it returns. *)
Lemma encodeColumn_extends (buf buf' : list byte) (e : ColumnEntry) :
  encodeColumn buf e = Return (buf', None) ->
  exists written, buf' = buf ++ written.
Proof.
  unfold encodeColumn, utils.WriteLengthEncodedString, utils.AppendLengthEncodedInteger.
  intros H.
  destruct (ce_Type e); destruct (ce_Value e);
    repeat match type of H with
      | bind ?m _ = _ => destruct m as [[[?|] [?|]]|]; cbn [bind] in H
      | context [if ?c then _ else _] => destruct c
      end;
    try discriminate H; inversion H; subst;
    rewrite <- ?app_assoc; eexists; try reflexivity;
    symmetry; apply app_nil_r.
Qed.

Lemma encodeColumns_extends (columns : list ColumnDefinition41) :
  forall (row : BinaryRow) (i : nat) (buf out : list byte) (err : option error),
    encodeColumns row i columns buf = Return (Some out, err) ->
    err = None /\ exists written, out = buf ++ written.
Proof.
  induction columns as [|col rest IH]; intros row i buf out err H.
  - cbn in H. inversion H; subst. split; [reflexivity |].
    exists []. now rewrite app_nil_r.
  - cbn [encodeColumns] in H.
    destruct (isNull (RowNullBuffer row) i) as [[|]|]; cbn [bind] in H;
      try discriminate H.
    + eapply IH; eassumption.
    + destruct (nth_error (Values row) i) as [e|]; [| discriminate H].
      destruct (encodeColumn buf e) as [[buf' [e'|]]|] eqn:He; cbn [bind] in H;
        try discriminate H.
      apply IH in H. destruct H as (Herr & w & Hw).
      destruct (encodeColumn_extends _ _ _ He) as (w' & Hw').
      split; [exact Herr |]. exists (w' ++ w). rewrite Hw, Hw', app_assoc.
      reflexivity.
Qed.

Lemma encodeColumns_all_null (columns : list ColumnDefinition41) :
  forall (row : BinaryRow) (i : nat) (buf : list byte),
    (forall j, (j < List.length columns)%nat ->
               isNull (RowNullBuffer row) (i + j) = Return true) ->
    encodeColumns row i columns buf = Return (Some buf, None).
Proof.
  induction columns as [|col rest IH]; intros row i buf H.
  - reflexivity.
  - cbn [encodeColumns].
    pose proof (H 0%nat ltac:(cbn; lia)) as H0. rewrite Nat.add_0_r in H0.
    rewrite H0. cbn [bind]. apply IH.
    intros j Hj. replace (S i + j)%nat with (i + S j)%nat by lia.
    apply H. cbn. lia.
Qed.

(** C5: on a column that the bitmap marks null, the decoder appends an
    entry whose value is nil and leaves the cursor where it is, so that in
    every decoded row a null column has a nil value; the encoder leaves the
    buffer as it is for that column, writes the row's bitmap as stored right
    after the header and the row marker, and writes nothing else for a row
    whose columns are all null. *)
Theorem null_columns_take_no_bytes :
  (forall (data bitmap : list byte) (i : nat) (col : ColumnDefinition41)
          (rest : list ColumnDefinition41) (offset : nat) (values : list ColumnEntry),
      isNull bitmap i = Return true ->
      decodeColumns data bitmap i (col :: rest) offset values
      = decodeColumns data bitmap (S i) rest offset (values ++ [entry col Nil]))
  /\ (forall (data : list byte) (columns : list ColumnDefinition41) (row : BinaryRow)
             (n : nat) (err : option error) (i : nat) (col : ColumnDefinition41),
        DecodeBinaryRow data columns = Return (Some row, n, err) ->
        nth_error columns i = Some col ->
        isNull (RowNullBuffer row) i = Return true ->
        nth_error (Values row) i = Some (entry col Nil))
  /\ (forall (row : BinaryRow) (i : nat) (col : ColumnDefinition41)
             (rest : list ColumnDefinition41) (buf : list byte),
        isNull (RowNullBuffer row) i = Return true ->
        encodeColumns row i (col :: rest) buf = encodeColumns row (S i) rest buf)
  /\ (forall (row : BinaryRow) (columns : list ColumnDefinition41) (out : list byte)
             (err : option error),
        EncodeBinaryRow row columns = Return (Some out, err) ->
        exists written,
          out = binary.le_bytes 3 (PayloadLength (row_Header row))
                ++ [SequenceID (row_Header row)] ++ [x00]
                ++ RowNullBuffer row ++ written)
  /\ (forall (row : BinaryRow) (columns : list ColumnDefinition41),
        (forall j, (j < List.length columns)%nat ->
                   isNull (RowNullBuffer row) j = Return true) ->
        EncodeBinaryRow row columns
        = Return (Some (binary.le_bytes 3 (PayloadLength (row_Header row))
                        ++ [SequenceID (row_Header row)] ++ [x00]
                        ++ RowNullBuffer row), None)).
Proof.
  split; [| split; [| split; [| split]]].
  - intros. now apply decodeColumns_null.
  - intros data columns row n err i col H Hc Hn.
    destruct (DecodeBinaryRow_success _ _ _ _ _ H) as (bitmap & _ & Hd & Hb & _).
    destruct (decodeColumns_entries _ _ _ _ _ _ _ _ _ Hd) as (_ & fresh & Hvs & Hnth).
    cbn [app] in Hvs. rewrite Hvs.
    destruct (Hnth i col Hc) as (v & Hv & Hnil).
    rewrite Hv. rewrite Hnil; [reflexivity |].
    cbn [Nat.add]. now rewrite <- Hb.
  - intros row i col rest buf Hn. cbn [encodeColumns]. rewrite Hn. reflexivity.
  - intros row columns out err H. unfold EncodeBinaryRow, utils.WriteUint24 in H.
    apply encodeColumns_extends in H. destruct H as (_ & w & Hw).
    exists w. rewrite Hw. cbn [app]. rewrite <- !app_assoc. reflexivity.
  - intros row columns Hall. unfold EncodeBinaryRow, utils.WriteUint24.
    rewrite encodeColumns_all_null by exact Hall.
    cbn [app]. rewrite <- !app_assoc. reflexivity.
Qed.

Lemma null_columns_take_no_bytes_witness :
  EncodeBinaryRow
    {| row_Header := {| PayloadLength := 2; SequenceID := x01 |};
       Values := [entry {| col_Name := "id"; col_Type := FieldTypeLong; col_Flags := 0 |}
                    (Int32 7)];
       OkAfterRow := true;
       RowNullBuffer := [x04] |}
    [{| col_Name := "id"; col_Type := FieldTypeLong; col_Flags := 0 |}]
  = Return (Some [x02; x00; x00; x01; x00; x04], None).
Proof.
  apply (proj2 (proj2 (proj2 (proj2 null_columns_take_no_bytes)))
           {| row_Header := {| PayloadLength := 2; SequenceID := x01 |};
              Values := [entry {| col_Name := "id"; col_Type := FieldTypeLong;
                                  col_Flags := 0 |} (Int32 7)];
              OkAfterRow := true;
              RowNullBuffer := [x04] |}
           [{| col_Name := "id"; col_Type := FieldTypeLong; col_Flags := 0 |}]).
  intros j Hj. cbn in Hj. assert (j = 0%nat) as -> by lia. reflexivity.
Defined.

(** ** The row marker and decode errors *)

(** C6: on a buffer of at least five bytes whose byte at offset 4 is not
    [00], the decoder returns no row, the cursor 4 and the error
    ["malformed binary row packet"]; and whenever the decoder returns an
    error it returns no row with it. *)
Theorem bad_row_marker_is_rejected :
  (forall (data : list byte) (columns : list ColumnDefinition41),
      (5 <= List.length data)%nat ->
      nth 4 data x00 <> x00 ->
      DecodeBinaryRow data columns
      = Return (None, 4%nat, Some (errors_New "malformed binary row packet")))
  /\ (forall (data : list byte) (columns : list ColumnDefinition41)
             (row : option BinaryRow) (n : nat) (e : error),
        DecodeBinaryRow data columns = Return (row, n, Some e) ->
        row = None).
Proof.
  split.
  - intros data columns Hlen Hm.
    destruct data as [|h0 [|h1 [|h2 [|sq [|mk rest]]]]]; cbn [List.length] in Hlen;
      try lia.
    cbn [nth] in Hm. unfold DecodeBinaryRow.
    change (slice (h0 :: h1 :: h2 :: sq :: mk :: rest) 0 (0 + 3)) with (Return [h0; h1; h2]).
    cbn [bind]. rewrite ReadUint24_le_value. cbn [bind].
    change (index (h0 :: h1 :: h2 :: sq :: mk :: rest) (0 + 3)) with (Return sq).
    change (index (h0 :: h1 :: h2 :: sq :: mk :: rest) (0 + 4)) with (Return mk).
    cbn [bind]. rewrite (byte_to_Z_nonzero mk Hm). reflexivity.
  - intros data columns row n e H. unfold DecodeBinaryRow in H.
    destruct (slice data 0 (0 + 3)) as [hb|]; cbn [bind] in H; [| discriminate H].
    destruct (utils.ReadUint24 hb) as [pl|]; cbn [bind] in H; [| discriminate H].
    destruct (index data (0 + 3)) as [sq|]; cbn [bind] in H; [| discriminate H].
    destruct (index data (0 + 4)) as [mk|]; cbn [bind] in H; [| discriminate H].
    destruct (negb (byte_to_Z mk =? 0)); [inversion H; reflexivity |].
    destruct (slice data _ _) as [bitmap|]; cbn [bind] in H; [| discriminate H].
    destruct (decodeColumns _ _ _ _ _ _) as [[[vs off] err]|] eqn:Hd; cbn [bind] in H;
      [| discriminate H].
    destruct vs as [vs|]; inversion H; subst; [| reflexivity].
    apply decodeColumns_no_partial_row in Hd. discriminate Hd.
Qed.

Lemma bad_row_marker_is_rejected_witness :
  DecodeBinaryRow [x07; x00; x00; x02; xfe; x00; x00; x02; x00]
    [{| col_Name := "id"; col_Type := FieldTypeLong; col_Flags := 0 |}]
  = Return (None, 4%nat, Some (errors_New "malformed binary row packet")).
Proof.
  apply (proj1 bad_row_marker_is_rejected).
  - cbn. lia.
  - cbn. discriminate.
Defined.

(** ** Floating-point values *)

(** What the decoder does on a FLOAT and on a DOUBLE column with enough
    bytes: it converts the little-endian unsigned integer numerically. *)
Lemma float_decodes_by_numeric_conversion (col : ColumnDefinition41) (data : list byte) :
  col_Type col = FieldTypeFloat ->
  (4 <= List.length data)%nat ->
  readBinaryValue data col
  = Return (Float32 (ieee.float32_of_uint (binary.le_value (firstn 4 data))), 4%nat, None).
Proof.
  intros E Hlen. unfold readBinaryValue. rewrite E.
  assert (Hc : (List.length data <? 4)%nat = false) by (apply Nat.ltb_ge; lia).
  rewrite Hc. unfold readUint, slice, binary.LittleEndian_Uint.
  assert (H4 : (4 <=? List.length data)%nat = true) by (apply Nat.leb_le; lia).
  rewrite H4. cbn [Nat.leb andb bind Nat.sub skipn].
  rewrite length_firstn, Nat.min_l by lia. cbn [Nat.leb bind].
  rewrite firstn_firstn. reflexivity.
Qed.

Lemma double_decodes_by_numeric_conversion (col : ColumnDefinition41) (data : list byte) :
  col_Type col = FieldTypeDouble ->
  (8 <= List.length data)%nat ->
  readBinaryValue data col
  = Return (Float64 (ieee.float64_of_uint (binary.le_value (firstn 8 data))), 8%nat, None).
Proof.
  intros E Hlen. unfold readBinaryValue. rewrite E.
  assert (Hc : (List.length data <? 8)%nat = false) by (apply Nat.ltb_ge; lia).
  rewrite Hc. unfold readUint, slice, binary.LittleEndian_Uint.
  assert (H8 : (8 <=? List.length data)%nat = true) by (apply Nat.leb_le; lia).
  rewrite H8. cbn [Nat.leb andb bind Nat.sub skipn].
  rewrite length_firstn, Nat.min_l by lia. cbn [Nat.leb bind].
  rewrite firstn_firstn. reflexivity.
Qed.

(** The patterns [0x3F800000] and [0x3FF0000000000000] are those of the
    floats 1.0: the number 1 converts to them. *)
Lemma one_has_pattern :
  binary_normalize 24 128 1 0 false = S754_finite false 8388608 (-23)
  /\ ieee.float32_of_uint 1 = 0x3F800000
  /\ binary_normalize 53 1024 1 0 false = S754_finite false 4503599627370496 (-52)
  /\ ieee.float64_of_uint 1 = 0x3FF0000000000000.
Proof. repeat split; vm_compute; reflexivity. Qed.

(** C2: on a FLOAT (resp. DOUBLE) column the decoder consumes 4 (resp. 8)
    bytes, but the value it returns is the numeric conversion of the
    little-endian unsigned integer, not the float whose bit pattern that
    integer is.  The wire form [00 00 80 3f] of the float 1.0 (pattern
    [0x3F800000]) decodes to the float 1065353216.0 (pattern [0x4E7E0000]),
    which the encoder writes back as [00 00 7e 4e]; likewise for the wire
    form of the double 1.0. *)
Theorem float_decode_is_numeric_conversion :
  forall colF colD : ColumnDefinition41,
    col_Type colF = FieldTypeFloat ->
    col_Type colD = FieldTypeDouble ->
    (readBinaryValue [x00; x00; x80; x3f] colF = Return (Float32 0x4E7E0000, 4%nat, None)
     /\ binary.le_value [x00; x00; x80; x3f] = 0x3F800000
     /\ ieee.float32_of_uint 0x3F800000 = 0x4E7E0000
     /\ ieee.Float32frombits 0x3F800000 = 0x3F800000
     /\ readBinaryValue [x00; x00; x80; x3f] colF
        <> Return (Float32 (ieee.Float32frombits (binary.le_value [x00; x00; x80; x3f])),
                   4%nat, None)
     /\ encodeColumn [] (entry colF (Float32 0x4E7E0000))
        = Return ([x00; x00; x7e; x4e], None)
     /\ encodeColumn [] (entry colF (Float32 (ieee.Float32frombits 0x3F800000)))
        = Return ([x00; x00; x80; x3f], None))
    /\ (readBinaryValue [x00; x00; x00; x00; x00; x00; xf0; x3f] colD
        = Return (Float64 0x43CFF80000000000, 8%nat, None)
        /\ binary.le_value [x00; x00; x00; x00; x00; x00; xf0; x3f] = 0x3FF0000000000000
        /\ ieee.float64_of_uint 0x3FF0000000000000 = 0x43CFF80000000000
        /\ ieee.Float64frombits 0x3FF0000000000000 = 0x3FF0000000000000
        /\ readBinaryValue [x00; x00; x00; x00; x00; x00; xf0; x3f] colD
           <> Return (Float64 (ieee.Float64frombits
                                 (binary.le_value [x00; x00; x00; x00; x00; x00; xf0; x3f])),
                      8%nat, None)
        /\ encodeColumn [] (entry colD (Float64 0x43CFF80000000000))
           = Return ([x00; x00; x00; x00; x00; xf8; xcf; x43], None)).
Proof.
  intros colF colD EF ED. split.
  - rewrite (float_decodes_by_numeric_conversion colF) by (assumption || (cbn; lia)).
    unfold encodeColumn, entry. cbn [ce_Type ce_Value]. rewrite EF.
    repeat split; try (vm_compute; reflexivity).
    vm_compute. intros H. discriminate H.
  - rewrite (double_decodes_by_numeric_conversion colD) by (assumption || (cbn; lia)).
    unfold encodeColumn, entry. cbn [ce_Type ce_Value]. rewrite ED.
    repeat split; try (vm_compute; reflexivity).
    vm_compute. intros H. discriminate H.
Qed.

Lemma float_decode_is_numeric_conversion_witness :
  readBinaryValue [x00; x00; x80; x3f]
    {| col_Name := "ratio"; col_Type := FieldTypeFloat; col_Flags := 0 |}
  = Return (Float32 0x4E7E0000, 4%nat, None).
Proof.
  apply (float_decode_is_numeric_conversion
           {| col_Name := "ratio"; col_Type := FieldTypeFloat; col_Flags := 0 |}
           {| col_Name := "total"; col_Type := FieldTypeDouble; col_Flags := 0 |});
    reflexivity.
Defined.

(** ** Decimal texts *)

Lemma digitChar_spec (d : Z) :
  0 <= d < 10 ->
  fmt.isDigit (fmt.digitChar d) = true /\ fmt.digitValue (fmt.digitChar d) = d.
Proof.
  intros H.
  assert (C : d = 0 \/ d = 1 \/ d = 2 \/ d = 3 \/ d = 4 \/ d = 5 \/ d = 6 \/ d = 7
              \/ d = 8 \/ d = 9) by lia.
  repeat (destruct C as [->|C]; [split; reflexivity |]). subst d. split; reflexivity.
Qed.

Lemma isDigit_not_space (c : ascii) :
  fmt.isDigit c = true -> fmt.isSpace c = false /\ fmt.isNewline c = false
                          /\ fmt.isSign c = false.
Proof.
  unfold fmt.isDigit, fmt.isSpace, fmt.isNewline, fmt.isSign.
  intros H. apply andb_true_iff in H. destruct H as [H1 H2].
  apply N.leb_le in H1. apply N.leb_le in H2.
  assert (Hs : forall k : N, (k < 48)%N -> Ascii.eqb (ascii_of_N k) c = false).
  { intros k Hk. apply Ascii.eqb_neq. intros E. subst c.
    rewrite N_ascii_embedding in H1 by lia. lia. }
  repeat split.
  - apply orb_false_iff. split.
    + apply andb_false_iff. right. apply N.leb_gt. lia.
    + apply N.eqb_neq. lia.
  - apply N.eqb_neq. lia.
  - apply orb_false_iff. split.
    + rewrite Ascii.eqb_sym. apply (Hs 43%N). lia.
    + rewrite Ascii.eqb_sym. apply (Hs 45%N). lia.
Qed.

Lemma string_app_assoc (a b c : string) :
  ((a ++ b) ++ c)%string = (a ++ (b ++ c))%string.
Proof. induction a as [|x a IH]; cbn; [reflexivity | now rewrite IH]. Qed.

Lemma decimalDigits_app (k : nat) :
  forall (n : Z) (acc : string),
    fmt.decimalDigits k n acc = (fmt.decimalDigits k n EmptyString ++ acc)%string.
Proof.
  induction k as [|k IH]; intros n acc.
  - reflexivity.
  - cbn [fmt.decimalDigits]. destruct (n <? 10).
    + reflexivity.
    + rewrite (IH (n / 10) (String _ acc)), (IH (n / 10) (String _ EmptyString)).
      rewrite string_app_assoc. reflexivity.
Qed.

Lemma append_assoc_nil (s : string) : (s ++ "")%string = s.
Proof. induction s; cbn; congruence. Qed.

Lemma allDigits_app (a b : string) :
  allDigits (a ++ b) = allDigits a && allDigits b.
Proof.
  induction a as [|c a IH]; cbn; [reflexivity | now rewrite IH, andb_assoc].
Qed.

Lemma length_append (a b : string) :
  String.length (a ++ b) = (String.length a + String.length b)%nat.
Proof. induction a; cbn; congruence. Qed.

Lemma decimalDigits_digits (k : nat) :
  forall n : Z, 0 <= n -> allDigits (fmt.decimalDigits k n EmptyString) = true.
Proof.
  induction k as [|k IH]; intros n Hn.
  - reflexivity.
  - cbn [fmt.decimalDigits].
    pose proof (Z.mod_pos_bound n 10 ltac:(lia)) as Hm.
    destruct (digitChar_spec (n mod 10) Hm) as [Hd _].
    destruct (n <? 10).
    + cbn. now rewrite Hd.
    + rewrite decimalDigits_app, allDigits_app. cbn. rewrite Hd.
      rewrite IH by (apply Z.div_pos; lia). reflexivity.
Qed.

Lemma decimalDigits_length (k : nat) :
  forall (n : Z) (w : nat),
    0 <= n < 10 ^ Z.of_nat w -> (1 <= w <= k)%nat ->
    (1 <= String.length (fmt.decimalDigits k n EmptyString) <= w)%nat.
Proof.
  induction k as [|k IH]; intros n w Hn Hw; [lia |].
  cbn [fmt.decimalDigits]. destruct (Z.ltb_spec n 10).
  - cbn. lia.
  - rewrite decimalDigits_app, length_append. cbn [String.length].
    destruct w as [|[|w]]; [lia | cbn in Hn; lia |].
    assert (Hd : 0 <= n / 10 < 10 ^ Z.of_nat (S w)).
    { split; [apply Z.div_pos; lia |].
      apply Z.div_lt_upper_bound; [lia |].
      rewrite <- Z.pow_succ_r by lia. rewrite <- Nat2Z.inj_succ. lia. }
    pose proof (IH (n / 10) (S w) Hd ltac:(lia)). lia.
Qed.

Lemma decimalDigits_value (k : nat) :
  forall (n : Z) (acc : string),
    0 <= n < 10 ^ Z.of_nat k ->
    fmt.parseDigits 0 (fmt.decimalDigits k n acc) = fmt.parseDigits n acc.
Proof.
  induction k as [|k IH]; intros n acc Hn.
  - cbn in Hn. assert (n = 0) by lia. subst. reflexivity.
  - cbn [fmt.decimalDigits].
    pose proof (Z.mod_pos_bound n 10 ltac:(lia)) as Hm.
    destruct (digitChar_spec (n mod 10) Hm) as [Hd Hv].
    destruct (Z.ltb_spec n 10).
    + cbn [fmt.parseDigits]. rewrite Hd, Hv. rewrite Z.mod_small by lia.
      reflexivity.
    + rewrite IH.
      * cbn [fmt.parseDigits]. rewrite Hd, Hv. f_equal.
        pose proof (Z.div_mod n 10 ltac:(lia)). lia.
      * split; [apply Z.div_pos; lia |].
        apply Z.div_lt_upper_bound; [lia |].
        rewrite <- Z.pow_succ_r by lia. rewrite <- Nat2Z.inj_succ. lia.
Qed.

Lemma log2_fuel (n : Z) : 0 <= n -> n < 10 ^ Z.of_nat (S (Z.to_nat (Z.log2 n))).
Proof.
  intros Hn. destruct (Z.eq_dec n 0) as [->|Hz]; [reflexivity |].
  pose proof (Z.log2_nonneg n).
  pose proof (Z.log2_spec n ltac:(lia)) as [_ Hu].
  rewrite Nat2Z.inj_succ, Z2Nat.id by lia.
  eapply Z.lt_le_trans; [exact Hu |].
  apply Z.pow_le_mono_l. lia.
Qed.

Lemma decimalDigits_length_fuel (k : nat) :
  forall n : Z, (String.length (fmt.decimalDigits k n EmptyString) <= k)%nat.
Proof.
  induction k as [|k IH]; intros n; [cbn; lia |].
  cbn [fmt.decimalDigits]. destruct (n <? 10); [cbn; lia |].
  rewrite decimalDigits_app, length_append. cbn [String.length].
  pose proof (IH (n / 10)). lia.
Qed.

Lemma decimalDigits_nonempty (k : nat) (n : Z) :
  (1 <= String.length (fmt.decimalDigits (S k) n EmptyString))%nat.
Proof.
  cbn [fmt.decimalDigits]. destruct (n <? 10); [cbn; lia |].
  rewrite decimalDigits_app, length_append. cbn [String.length]. lia.
Qed.

(** The text of [%d]: between one and [log2 n + 1] digits whose value is
    [n]. *)
Lemma decimal_spec (n : Z) :
  0 <= n ->
  (1 <= String.length (fmt.decimal n) <= S (Z.to_nat (Z.log2 n)))%nat
  /\ allDigits (fmt.decimal n) = true
  /\ fmt.parseDigits 0 (fmt.decimal n) = Some n.
Proof.
  intros Hn. unfold fmt.decimal. repeat split.
  - apply decimalDigits_nonempty.
  - apply decimalDigits_length_fuel.
  - now apply decimalDigits_digits.
  - rewrite decimalDigits_value by (split; [lia | now apply log2_fuel]). reflexivity.
Qed.

Lemma decimal_length_bound (n : Z) (w : nat) :
  0 <= n < 10 ^ Z.of_nat w -> (1 <= w)%nat ->
  (String.length (fmt.decimal n) <= w)%nat.
Proof.
  intros Hn Hw. unfold fmt.decimal.
  destruct (Nat.le_gt_cases w (S (Z.to_nat (Z.log2 n)))) as [Hle|Hgt].
  - apply (decimalDigits_length _ n w Hn). lia.
  - pose proof (decimalDigits_length_fuel (S (Z.to_nat (Z.log2 n))) n). lia.
Qed.

Lemma zeros_spec (j : nat) :
  String.length (fmt.zeros j) = j
  /\ allDigits (fmt.zeros j) = true
  /\ forall s, fmt.parseDigits 0 (fmt.zeros j ++ s) = fmt.parseDigits 0 s.
Proof.
  induction j as [|j (IH1 & IH2 & IH3)]; cbn; repeat split; auto.
Qed.

(** The text of [%0Wd] for a number of at most [W] digits: exactly [W]
    digits whose value is the number. *)
Lemma decimal_padded_spec (w : nat) (n : Z) :
  0 <= n < 10 ^ Z.of_nat w -> (1 <= w)%nat ->
  String.length (fmt.decimal_padded w n) = w
  /\ allDigits (fmt.decimal_padded w n) = true
  /\ fmt.parseDigits 0 (fmt.decimal_padded w n) = Some n.
Proof.
  intros Hn Hw. unfold fmt.decimal_padded.
  pose proof (decimal_length_bound n w Hn Hw) as Hl.
  destruct (decimal_spec n ltac:(lia)) as (_ & Hd & Hv).
  destruct (zeros_spec (w - String.length (fmt.decimal n))) as (Z1 & Z2 & Z3).
  repeat split.
  - rewrite length_append, Z1. lia.
  - now rewrite allDigits_app, Z2, Hd.
  - now rewrite Z3.
Qed.

(** ** Scanning a number *)

Lemma allDigits_head (c : ascii) (s : string) :
  allDigits (String c s) = true -> fmt.isDigit c = true /\ allDigits s = true.
Proof. cbn. intros H. now apply andb_true_iff in H. Qed.

Lemma acceptAll_exact (tok : string) :
  forall (rest : string) (limit : N),
    allDigits tok = true ->
    N.of_nat (String.length tok) = limit ->
    fmt.acceptAll fmt.isScanDigit limit (tok ++ rest) = (tok, rest).
Proof.
  induction tok as [|c tok IH]; intros rest limit Hd Hl.
  - cbn in Hl. subst limit. cbn [append]. destruct rest; reflexivity.
  - destruct (allDigits_head _ _ Hd) as [Hc Hd'].
    cbn [append fmt.acceptAll]. cbn [String.length] in Hl.
    assert (Hp : (0 <? limit)%N = true) by (apply N.ltb_lt; lia).
    unfold fmt.isScanDigit at 1. rewrite Hp, Hc. cbn [andb orb].
    rewrite (IH rest (limit - 1)%N Hd' ltac:(lia)). reflexivity.
Qed.

Lemma acceptAll_until (tok : string) :
  forall (c : ascii) (rest : string) (limit : N),
    allDigits tok = true ->
    (N.of_nat (String.length tok) <= limit)%N ->
    fmt.isScanDigit c = false ->
    fmt.acceptAll fmt.isScanDigit limit (tok ++ String c rest) = (tok, String c rest).
Proof.
  induction tok as [|x tok IH]; intros c rest limit Hd Hl Hc.
  - cbn [append fmt.acceptAll]. rewrite Hc, andb_false_r. reflexivity.
  - destruct (allDigits_head _ _ Hd) as [Hx Hd'].
    cbn [append fmt.acceptAll]. cbn [String.length] in Hl.
    assert (Hp : (0 <? limit)%N = true) by (apply N.ltb_lt; lia).
    unfold fmt.isScanDigit at 1. rewrite Hp, Hx. cbn [andb orb].
    rewrite (IH c rest (limit - 1)%N Hd' ltac:(lia) Hc). reflexivity.
Qed.

(** [scanInt] on a token of digits that the accept loop delimits. *)
Lemma scanInt_token (tok rest : string) (limit : N) (v : Z) :
  (1 <= String.length tok)%nat ->
  allDigits tok = true ->
  fmt.acceptAll fmt.isScanDigit limit (tok ++ rest) = (tok, rest) ->
  (0 < limit)%N ->
  fmt.parseDigits 0 tok = Some v ->
  0 <= v < 2 ^ 63 ->
  fmt.scanInt limit (tok ++ rest) = (inl v, rest).
Proof.
  intros Hl Hd Ha Hlim Hv Hr.
  destruct tok as [|c tok]; [cbn in Hl; lia |].
  destruct (allDigits_head _ _ Hd) as [Hc _].
  destruct (isDigit_not_space c Hc) as (_ & _ & Hsign).
  unfold fmt.scanInt. cbn [append].
  assert (H0 : (limit =? 0)%N = false) by (apply N.eqb_neq; lia).
  rewrite H0, Hsign, H0.
  unfold fmt.isScanDigit at 1. rewrite Hc. cbn [orb negb].
  change (String c (tok ++ rest)) with (String c tok ++ rest)%string.
  rewrite Ha. cbn [append].
  unfold fmt.ParseInt.
  unfold fmt.isSign in Hsign. apply orb_false_iff in Hsign. destruct Hsign as [Hp Hm].
  rewrite Hm, Hp, Hv.
  assert (Hrange : (- 2 ^ 63 <=? v) && (v <=? 2 ^ 63 - 1) = true).
  { apply andb_true_iff. split; apply Z.leb_le; lia. }
  rewrite Hrange. reflexivity.
Qed.

Lemma SkipSpace_digit (tok rest : string) :
  (1 <= String.length tok)%nat -> allDigits tok = true ->
  fmt.SkipSpace (tok ++ rest) = Some (tok ++ rest)%string
  /\ fmt.skipBlanks (tok ++ rest) = (tok ++ rest)%string.
Proof.
  intros Hl Hd. destruct tok as [|c tok]; [cbn in Hl; lia |].
  destruct (allDigits_head _ _ Hd) as [Hc _].
  destruct (isDigit_not_space c Hc) as (Hs & Hn & _).
  cbn [append fmt.SkipSpace fmt.skipBlanks]. rewrite Hs, Hn. auto.
Qed.

Lemma scan_padded (w : nat) (limit : N) (n : Z) (rest : string) :
  limit = N.of_nat w ->
  0 <= n < 10 ^ Z.of_nat w -> (1 <= w <= 18)%nat ->
  fmt.SkipSpace (fmt.decimal_padded w n ++ rest)
  = Some (fmt.decimal_padded w n ++ rest)%string
  /\ fmt.scanInt limit (fmt.decimal_padded w n ++ rest) = (inl n, rest).
Proof.
  intros Hlim Hn Hw.
  destruct (decimal_padded_spec w n Hn ltac:(lia)) as (Hl & Hd & Hv).
  split.
  - apply SkipSpace_digit; [lia | exact Hd].
  - apply scanInt_token; try assumption; try lia.
    + apply acceptAll_exact; [exact Hd | lia].
    + split; [lia |]. eapply Z.lt_le_trans; [apply Hn |].
      transitivity (10 ^ 18); [apply Z.pow_le_mono_r; lia | cbn; lia].
Qed.

Lemma scan_decimal (n : Z) (c : ascii) (rest : string) :
  0 <= n < 2 ^ 32 ->
  fmt.isScanDigit c = false ->
  fmt.SkipSpace (fmt.decimal n ++ String c rest)
  = Some (fmt.decimal n ++ String c rest)%string
  /\ fmt.scanInt fmt.hugeWid (fmt.decimal n ++ String c rest) = (inl n, String c rest).
Proof.
  intros Hn Hc.
  destruct (decimal_spec n ltac:(lia)) as ((Hl1 & Hl2) & Hd & Hv).
  assert (Hlog : Z.log2 n < 32).
  { destruct (Z.eq_dec n 0) as [->|Hz]; [cbn; lia |].
    apply Z.log2_lt_pow2; lia. }
  pose proof (Z.log2_nonneg n).
  split.
  - apply SkipSpace_digit; [lia | exact Hd].
  - apply scanInt_token; try assumption; try lia.
    + apply acceptAll_until; [exact Hd | | exact Hc].
      unfold fmt.hugeWid. change (2 ^ 30)%N with 1073741824%N. lia.
    + reflexivity.
Qed.

(** The steps of [doScanf] on the texts the decoder renders. *)
Lemma doScanf_padded (w : nat) (limit : N) (n : Z) (rest : string)
    (ds : list fmt.directive) (got : list Z) :
  limit = N.of_nat w ->
  0 <= n < 10 ^ Z.of_nat w -> (1 <= w <= 18)%nat ->
  fmt.doScanf (fmt.Verb_d (Some limit) :: ds) (fmt.decimal_padded w n ++ rest) got
  = fmt.doScanf ds rest (got ++ [n]).
Proof.
  intros Hlim Hn Hw. destruct (scan_padded w limit n rest Hlim Hn Hw) as [Hs Hi].
  cbn [fmt.doScanf]. rewrite Hs, Hi. reflexivity.
Qed.

Lemma doScanf_decimal (n : Z) (c : ascii) (rest : string)
    (ds : list fmt.directive) (got : list Z) :
  0 <= n < 2 ^ 32 ->
  fmt.isScanDigit c = false ->
  fmt.doScanf (fmt.Verb_d None :: ds) (fmt.decimal n ++ (String c "" ++ rest)) got
  = fmt.doScanf ds (String c "" ++ rest) (got ++ [n]).
Proof.
  intros Hn Hc. change (String c "" ++ rest)%string with (String c rest).
  destruct (scan_decimal n c rest Hn Hc) as [Hs Hi].
  cbn [fmt.doScanf]. rewrite Hs, Hi. reflexivity.
Qed.

Lemma doScanf_literal (c : ascii) (rest : string)
    (ds : list fmt.directive) (got : list Z) :
  fmt.doScanf (fmt.Literal c :: ds) (String c "" ++ rest) got = fmt.doScanf ds rest got.
Proof.
  cbn [fmt.doScanf append]. now rewrite Ascii.eqb_refl.
Qed.

Lemma doScanf_space (w : nat) (n : Z) (rest : string)
    (ds : list fmt.directive) (got : list Z) :
  0 <= n < 10 ^ Z.of_nat w -> (1 <= w)%nat ->
  fmt.doScanf (fmt.Spaces :: ds) (" " ++ fmt.decimal_padded w n ++ rest) got
  = fmt.doScanf ds (fmt.decimal_padded w n ++ rest) got.
Proof.
  intros Hn Hw. destruct (decimal_padded_spec w n Hn Hw) as (Hl & Hd & _).
  destruct (SkipSpace_digit (fmt.decimal_padded w n) rest ltac:(lia) Hd) as [_ Hb].
  cbn [fmt.doScanf append].
  change (fmt.isSpace " ") with true. change (fmt.isNewline " ") with false.
  cbn [negb fmt.skipBlanks]. change (fmt.isSpace " ") with true.
  change (fmt.isNewline " ") with false. cbn [negb andb]. rewrite Hb. reflexivity.
Qed.

Lemma Sscanf_date (y m d : Z) (rest : string) :
  0 <= y <= 9999 -> 0 <= m <= 99 -> 0 <= d <= 99 ->
  fmt.Sscanf (fmt.decimal_padded 4 y ++ "-"
              ++ fmt.decimal_padded 2 m ++ "-"
              ++ fmt.decimal_padded 2 d ++ rest) "%04d-%02d-%02d"
  = ([y; m; d], None).
Proof.
  intros Hy Hm Hd. unfold fmt.Sscanf.
  change (fmt.directives fmt.Plain "%04d-%02d-%02d")
    with [fmt.Verb_d (Some 4%N); fmt.Literal "-"; fmt.Verb_d (Some 2%N);
          fmt.Literal "-"; fmt.Verb_d (Some 2%N)].
  rewrite (doScanf_padded 4) by (reflexivity || lia).
  rewrite doScanf_literal.
  rewrite (doScanf_padded 2) by (reflexivity || lia).
  rewrite doScanf_literal.
  rewrite (doScanf_padded 2) by (reflexivity || lia).
  reflexivity.
Qed.

Lemma Sscanf_datetime (y m d h mi s : Z) (rest : string) :
  0 <= y <= 9999 -> 0 <= m <= 99 -> 0 <= d <= 99 ->
  0 <= h <= 99 -> 0 <= mi <= 99 -> 0 <= s <= 99 ->
  fmt.Sscanf (fmt.decimal_padded 4 y ++ "-"
              ++ fmt.decimal_padded 2 m ++ "-"
              ++ fmt.decimal_padded 2 d ++ " "
              ++ fmt.decimal_padded 2 h ++ ":"
              ++ fmt.decimal_padded 2 mi ++ ":"
              ++ fmt.decimal_padded 2 s ++ rest) "%04d-%02d-%02d %02d:%02d:%02d"
  = ([y; m; d; h; mi; s], None).
Proof.
  intros Hy Hm Hd Hh Hmi Hs. unfold fmt.Sscanf.
  change (fmt.directives fmt.Plain "%04d-%02d-%02d %02d:%02d:%02d")
    with [fmt.Verb_d (Some 4%N); fmt.Literal "-"; fmt.Verb_d (Some 2%N);
          fmt.Literal "-"; fmt.Verb_d (Some 2%N); fmt.Spaces;
          fmt.Verb_d (Some 2%N); fmt.Literal ":"; fmt.Verb_d (Some 2%N);
          fmt.Literal ":"; fmt.Verb_d (Some 2%N)].
  rewrite (doScanf_padded 4) by (reflexivity || lia).
  rewrite doScanf_literal.
  rewrite (doScanf_padded 2) by (reflexivity || lia).
  rewrite doScanf_literal.
  rewrite (doScanf_padded 2) by (reflexivity || lia).
  rewrite (doScanf_space 2) by lia.
  rewrite (doScanf_padded 2) by (reflexivity || lia).
  rewrite doScanf_literal.
  rewrite (doScanf_padded 2) by (reflexivity || lia).
  rewrite doScanf_literal.
  rewrite (doScanf_padded 2) by (reflexivity || lia).
  reflexivity.
Qed.

Lemma Sscanf_time (days h mi s : Z) (rest : string) :
  0 <= days < 2 ^ 32 -> 0 <= h <= 99 -> 0 <= mi <= 99 -> 0 <= s <= 99 ->
  fmt.Sscanf (fmt.decimal days ++ " "
              ++ fmt.decimal_padded 2 h ++ ":"
              ++ fmt.decimal_padded 2 mi ++ ":"
              ++ fmt.decimal_padded 2 s ++ rest) "%d %02d:%02d:%02d"
  = ([days; h; mi; s], None).
Proof.
  intros Hd Hh Hmi Hs. unfold fmt.Sscanf.
  change (fmt.directives fmt.Plain "%d %02d:%02d:%02d")
    with [fmt.Verb_d None; fmt.Spaces;
          fmt.Verb_d (Some 2%N); fmt.Literal ":"; fmt.Verb_d (Some 2%N);
          fmt.Literal ":"; fmt.Verb_d (Some 2%N)].
  rewrite doScanf_decimal by (lia || reflexivity).
  rewrite (doScanf_space 2) by lia.
  rewrite (doScanf_padded 2) by (reflexivity || lia).
  rewrite doScanf_literal.
  rewrite (doScanf_padded 2) by (reflexivity || lia).
  rewrite doScanf_literal.
  rewrite (doScanf_padded 2) by (reflexivity || lia).
  reflexivity.
Qed.

(** ** Values on the wire and back *)

Lemma signed_of_wrapped (w x : Z) :
  0 < w -> - 2 ^ (w - 1) <= x < 2 ^ (w - 1) -> signed w (x mod 2 ^ w) = x.
Proof.
  intros Hw Hx. unfold signed, wrap.
  assert (Hp : 2 ^ w = 2 * 2 ^ (w - 1)).
  { replace w with (Z.succ (w - 1)) at 1 by lia. apply Z.pow_succ_r. lia. }
  pose proof (Z.pow_pos_nonneg 2 (w - 1) ltac:(lia) ltac:(lia)) as Hpos.
  rewrite Z.mod_mod by lia.
  destruct (Z.ltb_spec x 0) as [Hneg|Hnn].
  - rewrite <- (Z.mod_add x 1) by lia. rewrite Z.mod_small by lia.
    destruct (Z.ltb_spec (x + 1 * 2 ^ w) (2 ^ (w - 1))); lia.
  - rewrite Z.mod_small by lia.
    destruct (Z.ltb_spec x (2 ^ (w - 1))); lia.
Qed.

Lemma readUint_le_bytes (n : nat) (z : Z) (rest : list byte) :
  readUint n (binary.le_bytes n z ++ rest) = Return (z mod 256 ^ Z.of_nat n).
Proof.
  unfold readUint, slice, binary.LittleEndian_Uint.
  assert (H1 : (n <=? List.length (binary.le_bytes n z ++ rest))%nat = true).
  { apply Nat.leb_le. rewrite length_app, le_bytes_length. lia. }
  rewrite H1. cbn [Nat.leb andb skipn bind].
  rewrite Nat.sub_0_r.
  assert (Hf : firstn n (binary.le_bytes n z ++ rest) = binary.le_bytes n z).
  { rewrite <- (le_bytes_length n z) at 1. rewrite firstn_app, Nat.sub_diag.
    cbn [firstn]. rewrite app_nil_r. apply firstn_all. }
  rewrite Hf, le_bytes_length, Nat.leb_refl. cbn [bind].
  rewrite <- (le_bytes_length n z) at 1. rewrite firstn_all.
  now rewrite le_value_le_bytes.
Qed.

Lemma length_check_passes (n : nat) (z : Z) (rest : list byte) :
  (List.length (binary.le_bytes n z ++ rest) <? n)%nat = false.
Proof.
  apply Nat.ltb_ge. rewrite length_app, le_bytes_length. lia.
Qed.

Ltac integer_round_trip n x Ht Hu :=
  exists (binary.le_bytes n x); split;
  [ intros buf; unfold encodeColumn, entry; cbn [ce_Type ce_Value]; rewrite Ht;
    try (rewrite (le_bytes_signed n _ x) by (reflexivity || lia)); reflexivity
  | intros rest; unfold readBinaryValue; rewrite Ht, Hu;
    rewrite length_check_passes, readUint_le_bytes; cbn [bind];
    rewrite le_bytes_length ].

Lemma int16_round_trips (col : ColumnDefinition41) (x : Z) :
  col_Type col = FieldTypeShort \/ col_Type col = FieldTypeYear ->
  isUnsigned col = false -> - 2 ^ 15 <= x < 2 ^ 15 ->
  valueRoundTrips col (Int16 x).
Proof.
  intros [Ht|Ht] Hu Hx; integer_round_trip 2%nat x Ht Hu;
    change (256 ^ Z.of_nat 2) with (2 ^ 16);
    rewrite (signed_of_wrapped 16 x) by (cbn; lia); reflexivity.
Qed.

Lemma uint16_round_trips (col : ColumnDefinition41) (x : Z) :
  col_Type col = FieldTypeShort \/ col_Type col = FieldTypeYear ->
  isUnsigned col = true -> 0 <= x < 2 ^ 16 ->
  valueRoundTrips col (Uint16 x).
Proof.
  intros [Ht|Ht] Hu Hx; integer_round_trip 2%nat x Ht Hu;
    change (256 ^ Z.of_nat 2) with (2 ^ 16);
    rewrite Z.mod_small by lia; reflexivity.
Qed.

Lemma int32_round_trips (col : ColumnDefinition41) (x : Z) :
  col_Type col = FieldTypeLong ->
  isUnsigned col = false -> - 2 ^ 31 <= x < 2 ^ 31 ->
  valueRoundTrips col (Int32 x).
Proof.
  intros Ht Hu Hx; integer_round_trip 4%nat x Ht Hu.
  change (256 ^ Z.of_nat 4) with (2 ^ 32).
  rewrite (signed_of_wrapped 32 x) by (cbn; lia); reflexivity.
Qed.

Lemma uint32_round_trips (col : ColumnDefinition41) (x : Z) :
  col_Type col = FieldTypeLong ->
  isUnsigned col = true -> 0 <= x < 2 ^ 32 ->
  valueRoundTrips col (Uint32 x).
Proof.
  intros Ht Hu Hx; integer_round_trip 4%nat x Ht Hu.
  change (256 ^ Z.of_nat 4) with (2 ^ 32).
  rewrite Z.mod_small by lia; reflexivity.
Qed.

Lemma int64_round_trips (col : ColumnDefinition41) (x : Z) :
  col_Type col = FieldTypeLongLong ->
  isUnsigned col = false -> - 2 ^ 63 <= x < 2 ^ 63 ->
  valueRoundTrips col (Int64 x).
Proof.
  intros Ht Hu Hx; integer_round_trip 8%nat x Ht Hu.
  change (256 ^ Z.of_nat 8) with (2 ^ 64).
  rewrite (signed_of_wrapped 64 x) by (cbn; lia); reflexivity.
Qed.

Lemma uint64_round_trips (col : ColumnDefinition41) (x : Z) :
  col_Type col = FieldTypeLongLong ->
  isUnsigned col = true -> 0 <= x < 2 ^ 64 ->
  valueRoundTrips col (Uint64 x).
Proof.
  intros Ht Hu Hx; integer_round_trip 8%nat x Ht Hu.
  change (256 ^ Z.of_nat 8) with (2 ^ 64).
  rewrite Z.mod_small by lia; reflexivity.
Qed.

Lemma int8_round_trips (col : ColumnDefinition41) (x : Z) :
  col_Type col = FieldTypeTiny ->
  isUnsigned col = false -> - 2 ^ 7 <= x < 2 ^ 7 ->
  valueRoundTrips col (Int8 x).
Proof.
  intros Ht Hu Hx. exists [byte_of_Z x]. split.
  - intros buf. unfold encodeColumn, entry. cbn [ce_Type ce_Value]. now rewrite Ht.
  - intros rest. unfold readBinaryValue. rewrite Ht, Hu.
    cbn [app index nth_error bind List.length]. rewrite byte_to_of_Z.
    change 256 with (2 ^ 8).
    rewrite (signed_of_wrapped 8 x) by (cbn; lia). reflexivity.
Qed.

Lemma uint8_round_trips (col : ColumnDefinition41) (x : Z) :
  col_Type col = FieldTypeTiny ->
  isUnsigned col = true -> 0 <= x < 2 ^ 8 ->
  valueRoundTrips col (Uint8 x).
Proof.
  intros Ht Hu Hx. exists [byte_of_Z x]. split.
  - intros buf. unfold encodeColumn, entry. cbn [ce_Type ce_Value]. rewrite Ht.
    pose proof (le_bytes_signed 1 8 x ltac:(lia) eq_refl) as Hs.
    cbn [binary.le_bytes] in Hs.
    inversion Hs as [Hb]. rewrite Hb. reflexivity.
  - intros rest. unfold readBinaryValue. rewrite Ht, Hu.
    cbn [app index nth_error bind List.length]. rewrite byte_to_of_Z.
    rewrite Z.mod_small by (cbn in Hx; lia). reflexivity.
Qed.

(** ** Length-encoded strings *)

Lemma list_byte_of_string_length (s : string) :
  List.length (list_byte_of_string s) = String.length s.
Proof.
  unfold list_byte_of_string. rewrite length_map.
  induction s as [|c s IH]; cbn; congruence.
Qed.

Lemma AppendLengthEncodedInteger_app (buf : list byte) (n : Z) :
  utils.AppendLengthEncodedInteger buf n
  = buf ++ utils.AppendLengthEncodedInteger [] n.
Proof.
  unfold utils.AppendLengthEncodedInteger.
  repeat match goal with |- context [if ?c then _ else _] => destruct c end;
    reflexivity.
Qed.

Lemma le_value_firstn_le_bytes (n : nat) (z : Z) (rest : list byte) :
  binary.le_value (firstn n (binary.le_bytes n z ++ rest)) = z mod 256 ^ Z.of_nat n.
Proof.
  rewrite <- (le_bytes_length n z) at 1.
  rewrite firstn_app, Nat.sub_diag, firstn_all. cbn [firstn].
  rewrite app_nil_r. apply le_value_le_bytes.
Qed.

Lemma ReadLengthEncodedInteger_written (n : Z) (rest : list byte) :
  0 <= n < 2 ^ 64 ->
  utils.ReadLengthEncodedInteger (utils.AppendLengthEncodedInteger [] n ++ rest)
  = Some (n, List.length (utils.AppendLengthEncodedInteger [] n)).
Proof.
  intros Hn. unfold utils.AppendLengthEncodedInteger.
  destruct (Z.ltb_spec n 251) as [H1|H1];
    [| destruct (Z.ltb_spec n (2 ^ 16)) as [H2|H2];
       [| destruct (Z.ltb_spec n (2 ^ 24)) as [H3|H3]]];
    cbn [app utils.ReadLengthEncodedInteger].
  - rewrite byte_to_of_Z, Z.mod_small by lia.
    assert (Hc : (n <? 251) = true) by (apply Z.ltb_lt; lia). rewrite Hc.
    reflexivity.
  - change (byte_to_Z xfc) with 252. cbn [Z.ltb Z.eqb Z.compare Pos.compare
      Pos.compare_cont Pos.eqb].
    assert (Hl : (2 <=? List.length (binary.le_bytes 2 n ++ rest))%nat = true).
    { apply Nat.leb_le. rewrite length_app, le_bytes_length. lia. }
    rewrite Hl, le_value_firstn_le_bytes.
    change (256 ^ Z.of_nat 2) with (2 ^ 16). rewrite Z.mod_small by lia.
    cbn [List.length]. now rewrite le_bytes_length.
  - change (byte_to_Z xfd) with 253. cbn [Z.ltb Z.eqb Z.compare Pos.compare
      Pos.compare_cont Pos.eqb].
    assert (Hl : (3 <=? List.length (binary.le_bytes 3 n ++ rest))%nat = true).
    { apply Nat.leb_le. rewrite length_app, le_bytes_length. lia. }
    rewrite Hl, le_value_firstn_le_bytes.
    change (256 ^ Z.of_nat 3) with (2 ^ 24). rewrite Z.mod_small by lia.
    cbn [List.length]. now rewrite le_bytes_length.
  - change (byte_to_Z xfe) with 254. cbn [Z.ltb Z.eqb Z.compare Pos.compare
      Pos.compare_cont Pos.eqb].
    assert (Hl : (8 <=? List.length (binary.le_bytes 8 n ++ rest))%nat = true).
    { apply Nat.leb_le. rewrite length_app, le_bytes_length. lia. }
    rewrite Hl, le_value_firstn_le_bytes.
    change (256 ^ Z.of_nat 8) with (2 ^ 64). rewrite Z.mod_small by lia.
    cbn [List.length]. now rewrite le_bytes_length.
Qed.

Lemma ReadLengthEncodedString_written (s : string) (rest : list byte) :
  Z.of_nat (String.length s) < 2 ^ 64 ->
  let written := utils.AppendLengthEncodedInteger [] (Z.of_nat (String.length s))
                 ++ list_byte_of_string s in
  utils.ReadLengthEncodedString (written ++ rest)
  = (list_byte_of_string s, false, List.length written, None).
Proof.
  intros Hn written. unfold utils.ReadLengthEncodedString, written.
  rewrite <- app_assoc.
  rewrite ReadLengthEncodedInteger_written by lia.
  rewrite Nat2Z.id.
  set (prefix := utils.AppendLengthEncodedInteger [] (Z.of_nat (String.length s))).
  assert (Hl : (List.length prefix + String.length s
                <=? List.length (prefix ++ list_byte_of_string s ++ rest))%nat = true).
  { apply Nat.leb_le. rewrite !length_app, list_byte_of_string_length. lia. }
  rewrite Hl.
  rewrite skipn_app, skipn_all, Nat.sub_diag. cbn [skipn app].
  rewrite <- (list_byte_of_string_length s) at 1.
  rewrite firstn_app, Nat.sub_diag, firstn_all. cbn [firstn].
  rewrite app_nil_r, length_app, list_byte_of_string_length. reflexivity.
Qed.

Lemma string_round_trips (col : ColumnDefinition41) (s : string) :
  isStringKind (col_Type col) = true ->
  Z.of_nat (String.length s) < 2 ^ 64 ->
  valueRoundTrips col (Str s).
Proof.
  intros Hk Hn.
  exists (utils.AppendLengthEncodedInteger [] (Z.of_nat (String.length s))
          ++ list_byte_of_string s).
  split.
  - intros buf. unfold encodeColumn, entry, utils.WriteLengthEncodedString.
    cbn [ce_Type ce_Value].
    rewrite (AppendLengthEncodedInteger_app buf), <- app_assoc.
    destruct (col_Type col); try discriminate Hk; reflexivity.
  - intros rest. unfold readBinaryValue.
    pose proof (ReadLengthEncodedString_written s rest Hn) as Hr. cbv zeta in Hr.
    destruct (col_Type col); try discriminate Hk;
      rewrite Hr, string_of_list_byte_of_string; reflexivity.
Qed.

(** ** Temporal texts on the wire and back *)

Lemma small_byte (n : Z) : 0 <= n <= 99 -> byte_to_Z (byte_of_Z n) = n.
Proof. intros H. rewrite byte_to_of_Z. apply Z.mod_small. lia. Qed.

Lemma year_bytes (y : Z) :
  0 <= y <= 9999 ->
  exists b0 b1, binary.le_bytes 2 (wrap 16 y) = [b0; b1]
                /\ binary.le_value [b0; b1] = y.
Proof.
  intros Hy. eexists. eexists. split; [reflexivity |].
  pose proof (le_value_le_bytes 2 (wrap 16 y)) as H.
  cbn [binary.le_bytes] in H. rewrite H. unfold wrap.
  change (256 ^ Z.of_nat 2) with (2 ^ 16).
  rewrite Z.mod_mod by (cbn; lia). apply Z.mod_small. cbn. lia.
Qed.

Lemma days_bytes (days : Z) :
  0 <= days < 2 ^ 32 ->
  exists b0 b1 b2 b3, binary.le_bytes 4 (wrap 32 days) = [b0; b1; b2; b3]
                      /\ binary.le_value [b0; b1; b2; b3] = days.
Proof.
  intros Hy. do 4 eexists. split; [reflexivity |].
  pose proof (le_value_le_bytes 4 (wrap 32 days)) as H.
  cbn [binary.le_bytes] in H. rewrite H. unfold wrap.
  change (256 ^ Z.of_nat 4) with (2 ^ 32).
  rewrite Z.mod_mod by (cbn; lia). apply Z.mod_small. lia.
Qed.

Lemma date_round_trips (col : ColumnDefinition41) (y m d : Z) :
  col_Type col = FieldTypeDate \/ col_Type col = FieldTypeNewDate ->
  0 <= y <= 9999 -> 0 <= m <= 99 -> 0 <= d <= 99 ->
  valueRoundTrips col (Str (dateText y m d)).
Proof.
  intros Ht Hy Hm Hd.
  assert (Hscan : fmt.Sscanf (dateText y m d) "%04d-%02d-%02d" = ([y; m; d], None)).
  { unfold dateText. rewrite <- (append_assoc_nil (fmt.decimal_padded 2 d)).
    now apply Sscanf_date. }
  destruct (year_bytes y Hy) as (y0 & y1 & Hyb & Hyv).
  exists [byte_of_Z 4; y0; y1; byte_of_Z m; byte_of_Z d]. split.
  - intros buf. unfold encodeColumn, entry. cbn [ce_Type ce_Value].
    destruct Ht as [Ht|Ht]; rewrite Ht; cbn [encodeBinaryDateTime];
      rewrite Hscan; cbn [nth bind]; rewrite Hyb; reflexivity.
  - intros rest. unfold readBinaryValue.
    assert (Hp : parseBinaryDate ([byte_of_Z 4; y0; y1; byte_of_Z m; byte_of_Z d] ++ rest)
                 = Return (Str (dateText y m d), 5%nat, None)).
    { unfold parseBinaryDate, dateText.
      cbn [app List.length Nat.eqb index nth_error bind].
      change (byte_to_Z (byte_of_Z 4) =? 0) with false. cbv iota.
      change (slice (byte_of_Z 4 :: y0 :: y1 :: byte_of_Z m :: byte_of_Z d :: rest) 1 3)
        with (Return [y0; y1]).
      cbn [bind]. change (binary.LittleEndian_Uint16 [y0; y1])
        with (Return (binary.le_value [y0; y1])).
      cbn [bind]. rewrite Hyv, !small_byte by lia. reflexivity. }
    destruct Ht as [Ht|Ht]; rewrite Ht; exact Hp.
Qed.

Lemma datetime_round_trips (col : ColumnDefinition41) (y m d h mi s : Z) :
  col_Type col = FieldTypeTimestamp \/ col_Type col = FieldTypeDateTime ->
  0 <= y <= 9999 -> 0 <= m <= 99 -> 0 <= d <= 99 ->
  0 <= h <= 99 -> 0 <= mi <= 99 -> 0 <= s <= 99 ->
  valueRoundTrips col (Str (dateTimeText y m d h mi s)).
Proof.
  intros Ht Hy Hm Hd Hh Hmi Hs.
  assert (Hscan : fmt.Sscanf (dateTimeText y m d h mi s) "%04d-%02d-%02d %02d:%02d:%02d"
                  = ([y; m; d; h; mi; s], None)).
  { unfold dateTimeText. rewrite <- (append_assoc_nil (fmt.decimal_padded 2 s)).
    now apply Sscanf_datetime. }
  destruct (year_bytes y Hy) as (y0 & y1 & Hyb & Hyv).
  exists [byte_of_Z 7; y0; y1; byte_of_Z m; byte_of_Z d; byte_of_Z h; byte_of_Z mi;
          byte_of_Z s].
  split.
  - intros buf. unfold encodeColumn, entry. cbn [ce_Type ce_Value].
    destruct Ht as [Ht|Ht]; rewrite Ht; cbn [encodeBinaryDateTime];
      rewrite Hscan; cbn [nth bind]; rewrite Hyb; reflexivity.
  - intros rest. unfold readBinaryValue.
    assert (Hp : parseBinaryDateTime
                   ([byte_of_Z 7; y0; y1; byte_of_Z m; byte_of_Z d; byte_of_Z h;
                     byte_of_Z mi; byte_of_Z s] ++ rest)
                 = Return (Str (dateTimeText y m d h mi s), 8%nat, None)).
    { unfold parseBinaryDateTime, dateTimeText.
      cbn [app List.length Nat.eqb index nth_error bind].
      change (byte_to_Z (byte_of_Z 7) =? 0) with false.
      change (7 <? byte_to_Z (byte_of_Z 7)) with false. cbv iota.
      change (slice (byte_of_Z 7 :: y0 :: y1 :: byte_of_Z m :: byte_of_Z d :: byte_of_Z h
                     :: byte_of_Z mi :: byte_of_Z s :: rest) 1 3)
        with (Return [y0; y1]).
      cbn [bind]. change (binary.LittleEndian_Uint16 [y0; y1])
        with (Return (binary.le_value [y0; y1])).
      cbn [bind]. rewrite Hyv, !small_byte by lia. reflexivity. }
    destruct Ht as [Ht|Ht]; rewrite Ht; exact Hp.
Qed.

Lemma decimal_first_char (n : Z) (rest : string) :
  0 <= n ->
  exists c tail, (fmt.decimal n ++ rest)%string = String c tail
                 /\ Ascii.eqb c "-" = false.
Proof.
  intros Hn. destruct (decimal_spec n Hn) as ((Hl & _) & Hd & _).
  destruct (fmt.decimal n) as [|c tok]; [cbn in Hl; lia |].
  destruct (allDigits_head _ _ Hd) as [Hc _].
  destruct (isDigit_not_space c Hc) as (_ & _ & Hs).
  apply orb_false_iff in Hs. exists c, (tok ++ rest)%string. split; [reflexivity |].
  apply Hs.
Qed.

Lemma time_round_trips (col : ColumnDefinition41) (negative : bool) (days h mi s : Z) :
  col_Type col = FieldTypeTime ->
  0 <= days < 2 ^ 32 -> 0 <= h <= 99 -> 0 <= mi <= 99 -> 0 <= s <= 99 ->
  valueRoundTrips col (Str (timeText negative days h mi s 0)).
Proof.
  intros Ht Hdays Hh Hmi Hs.
  assert (Hscan : fmt.Sscanf (timeText false days h mi s 0) "%d %02d:%02d:%02d"
                  = ([days; h; mi; s], None)).
  { unfold timeText. now apply Sscanf_time. }
  destruct (days_bytes days Hdays) as (d0 & d1 & d2 & d3 & Hdb & Hdv).
  exists [byte_of_Z 8; if negative then byte_of_Z 1 else byte_of_Z 0;
          d0; d1; d2; d3; byte_of_Z h; byte_of_Z mi; byte_of_Z s].
  split.
  - intros buf. unfold encodeColumn, entry. cbn [ce_Type ce_Value].
    rewrite Ht. cbn [encodeBinaryDateTime].
    destruct negative.
    + change (timeText true days h mi s 0)
        with (String "-" (timeText false days h mi s 0)).
      cbn [string_index String.get bind string_from].
      change (Ascii.eqb "-" "-") with true. cbv iota. cbn [bind].
      rewrite Hscan. cbn [nth bind]. rewrite Hdb. reflexivity.
    + destruct (decimal_first_char days
                  (" " ++ fmt.decimal_padded 2 h ++ ":" ++ fmt.decimal_padded 2 mi ++ ":"
                   ++ fmt.decimal_padded 2 s ++ "." ++ fmt.decimal_padded 6 0)
                  ltac:(lia)) as (c & tail & Htext & Hc).
      change (timeText false days h mi s 0)
        with (fmt.decimal days ++ " " ++ fmt.decimal_padded 2 h ++ ":"
              ++ fmt.decimal_padded 2 mi ++ ":" ++ fmt.decimal_padded 2 s ++ "."
              ++ fmt.decimal_padded 6 0)%string in Hscan |- *.
      rewrite Htext in Hscan |- *.
      cbn [string_index String.get bind]. rewrite Hc. cbn [bind].
      rewrite Hscan. cbn [nth bind]. rewrite Hdb. reflexivity.
  - intros rest. unfold readBinaryValue. rewrite Ht.
    unfold parseBinaryTime, timeText.
    cbn [app List.length Nat.eqb index nth_error bind].
    change (byte_to_Z (byte_of_Z 8) =? 0) with false.
    change (8 <? byte_to_Z (byte_of_Z 8)) with false. cbv iota.
    match goal with |- context [slice ?b 2 6] =>
      change (slice b 2 6) with (Return [d0; d1; d2; d3]) end.
    cbn [bind]. change (binary.LittleEndian_Uint32 [d0; d1; d2; d3])
      with (Return (binary.le_value [d0; d1; d2; d3])).
    cbn [bind]. rewrite Hdv, !small_byte by lia.
    destruct negative; reflexivity.
Qed.

(** Every value that matches its column round-trips. *)
Lemma matching_value_round_trips (col : ColumnDefinition41) (v : value) :
  matches col v -> valueRoundTrips col v.
Proof.
  intros H. destruct H.
  - now apply int8_round_trips.
  - now apply uint8_round_trips.
  - now apply int16_round_trips.
  - now apply uint16_round_trips.
  - now apply int32_round_trips.
  - now apply uint32_round_trips.
  - now apply int64_round_trips.
  - now apply uint64_round_trips.
  - now apply string_round_trips.
  - now apply date_round_trips.
  - now apply datetime_round_trips.
  - now apply time_round_trips.
Qed.

(** ** The round trip of a row *)

Lemma isNull_defined (bitmap : list byte) (i : nat) :
  ((i + 2) / 8 < List.length bitmap)%nat -> exists b, isNull bitmap i = Return b.
Proof.
  intros H. unfold isNull, index.
  destruct (nth_error bitmap ((i + 2) / 8)) as [x|] eqn:E.
  - eexists. reflexivity.
  - apply nth_error_None in E. lia.
Qed.

(** The two column loops, from column [i] on: the encoder appends [body] to
    its buffer, and the decoder, started where [body] begins, reads back
    the entries of the row and stops at the end of [body]. *)
Lemma columns_round_trip (row : BinaryRow) (columns : list ColumnDefinition41) :
  forall i : nat,
    (forall j, (j < List.length columns)%nat ->
               exists b, isNull (RowNullBuffer row) (i + j) = Return b) ->
    (forall j col, nth_error columns j = Some col ->
       exists v, nth_error (Values row) (i + j) = Some (entry col v)
                 /\ (isNull (RowNullBuffer row) (i + j) = Return true -> v = Nil)
                 /\ (isNull (RowNullBuffer row) (i + j) = Return false -> matches col v)) ->
    exists (body : list byte) (es : list ColumnEntry),
      List.length es = List.length columns
      /\ (forall j, (j < List.length columns)%nat ->
                    nth_error es j = nth_error (Values row) (i + j))
      /\ (forall buf, encodeColumns row i columns buf = Return (Some (buf ++ body), None))
      /\ (forall pre values,
            decodeColumns (pre ++ body) (RowNullBuffer row) i columns (List.length pre) values
            = Return (Some (values ++ es), (List.length pre + List.length body)%nat, None)).
Proof.
  induction columns as [|col rest IH]; intros i Hbits Hvals.
  - exists [], []. repeat split.
    + intros j Hj. cbn in Hj. lia.
    + intros buf. cbn. now rewrite app_nil_r.
    + intros pre values. cbn. now rewrite !app_nil_r, Nat.add_0_r.
  - destruct (IH (S i)) as (body & es & Hlen & Hnth & Henc & Hdec).
    { intros j Hj. replace (S i + j)%nat with (i + S j)%nat by lia.
      apply Hbits. cbn. lia. }
    { intros j c Hj. replace (S i + j)%nat with (i + S j)%nat by lia.
      apply Hvals. exact Hj. }
    destruct (Hbits 0%nat ltac:(cbn; lia)) as (b & Hb).
    destruct (Hvals 0%nat col eq_refl) as (v & Hv & Hnil & Hmatch).
    rewrite Nat.add_0_r in Hb, Hv, Hnil, Hmatch.
    assert (Hes : forall j, (j < List.length (col :: rest))%nat ->
                nth_error (entry col v :: es) j = nth_error (Values row) (i + j)).
    { intros [|j] Hj; cbn [nth_error].
      - now rewrite Nat.add_0_r, Hv.
      - rewrite Hnth by (cbn in Hj; lia). f_equal. lia. }
    destruct b.
    + rewrite (Hnil Hb) in *.
      exists body, (entry col Nil :: es). repeat split.
      * cbn. now rewrite Hlen.
      * exact Hes.
      * intros buf. cbn [encodeColumns]. rewrite Hb. cbn [bind]. apply Henc.
      * intros pre values. rewrite decodeColumns_null by exact Hb.
        rewrite Hdec, <- app_assoc. reflexivity.
    + destruct (matching_value_round_trips col v (Hmatch Hb)) as (w & Hw & Hr).
      exists (w ++ body), (entry col v :: es). repeat split.
      * cbn. now rewrite Hlen.
      * exact Hes.
      * intros buf. cbn [encodeColumns]. rewrite Hb. cbn [bind].
        rewrite Hv, Hw. cbn [bind]. rewrite Henc, <- app_assoc. reflexivity.
      * intros pre values.
        rewrite (decodeColumns_value (pre ++ w ++ body) (RowNullBuffer row) (w ++ body)
                   i col rest (List.length pre) (List.length w) values v Hb
                   (slice_from_suffix pre (w ++ body)) (Hr body)).
        rewrite <- length_app, (app_assoc pre w body), Hdec.
        rewrite <- app_assoc, !length_app, Nat.add_assoc. reflexivity.
Qed.

(** The round trip: a well-formed row whose values match their columns
    (FLOAT and DOUBLE columns, if any, being null) is encoded without
    error, and decoding the bytes gives the row back, with every byte
    consumed. *)
Theorem round_trip_of_matching_rows (row : BinaryRow) (columns : list ColumnDefinition41) :
  wellFormed row columns ->
  exists bytes : list byte,
    EncodeBinaryRow row columns = Return (Some bytes, None)
    /\ DecodeBinaryRow bytes columns = Return (Some row, List.length bytes, None).
Proof.
  intros [Hpl Hok Hbm Hcount Hentries].
  destruct (columns_round_trip row columns 0) as (body & es & Hlen & Hnth & Henc & Hdec).
  { intros j Hj. cbn [Nat.add]. apply isNull_defined. rewrite Hbm.
    apply Nat.Div0.div_lt_upper_bound.
    pose proof (Nat.Div0.mul_div_le (List.length columns + 7 + 2) 8).
    pose proof (Nat.Div0.mod_eq (List.length columns + 7 + 2) 8) as Hmod.
    pose proof (Nat.mod_upper_bound (List.length columns + 7 + 2) 8 ltac:(lia)).
    lia. }
  { intros j col Hj. cbn [Nat.add].
    destruct (nth_error (Values row) j) as [e|] eqn:He.
    - destruct (Hentries j col e Hj He) as (v & -> & Hn & Hm). exists v. auto.
    - apply nth_error_None in He.
      assert (j < List.length columns)%nat by (apply nth_error_Some; congruence).
      lia. }
  assert (Hvalues : es = Values row).
  { apply nth_error_ext. intros j.
    destruct (Nat.lt_ge_cases j (List.length columns)) as [Hj|Hj].
    - now rewrite Hnth.
    - rewrite (proj2 (nth_error_None es j)) by lia.
      rewrite (proj2 (nth_error_None (Values row) j)) by lia. reflexivity. }
  destruct row as [[pl sq] vals ok bitmap].
  cbn [row_Header PayloadLength SequenceID Values OkAfterRow RowNullBuffer] in *.
  subst ok es.
  exists (binary.le_bytes 3 pl ++ [sq] ++ [x00] ++ bitmap ++ body). split.
  - unfold EncodeBinaryRow, utils.WriteUint24.
    cbn [row_Header PayloadLength SequenceID RowNullBuffer].
    rewrite Henc. cbn [app]. rewrite <- !app_assoc. reflexivity.
  - cbn [binary.le_bytes app].
    rewrite DecodeBinaryRow_packet by exact Hbm.
    pose proof (Hdec (byte_of_Z pl :: byte_of_Z (pl / 256) :: byte_of_Z (pl / 256 / 256)
                      :: sq :: x00 :: bitmap) []) as Hd.
    cbn [List.length app] in Hd.
    cbn [Nat.add]. rewrite Hd. cbn [bind].
    pose proof (le_value_le_bytes 3 pl) as Hv. cbn [binary.le_bytes] in Hv.
    rewrite Hv. change (256 ^ Z.of_nat 3) with (2 ^ 24).
    rewrite Z.mod_small by lia.
    cbn [List.length]. rewrite length_app. reflexivity.
Qed.

(** The round trip applies to the sample row. *)
Example sample_row_round_trips :
  exists bytes : list byte,
    EncodeBinaryRow sampleRow sampleColumns = Return (Some bytes, None)
    /\ DecodeBinaryRow bytes sampleColumns
       = Return (Some sampleRow, List.length bytes, None).
Proof.
  apply round_trip_of_matching_rows. constructor.
  - cbn. lia.
  - reflexivity.
  - reflexivity.
  - reflexivity.
  - intros i col e Hc He.
    destruct i as [|[|[|[|[|i]]]]]; cbn in Hc, He;
      try (destruct i; discriminate Hc);
      inversion Hc; inversion He; subst; clear Hc He;
      eexists; (split; [reflexivity |]);
      (split; intros Hn; vm_compute in Hn; try discriminate Hn).
    + apply matches_uint32; [reflexivity | reflexivity | cbn; lia].
    + apply matches_string; [reflexivity | cbn; lia].
    + apply (matches_datetime _ 2023 6 15 10 30 0);
        (right; reflexivity) || lia.
    + apply (matches_time _ true 3 2 15 30); reflexivity || (cbn; lia) || lia.
    + reflexivity.
Qed.

(** C1: the round trip fails on a row that holds a float.  The row with one
    FLOAT column of value 1.0 (pattern [0x3F800000]) is encoded without
    error; decoding the bytes gives a row whose value is 1065353216.0
    (pattern [0x4E7E0000]), which is not the original row. *)
Theorem float_row_does_not_round_trip :
  forall col : ColumnDefinition41,
    col_Type col = FieldTypeFloat ->
    let row := {| row_Header := {| PayloadLength := 6; SequenceID := x01 |};
                  Values := [entry col (Float32 0x3F800000)];
                  OkAfterRow := true;
                  RowNullBuffer := [x00] |} in
    let decoded := {| row_Header := {| PayloadLength := 6; SequenceID := x01 |};
                      Values := [entry col (Float32 0x4E7E0000)];
                      OkAfterRow := true;
                      RowNullBuffer := [x00] |} in
    EncodeBinaryRow row [col]
    = Return (Some [x06; x00; x00; x01; x00; x00; x00; x00; x80; x3f], None)
    /\ DecodeBinaryRow [x06; x00; x00; x01; x00; x00; x00; x00; x80; x3f] [col]
       = Return (Some decoded, 10%nat, None)
    /\ decoded <> row.
Proof.
  intros col E row decoded. split; [| split].
  - unfold EncodeBinaryRow, utils.WriteUint24, row.
    cbn [row_Header PayloadLength SequenceID RowNullBuffer app encodeColumns Values].
    change (isNull [x00] 0) with (Return false).
    cbn [bind nth_error]. unfold encodeColumn, entry. cbn [ce_Type ce_Value].
    rewrite E. reflexivity.
  - pose proof (DecodeBinaryRow_packet x06 x00 x00 x01 [x00] [x00; x00; x80; x3f] [col]
                  eq_refl) as Hp.
    cbn [List.length Nat.add app] in Hp. rewrite Hp.
    erewrite decodeColumns_value;
      [| reflexivity | reflexivity
       | apply (float_decodes_by_numeric_conversion col [x00; x00; x80; x3f] E);
         cbn; lia ].
    reflexivity.
  - unfold decoded, row, entry. intros H. inversion H.
Qed.

Lemma float_row_does_not_round_trip_witness :
  DecodeBinaryRow [x06; x00; x00; x01; x00; x00; x00; x00; x80; x3f]
    [{| col_Name := "ratio"; col_Type := FieldTypeFloat; col_Flags := 0 |}]
  = Return (Some {| row_Header := {| PayloadLength := 6; SequenceID := x01 |};
                    Values := [entry {| col_Name := "ratio"; col_Type := FieldTypeFloat;
                                        col_Flags := 0 |} (Float32 0x4E7E0000)];
                    OkAfterRow := true;
                    RowNullBuffer := [x00] |}, 10%nat, None).
Proof.
  apply (float_row_does_not_round_trip
           {| col_Name := "ratio"; col_Type := FieldTypeFloat; col_Flags := 0 |}).
  reflexivity.
Defined.

(** * Further properties *)

(** ** The round trip before trailing bytes *)

Lemma bitmap_covers_columns (n j : nat) :
  (j < n)%nat -> ((j + 2) / 8 < bitmapLength n)%nat.
Proof.
  intros Hj. unfold bitmapLength.
  apply Nat.Div0.div_lt_upper_bound.
  pose proof (Nat.Div0.mul_div_le (n + 7 + 2) 8).
  pose proof (Nat.Div0.mod_eq (n + 7 + 2) 8) as Hmod.
  pose proof (Nat.mod_upper_bound (n + 7 + 2) 8 ltac:(lia)).
  lia.
Qed.

(** The two column loops, from column [i] on, when bytes follow the body. *)
Lemma columns_round_trip_before_trailing (row : BinaryRow)
    (columns : list ColumnDefinition41) :
  forall i : nat,
    (forall j, (j < List.length columns)%nat ->
               exists b, isNull (RowNullBuffer row) (i + j) = Return b) ->
    (forall j col, nth_error columns j = Some col ->
       exists v, nth_error (Values row) (i + j) = Some (entry col v)
                 /\ (isNull (RowNullBuffer row) (i + j) = Return true -> v = Nil)
                 /\ (isNull (RowNullBuffer row) (i + j) = Return false -> matches col v)) ->
    exists (body : list byte) (es : list ColumnEntry),
      List.length es = List.length columns
      /\ (forall j, (j < List.length columns)%nat ->
                    nth_error es j = nth_error (Values row) (i + j))
      /\ (forall buf, encodeColumns row i columns buf = Return (Some (buf ++ body), None))
      /\ (forall pre values trailing,
            decodeColumns (pre ++ body ++ trailing) (RowNullBuffer row) i columns
              (List.length pre) values
            = Return (Some (values ++ es), (List.length pre + List.length body)%nat, None)).
Proof.
  induction columns as [|col rest IH]; intros i Hbits Hvals.
  - exists [], []. repeat split.
    + intros j Hj. cbn in Hj. lia.
    + intros buf. cbn. now rewrite app_nil_r.
    + intros pre values trailing. cbn. now rewrite !app_nil_r, Nat.add_0_r.
  - destruct (IH (S i)) as (body & es & Hlen & Hnth & Henc & Hdec).
    { intros j Hj. replace (S i + j)%nat with (i + S j)%nat by lia.
      apply Hbits. cbn. lia. }
    { intros j c Hj. replace (S i + j)%nat with (i + S j)%nat by lia.
      apply Hvals. exact Hj. }
    destruct (Hbits 0%nat ltac:(cbn; lia)) as (b & Hb).
    destruct (Hvals 0%nat col eq_refl) as (v & Hv & Hnil & Hmatch).
    rewrite Nat.add_0_r in Hb, Hv, Hnil, Hmatch.
    assert (Hes : forall j, (j < List.length (col :: rest))%nat ->
                nth_error (entry col v :: es) j = nth_error (Values row) (i + j)).
    { intros [|j] Hj; cbn [nth_error].
      - now rewrite Nat.add_0_r, Hv.
      - rewrite Hnth by (cbn in Hj; lia). f_equal. lia. }
    destruct b.
    + rewrite (Hnil Hb) in *.
      exists body, (entry col Nil :: es). repeat split.
      * cbn. now rewrite Hlen.
      * exact Hes.
      * intros buf. cbn [encodeColumns]. rewrite Hb. cbn [bind]. apply Henc.
      * intros pre values trailing. rewrite decodeColumns_null by exact Hb.
        rewrite Hdec, <- app_assoc. reflexivity.
    + destruct (matching_value_round_trips col v (Hmatch Hb)) as (w & Hw & Hr).
      exists (w ++ body), (entry col v :: es). repeat split.
      * cbn. now rewrite Hlen.
      * exact Hes.
      * intros buf. cbn [encodeColumns]. rewrite Hb. cbn [bind].
        rewrite Hv, Hw. cbn [bind]. rewrite Henc, <- app_assoc. reflexivity.
      * intros pre values trailing. rewrite <- (app_assoc w body trailing).
        rewrite (decodeColumns_value (pre ++ w ++ body ++ trailing) (RowNullBuffer row)
                   (w ++ body ++ trailing)
                   i col rest (List.length pre) (List.length w) values v Hb
                   (slice_from_suffix pre (w ++ body ++ trailing)) (Hr (body ++ trailing))).
        rewrite <- length_app, (app_assoc pre w (body ++ trailing)), Hdec.
        rewrite <- app_assoc, !length_app, Nat.add_assoc. reflexivity.
Qed.

Lemma sampleRow_wellFormed : wellFormed sampleRow sampleColumns.
Proof.
  constructor.
  - cbn. lia.
  - reflexivity.
  - reflexivity.
  - reflexivity.
  - intros i col e Hc He.
    destruct i as [|[|[|[|[|i]]]]]; cbn in Hc, He;
      try (destruct i; discriminate Hc);
      inversion Hc; inversion He; subst; clear Hc He;
      eexists; (split; [reflexivity |]);
      (split; intros Hn; vm_compute in Hn; try discriminate Hn).
    + apply matches_uint32; [reflexivity | reflexivity | cbn; lia].
    + apply matches_string; [reflexivity | cbn; lia].
    + apply (matches_datetime _ 2023 6 15 10 30 0);
        (right; reflexivity) || lia.
    + apply (matches_time _ true 3 2 15 30); reflexivity || (cbn; lia) || lia.
    + reflexivity.
Qed.

(** X1: a well-formed row whose non-null values match their columns (no
    FLOAT or DOUBLE value) is encoded without error, and decoding the
    encoding followed by any further bytes gives the row back and reports
    as consumed exactly the length of the encoding: the next packet of a
    stream starts where the decoder says. *)
Theorem encoded_row_decodes_before_trailing_bytes
    (row : BinaryRow) (columns : list ColumnDefinition41) (trailing : list byte) :
  wellFormed row columns ->
  exists bytes : list byte,
    EncodeBinaryRow row columns = Return (Some bytes, None)
    /\ DecodeBinaryRow (bytes ++ trailing) columns
       = Return (Some row, List.length bytes, None).
Proof.
  intros [Hpl Hok Hbm Hcount Hentries].
  destruct (columns_round_trip_before_trailing row columns 0)
    as (body & es & Hlen & Hnth & Henc & Hdec).
  { intros j Hj. cbn [Nat.add]. apply isNull_defined. rewrite Hbm.
    now apply bitmap_covers_columns. }
  { intros j col Hj. cbn [Nat.add].
    destruct (nth_error (Values row) j) as [e|] eqn:He.
    - destruct (Hentries j col e Hj He) as (v & -> & Hn & Hm). exists v. auto.
    - apply nth_error_None in He.
      assert (j < List.length columns)%nat by (apply nth_error_Some; congruence).
      lia. }
  assert (Hvalues : es = Values row).
  { apply nth_error_ext. intros j.
    destruct (Nat.lt_ge_cases j (List.length columns)) as [Hj|Hj].
    - now rewrite Hnth.
    - rewrite (proj2 (nth_error_None es j)) by lia.
      rewrite (proj2 (nth_error_None (Values row) j)) by lia. reflexivity. }
  destruct row as [[pl sq] vals ok bitmap].
  cbn [row_Header PayloadLength SequenceID Values OkAfterRow RowNullBuffer] in *.
  subst ok es.
  exists (binary.le_bytes 3 pl ++ [sq] ++ [x00] ++ bitmap ++ body). split.
  - unfold EncodeBinaryRow, utils.WriteUint24.
    cbn [row_Header PayloadLength SequenceID RowNullBuffer].
    rewrite Henc. cbn [app]. rewrite <- !app_assoc. reflexivity.
  - cbn [binary.le_bytes app]. rewrite <- app_assoc.
    rewrite DecodeBinaryRow_packet by exact Hbm.
    pose proof (Hdec (byte_of_Z pl :: byte_of_Z (pl / 256) :: byte_of_Z (pl / 256 / 256)
                      :: sq :: x00 :: bitmap) [] trailing) as Hd.
    cbn [List.length app] in Hd.
    cbn [Nat.add]. rewrite Hd. cbn [bind].
    pose proof (le_value_le_bytes 3 pl) as Hv. cbn [binary.le_bytes] in Hv.
    rewrite Hv. change (256 ^ Z.of_nat 3) with (2 ^ 24).
    rewrite Z.mod_small by lia.
    cbn [List.length]. rewrite length_app. reflexivity.
Qed.

Lemma encoded_row_decodes_before_trailing_bytes_witness :
  exists bytes : list byte,
    EncodeBinaryRow sampleRow sampleColumns = Return (Some bytes, None)
    /\ DecodeBinaryRow (bytes ++ [x01; x00; x00; x06; xfe]) sampleColumns
       = Return (Some sampleRow, List.length bytes, None).
Proof.
  exact (encoded_row_decodes_before_trailing_bytes sampleRow sampleColumns
           [x01; x00; x00; x06; xfe] sampleRow_wellFormed).
Defined.

(** ** Integer fields *)

Lemma signed_range (w z : Z) :
  0 < w -> - 2 ^ (w - 1) <= signed w z < 2 ^ (w - 1).
Proof.
  intros Hw. unfold signed, wrap.
  assert (Hp : 2 ^ w = 2 * 2 ^ (w - 1)).
  { replace w with (Z.succ (w - 1)) at 1 by lia. apply Z.pow_succ_r. lia. }
  pose proof (Z.pow_pos_nonneg 2 (w - 1) ltac:(lia) ltac:(lia)) as Hpos.
  pose proof (Z.mod_pos_bound z (2 ^ w) ltac:(lia)) as Hm.
  destruct (Z.ltb_spec (z mod 2 ^ w) (2 ^ (w - 1))); lia.
Qed.

Lemma readUint_field (n : nat) (field rest : list byte) :
  List.length field = n ->
  readUint n (field ++ rest) = Return (binary.le_value field).
Proof.
  intros Hn. rewrite <- (le_bytes_le_value field) at 1. rewrite Hn.
  rewrite readUint_le_bytes. f_equal.
  pose proof (le_value_range field) as Hr. rewrite Hn in Hr.
  apply Z.mod_small. exact Hr.
Qed.

Lemma field_length_check (n : nat) (field rest : list byte) :
  List.length field = n -> (List.length (field ++ rest) <? n)%nat = false.
Proof.
  intros Hn. apply Nat.ltb_ge. rewrite length_app. lia.
Qed.

(** An integer field of [n] bytes, [n] being 2, 4 or 8: the value read back
    and what the encoder writes for it. *)
Ltac wide_integer_field n w col field Hlen Ht U S :=
  let Hu := fresh "Hu" in
  pose proof (le_value_range field) as Hrange; rewrite Hlen in Hrange;
  destruct (isUnsigned col) eqn:Hu;
  [ exists (U (binary.le_value field))
  | exists (S (signed w (binary.le_value field))) ];
  (split;
   [ intros rest; unfold readBinaryValue; rewrite Ht, Hu;
     rewrite (field_length_check n field rest Hlen), (readUint_field n field rest Hlen);
     rewrite Hlen; reflexivity
   | split;
     [ |
       intros buf; unfold encodeColumn, entry; cbn [ce_Type ce_Value]; rewrite Ht;
       rewrite ?(le_bytes_signed n w (signed w (binary.le_value field)))
         by (reflexivity || lia);
       rewrite (le_bytes_signed n w (binary.le_value field)) by (reflexivity || lia);
       rewrite <- Hlen, le_bytes_le_value; reflexivity ] ]).

Lemma long_field (col : ColumnDefinition41) (field : list byte) :
  col_Type col = FieldTypeLong -> List.length field = 4%nat ->
  integerFieldSpec col field.
Proof.
  intros Ht Hlen. unfold integerFieldSpec.
  wide_integer_field 4%nat 32 col field Hlen Ht Uint32 Int32.
  - apply matches_uint32; [assumption | assumption |].
    change (256 ^ Z.of_nat 4) with (2 ^ 32) in Hrange. exact Hrange.
  - apply matches_int32; [assumption | assumption |].
    apply (signed_range 32). lia.
Qed.

Lemma longlong_field (col : ColumnDefinition41) (field : list byte) :
  col_Type col = FieldTypeLongLong -> List.length field = 8%nat ->
  integerFieldSpec col field.
Proof.
  intros Ht Hlen. unfold integerFieldSpec.
  wide_integer_field 8%nat 64 col field Hlen Ht Uint64 Int64.
  - apply matches_uint64; [assumption | assumption |].
    change (256 ^ Z.of_nat 8) with (2 ^ 64) in Hrange. exact Hrange.
  - apply matches_int64; [assumption | assumption |].
    apply (signed_range 64). lia.
Qed.

Lemma short_field (col : ColumnDefinition41) (field : list byte) :
  col_Type col = FieldTypeShort \/ col_Type col = FieldTypeYear ->
  List.length field = 2%nat ->
  integerFieldSpec col field.
Proof.
  intros Hk Hlen. unfold integerFieldSpec.
  destruct Hk as [Ht|Ht]; wide_integer_field 2%nat 16 col field Hlen Ht Uint16 Int16;
    try (apply matches_uint16; [tauto | assumption |];
         change (256 ^ Z.of_nat 2) with (2 ^ 16) in Hrange; exact Hrange);
    (apply matches_int16; [tauto | assumption | apply (signed_range 16); lia]).
Qed.

Lemma tiny_field (col : ColumnDefinition41) (b : byte) :
  col_Type col = FieldTypeTiny -> integerFieldSpec col [b].
Proof.
  intros Ht. unfold integerFieldSpec. pose proof (byte_to_Z_range b) as Hb.
  destruct (isUnsigned col) eqn:Hu;
    [exists (Uint8 (byte_to_Z b)) | exists (Int8 (signed 8 (byte_to_Z b)))];
    (split; [intros rest; unfold readBinaryValue; rewrite Ht, Hu; reflexivity |]);
    (split; [| intros buf; unfold encodeColumn, entry; cbn [ce_Type ce_Value];
               rewrite Ht;
               pose proof (le_bytes_signed 1 8 (byte_to_Z b) ltac:(lia) eq_refl) as Hs;
               pose proof (le_bytes_signed 1 8 (signed 8 (byte_to_Z b)) ltac:(lia) eq_refl)
                 as Hs';
               cbn [binary.le_bytes] in Hs, Hs'; inversion Hs as [Hs1];
               inversion Hs' as [Hs2]; rewrite ?Hs2, ?Hs1, ?byte_of_to_Z;
               try rewrite Hs1; rewrite ?byte_of_to_Z; reflexivity]).
  - apply matches_uint8; [assumption | assumption | cbn; lia].
  - apply matches_int8; [assumption | assumption | apply (signed_range 8); lia].
Qed.

(** X2: on an integer column (TINY, SHORT, YEAR, LONG, LONGLONG) and a
    buffer that holds at least the width of the kind, the decoder consumes
    exactly the width and returns a value of the column's width and
    signedness, within the range of that type; the encoder writes for that
    value the very bytes that were read. *)
Theorem integer_fields_are_reproduced
    (col : ColumnDefinition41) (data : list byte) (w : nat) :
  isIntegerKind (col_Type col) = true ->
  fixedWidth (col_Type col) = Some w ->
  (w <= List.length data)%nat ->
  exists v : value,
    readBinaryValue data col = Return (v, w, None)
    /\ matches col v
    /\ (forall buf, encodeColumn buf (entry col v) = Return (buf ++ firstn w data, None)).
Proof.
  intros Hk Hw Hlen.
  assert (Hfield : List.length (firstn w data) = w)
    by (rewrite length_firstn; lia).
  assert (Hspec : integerFieldSpec col (firstn w data)).
  { destruct (col_Type col) eqn:Ht; try discriminate Hk; cbn in Hw;
      inversion Hw; subst w.
    - destruct data as [|b data]; [cbn in Hlen; lia |]. cbn [firstn].
      apply tiny_field. exact Ht.
    - apply short_field; [left; exact Ht | exact Hfield].
    - apply long_field; [exact Ht | exact Hfield].
    - apply longlong_field; [exact Ht | exact Hfield].
    - apply short_field; [right; exact Ht | exact Hfield]. }
  destruct Hspec as (v & Hread & Hm & Hwrite).
  exists v. repeat split; try assumption.
  specialize (Hread (skipn w data)).
  now rewrite firstn_skipn, Hfield in Hread.
Qed.

Lemma integer_fields_are_reproduced_witness :
  exists v : value,
    readBinaryValue [x2a; xff; x01]
      {| col_Name := "n"; col_Type := FieldTypeShort; col_Flags := 0 |}
    = Return (v, 2%nat, None)
    /\ matches {| col_Name := "n"; col_Type := FieldTypeShort; col_Flags := 0 |} v
    /\ (forall buf,
          encodeColumn buf
            (entry {| col_Name := "n"; col_Type := FieldTypeShort; col_Flags := 0 |} v)
          = Return (buf ++ firstn 2 [x2a; xff; x01], None)).
Proof.
  apply (integer_fields_are_reproduced
           {| col_Name := "n"; col_Type := FieldTypeShort; col_Flags := 0 |}
           [x2a; xff; x01] 2%nat).
  - reflexivity.
  - reflexivity.
  - cbn. lia.
Defined.

(** ** Temporal texts and what the encoder reads of them *)

Lemma encode_date_text (col : ColumnDefinition41) (y m d : Z) (junk : string)
    (buf : list byte) :
  col_Type col = FieldTypeDate \/ col_Type col = FieldTypeNewDate ->
  0 <= y <= 9999 -> 0 <= m <= 99 -> 0 <= d <= 99 ->
  encodeColumn buf
    (entry col (Str (fmt.decimal_padded 4 y ++ "-" ++ fmt.decimal_padded 2 m ++ "-"
                     ++ fmt.decimal_padded 2 d ++ junk)))
  = Return (buf ++ [x04] ++ binary.le_bytes 2 (wrap 16 y)
                ++ [byte_of_Z m; byte_of_Z d], None).
Proof.
  intros Ht Hy Hm Hd. unfold encodeColumn, entry. cbn [ce_Type ce_Value].
  destruct Ht as [Ht|Ht]; rewrite Ht; cbn [encodeBinaryDateTime];
    rewrite Sscanf_date by assumption; reflexivity.
Qed.

Lemma encode_datetime_text (col : ColumnDefinition41) (y m d h mi s : Z) (junk : string)
    (buf : list byte) :
  col_Type col = FieldTypeTimestamp \/ col_Type col = FieldTypeDateTime ->
  0 <= y <= 9999 -> 0 <= m <= 99 -> 0 <= d <= 99 ->
  0 <= h <= 99 -> 0 <= mi <= 99 -> 0 <= s <= 99 ->
  encodeColumn buf
    (entry col (Str (fmt.decimal_padded 4 y ++ "-" ++ fmt.decimal_padded 2 m ++ "-"
                     ++ fmt.decimal_padded 2 d ++ " " ++ fmt.decimal_padded 2 h ++ ":"
                     ++ fmt.decimal_padded 2 mi ++ ":" ++ fmt.decimal_padded 2 s
                     ++ junk)))
  = Return (buf ++ [x07] ++ binary.le_bytes 2 (wrap 16 y)
                ++ [byte_of_Z m; byte_of_Z d; byte_of_Z h; byte_of_Z mi; byte_of_Z s],
            None).
Proof.
  intros Ht Hy Hm Hd Hh Hmi Hs. unfold encodeColumn, entry. cbn [ce_Type ce_Value].
  destruct Ht as [Ht|Ht]; rewrite Ht; cbn [encodeBinaryDateTime];
    rewrite Sscanf_datetime by assumption; reflexivity.
Qed.

Lemma encode_time_text (col : ColumnDefinition41) (negative : bool) (days h mi s : Z)
    (junk : string) (buf : list byte) :
  col_Type col = FieldTypeTime ->
  0 <= days < 2 ^ 32 -> 0 <= h <= 99 -> 0 <= mi <= 99 -> 0 <= s <= 99 ->
  let text := (fmt.decimal days ++ " " ++ fmt.decimal_padded 2 h ++ ":"
               ++ fmt.decimal_padded 2 mi ++ ":" ++ fmt.decimal_padded 2 s
               ++ junk)%string in
  encodeColumn buf (entry col (Str (if negative then "-" ++ text else text)))
  = Return (buf ++ [x08] ++ [if negative then x01 else x00]
                ++ binary.le_bytes 4 (wrap 32 days)
                ++ [byte_of_Z h; byte_of_Z mi; byte_of_Z s], None).
Proof.
  intros Ht Hdays Hh Hmi Hs text.
  assert (Hscan : fmt.Sscanf text "%d %02d:%02d:%02d" = ([days; h; mi; s], None)).
  { unfold text. now apply Sscanf_time. }
  unfold encodeColumn, entry. cbn [ce_Type ce_Value]. rewrite Ht.
  cbn [encodeBinaryDateTime]. destruct negative.
  - change ("-" ++ text)%string with (String "-" text).
    cbn [string_index String.get bind string_from].
    change (Ascii.eqb "-" "-") with true. cbv iota. cbn [bind].
    rewrite Hscan. reflexivity.
  - destruct (decimal_first_char days
                (" " ++ fmt.decimal_padded 2 h ++ ":" ++ fmt.decimal_padded 2 mi ++ ":"
                 ++ fmt.decimal_padded 2 s ++ junk) ltac:(lia))
      as (c & tail & Htext & Hc).
    fold text in Htext. rewrite Htext in Hscan |- *.
    cbn [string_index String.get bind]. rewrite Hc. cbn [bind].
    rewrite Hscan. reflexivity.
Qed.

(** ** Temporal fields as the decoder reads them *)

Lemma decode_date (col : ColumnDefinition41) (l y0 y1 m d : byte) (rest : list byte) :
  col_Type col = FieldTypeDate \/ col_Type col = FieldTypeNewDate ->
  l <> x00 ->
  readBinaryValue (l :: y0 :: y1 :: m :: d :: rest) col
  = Return (Str (dateText (binary.le_value [y0; y1]) (byte_to_Z m) (byte_to_Z d)),
            (Z.to_nat (byte_to_Z l) + 1)%nat, None).
Proof.
  intros Ht Hl. unfold readBinaryValue.
  destruct Ht as [Ht|Ht]; rewrite Ht; unfold parseBinaryDate;
    cbn [List.length Nat.eqb index nth_error bind];
    rewrite (byte_to_Z_nonzero l Hl); reflexivity.
Qed.

Lemma decode_datetime_without_fraction (col : ColumnDefinition41)
    (l y0 y1 m d h mi s : byte) (rest : list byte) :
  col_Type col = FieldTypeTimestamp \/ col_Type col = FieldTypeDateTime ->
  l <> x00 -> byte_to_Z l <= 7 ->
  readBinaryValue (l :: y0 :: y1 :: m :: d :: h :: mi :: s :: rest) col
  = Return (Str (dateTimeText (binary.le_value [y0; y1]) (byte_to_Z m) (byte_to_Z d)
                   (byte_to_Z h) (byte_to_Z mi) (byte_to_Z s)),
            (Z.to_nat (byte_to_Z l) + 1)%nat, None).
Proof.
  intros Ht Hl H7. unfold readBinaryValue.
  assert (Hc : (7 <? byte_to_Z l) = false) by (apply Z.ltb_ge; lia).
  destruct Ht as [Ht|Ht]; rewrite Ht; unfold parseBinaryDateTime;
    cbn [List.length Nat.eqb index nth_error bind];
    rewrite (byte_to_Z_nonzero l Hl);
    match goal with |- context [slice ?b 1 3] =>
      change (slice b 1 3) with (Return [y0; y1]) end;
    cbn [bind];
    change (binary.LittleEndian_Uint16 [y0; y1]) with (Return (binary.le_value [y0; y1]));
    cbn [bind]; rewrite Hc; reflexivity.
Qed.

Lemma decode_datetime_with_fraction (col : ColumnDefinition41)
    (l y0 y1 m d h mi s u0 u1 u2 u3 : byte) (rest : list byte) :
  col_Type col = FieldTypeTimestamp \/ col_Type col = FieldTypeDateTime ->
  7 < byte_to_Z l ->
  readBinaryValue (l :: y0 :: y1 :: m :: d :: h :: mi :: s :: u0 :: u1 :: u2 :: u3 :: rest)
    col
  = Return (Str (dateTimeText (binary.le_value [y0; y1]) (byte_to_Z m) (byte_to_Z d)
                   (byte_to_Z h) (byte_to_Z mi) (byte_to_Z s)
                 ++ "." ++ fmt.decimal_padded 6 (binary.le_value [u0; u1; u2; u3])),
            (Z.to_nat (byte_to_Z l) + 1)%nat, None).
Proof.
  intros Ht H7. unfold readBinaryValue.
  assert (Hc : (7 <? byte_to_Z l) = true) by (apply Z.ltb_lt; lia).
  assert (Hz : (byte_to_Z l =? 0) = false) by (apply Z.eqb_neq; lia).
  destruct Ht as [Ht|Ht]; rewrite Ht; unfold parseBinaryDateTime;
    cbn [List.length Nat.eqb index nth_error bind];
    rewrite Hz;
    match goal with |- context [slice ?b 1 3] =>
      change (slice b 1 3) with (Return [y0; y1]) end;
    cbn [bind];
    change (binary.LittleEndian_Uint16 [y0; y1]) with (Return (binary.le_value [y0; y1]));
    cbn [bind]; rewrite Hc;
    match goal with |- context [slice ?b 8 12] =>
      change (slice b 8 12) with (Return [u0; u1; u2; u3]) end;
    cbn [bind];
    change (binary.LittleEndian_Uint32 [u0; u1; u2; u3])
      with (Return (binary.le_value [u0; u1; u2; u3]));
    cbn [bind]; unfold dateTimeText; rewrite !string_app_assoc; reflexivity.
Qed.

Lemma decode_time_without_fraction (col : ColumnDefinition41)
    (l sign d0 d1 d2 d3 h mi s : byte) (rest : list byte) :
  col_Type col = FieldTypeTime ->
  l <> x00 -> byte_to_Z l <= 8 ->
  readBinaryValue (l :: sign :: d0 :: d1 :: d2 :: d3 :: h :: mi :: s :: rest) col
  = Return (Str (timeText (byte_to_Z sign =? 1) (binary.le_value [d0; d1; d2; d3])
                   (byte_to_Z h) (byte_to_Z mi) (byte_to_Z s) 0),
            (Z.to_nat (byte_to_Z l) + 1)%nat, None).
Proof.
  intros Ht Hl H8. unfold readBinaryValue. rewrite Ht.
  assert (Hc : (8 <? byte_to_Z l) = false) by (apply Z.ltb_ge; lia).
  unfold parseBinaryTime.
  cbn [List.length Nat.eqb index nth_error bind].
  rewrite (byte_to_Z_nonzero l Hl).
  match goal with |- context [slice ?b 2 6] =>
    change (slice b 2 6) with (Return [d0; d1; d2; d3]) end.
  cbn [bind].
  change (binary.LittleEndian_Uint32 [d0; d1; d2; d3])
    with (Return (binary.le_value [d0; d1; d2; d3])).
  cbn [bind]. rewrite Hc. reflexivity.
Qed.

Lemma decode_time_with_fraction (col : ColumnDefinition41)
    (l sign d0 d1 d2 d3 h mi s u0 u1 u2 u3 : byte) (rest : list byte) :
  col_Type col = FieldTypeTime ->
  8 < byte_to_Z l ->
  readBinaryValue
    (l :: sign :: d0 :: d1 :: d2 :: d3 :: h :: mi :: s :: u0 :: u1 :: u2 :: u3 :: rest) col
  = Return (Str (timeText (byte_to_Z sign =? 1) (binary.le_value [d0; d1; d2; d3])
                   (byte_to_Z h) (byte_to_Z mi) (byte_to_Z s)
                   (binary.le_value [u0; u1; u2; u3])),
            (Z.to_nat (byte_to_Z l) + 1)%nat, None).
Proof.
  intros Ht H8. unfold readBinaryValue. rewrite Ht.
  assert (Hc : (8 <? byte_to_Z l) = true) by (apply Z.ltb_lt; lia).
  assert (Hz : (byte_to_Z l =? 0) = false) by (apply Z.eqb_neq; lia).
  unfold parseBinaryTime.
  cbn [List.length Nat.eqb index nth_error bind].
  rewrite Hz.
  match goal with |- context [slice ?b 2 6] =>
    change (slice b 2 6) with (Return [d0; d1; d2; d3]) end.
  cbn [bind].
  change (binary.LittleEndian_Uint32 [d0; d1; d2; d3])
    with (Return (binary.le_value [d0; d1; d2; d3])).
  cbn [bind]. rewrite Hc.
  match goal with |- context [slice ?b 9 13] =>
    change (slice b 9 13) with (Return [u0; u1; u2; u3]) end.
  cbn [bind].
  change (binary.LittleEndian_Uint32 [u0; u1; u2; u3])
    with (Return (binary.le_value [u0; u1; u2; u3])).
  cbn [bind]. reflexivity.
Qed.

Lemma year_field_bytes (y0 y1 : byte) :
  binary.le_bytes 2 (wrap 16 (binary.le_value [y0; y1])) = [y0; y1].
Proof.
  pose proof (le_value_range [y0; y1]) as Hr.
  change (256 ^ Z.of_nat (List.length [y0; y1])) with (2 ^ 16) in Hr.
  unfold wrap. rewrite Z.mod_small by exact Hr.
  apply (le_bytes_le_value [y0; y1]).
Qed.

Lemma days_field_bytes (d0 d1 d2 d3 : byte) :
  binary.le_bytes 4 (wrap 32 (binary.le_value [d0; d1; d2; d3])) = [d0; d1; d2; d3].
Proof.
  pose proof (le_value_range [d0; d1; d2; d3]) as Hr.
  change (256 ^ Z.of_nat (List.length [d0; d1; d2; d3])) with (2 ^ 32) in Hr.
  unfold wrap. rewrite Z.mod_small by exact Hr.
  apply (le_bytes_le_value [d0; d1; d2; d3]).
Qed.

(** X3: a DATETIME or TIMESTAMP field decodes with its hour, minute and
    second read from the bytes at offsets 5, 6 and 7 whatever its non-zero
    length byte [l] up to 7 says, while the count of bytes consumed is
    [l + 1]: for the date-only wire form ([l = 4], five bytes) the three
    bytes that follow the field are rendered as its time of day and are not
    counted as consumed, so that in a row the first of them is read again
    as the value of the next column. *)
Theorem datetime_reads_time_of_day_for_every_length
    (col : ColumnDefinition41) (l y0 y1 m d h mi s : byte) (rest : list byte) :
  col_Type col = FieldTypeTimestamp \/ col_Type col = FieldTypeDateTime ->
  l <> x00 ->
  byte_to_Z l <= 7 ->
  readBinaryValue (l :: y0 :: y1 :: m :: d :: h :: mi :: s :: rest) col
  = Return (Str (dateTimeText (binary.le_value [y0; y1]) (byte_to_Z m) (byte_to_Z d)
                   (byte_to_Z h) (byte_to_Z mi) (byte_to_Z s)),
            (Z.to_nat (byte_to_Z l) + 1)%nat, None)
  /\ (l = x04 ->
      forall (h0 h1 h2 seq : byte) (next : ColumnDefinition41),
        col_Type next = FieldTypeTiny ->
        isUnsigned next = true ->
        exists row : BinaryRow,
          DecodeBinaryRow
            (h0 :: h1 :: h2 :: seq :: x00 :: x00
             :: l :: y0 :: y1 :: m :: d :: h :: mi :: s :: rest) [col; next]
          = Return (Some row, 12%nat, None)
          /\ Values row
             = [ entry col (Str (dateTimeText (binary.le_value [y0; y1]) (byte_to_Z m)
                                   (byte_to_Z d) (byte_to_Z h) (byte_to_Z mi)
                                   (byte_to_Z s)));
                 entry next (Uint8 (byte_to_Z h)) ]).
Proof.
  intros Ht Hl H7.
  pose proof (decode_datetime_without_fraction col l y0 y1 m d h mi s rest Ht Hl H7)
    as Hread.
  split; [exact Hread |].
  intros -> h0 h1 h2 seq next Hnt Hnu.
  eexists. split.
  - pose proof (DecodeBinaryRow_packet h0 h1 h2 seq [x00]
                  (x04 :: y0 :: y1 :: m :: d :: h :: mi :: s :: rest) [col; next]
                  eq_refl) as Hp.
    cbn [List.length Nat.add app] in Hp. rewrite Hp.
    erewrite decodeColumns_value; [| reflexivity | reflexivity | exact Hread].
    erewrite decodeColumns_value;
      [| reflexivity | reflexivity
       | unfold readBinaryValue; rewrite Hnt, Hnu; reflexivity ].
    reflexivity.
  - reflexivity.
Qed.

Lemma datetime_reads_time_of_day_for_every_length_witness :
  readBinaryValue [x04; xe7; x07; x06; x0f; x0a; x1e; x2d; xff]
    {| col_Name := "created"; col_Type := FieldTypeDateTime; col_Flags := 0 |}
  = Return (Str "2023-06-15 10:30:45", 5%nat, None).
Proof.
  apply (datetime_reads_time_of_day_for_every_length
           {| col_Name := "created"; col_Type := FieldTypeDateTime; col_Flags := 0 |}
           x04 xe7 x07 x06 x0f x0a x1e x2d [xff]).
  - right. reflexivity.
  - discriminate.
  - cbn. lia.
Defined.

(** X4: the microseconds of the wire are lost when a decoded value is
    encoded again.  A DATETIME or TIMESTAMP field of twelve bytes (length
    byte 11) and a TIME field of thirteen bytes (length byte 12), with a
    year of at most 9999, the other fields at most 99 and a sign byte 0 or
    1, decode without error, and the encoder writes for the decoded text
    the eight-byte (resp. nine-byte) form: the same fields under length
    byte 7 (resp. 8), the four microsecond bytes dropped. *)
Theorem microseconds_are_lost_on_reencoding :
  (forall (col : ColumnDefinition41) (y0 y1 m d h mi s u0 u1 u2 u3 : byte)
          (rest buf : list byte),
      col_Type col = FieldTypeTimestamp \/ col_Type col = FieldTypeDateTime ->
      binary.le_value [y0; y1] <= 9999 -> byte_to_Z m <= 99 -> byte_to_Z d <= 99 ->
      byte_to_Z h <= 99 -> byte_to_Z mi <= 99 -> byte_to_Z s <= 99 ->
      exists v : value,
        readBinaryValue
          (x0b :: y0 :: y1 :: m :: d :: h :: mi :: s :: u0 :: u1 :: u2 :: u3 :: rest) col
        = Return (v, 12%nat, None)
        /\ encodeColumn buf (entry col v)
           = Return (buf ++ [x07; y0; y1; m; d; h; mi; s], None))
  /\ (forall (col : ColumnDefinition41) (sign d0 d1 d2 d3 h mi s u0 u1 u2 u3 : byte)
             (rest buf : list byte),
        col_Type col = FieldTypeTime ->
        sign = x00 \/ sign = x01 ->
        byte_to_Z h <= 99 -> byte_to_Z mi <= 99 -> byte_to_Z s <= 99 ->
        exists v : value,
          readBinaryValue
            (x0c :: sign :: d0 :: d1 :: d2 :: d3 :: h :: mi :: s
             :: u0 :: u1 :: u2 :: u3 :: rest) col
          = Return (v, 13%nat, None)
          /\ encodeColumn buf (entry col v)
             = Return (buf ++ [x08; sign; d0; d1; d2; d3; h; mi; s], None)).
Proof.
  split.
  - intros col y0 y1 m d h mi s u0 u1 u2 u3 rest buf Ht Hy Hm Hd Hh Hmi Hs.
    pose proof (le_value_range [y0; y1]) as Ry.
    pose proof (byte_to_Z_range m). pose proof (byte_to_Z_range d).
    pose proof (byte_to_Z_range h). pose proof (byte_to_Z_range mi).
    pose proof (byte_to_Z_range s).
    eexists. split.
    + rewrite (decode_datetime_with_fraction col x0b) by (assumption || (cbn; lia)).
      reflexivity.
    + unfold dateTimeText. rewrite !string_app_assoc.
      rewrite encode_datetime_text by (assumption || lia).
      rewrite year_field_bytes, !byte_of_to_Z. reflexivity.
  - intros col sign d0 d1 d2 d3 h mi s u0 u1 u2 u3 rest buf Ht Hsign Hh Hmi Hs.
    pose proof (le_value_range [d0; d1; d2; d3]) as Rd.
    change (256 ^ Z.of_nat (List.length [d0; d1; d2; d3])) with (2 ^ 32) in Rd.
    pose proof (byte_to_Z_range h). pose proof (byte_to_Z_range mi).
    pose proof (byte_to_Z_range s).
    eexists. split.
    + rewrite (decode_time_with_fraction col x0c) by (assumption || (cbn; lia)).
      reflexivity.
    + pose proof (encode_time_text col (byte_to_Z sign =? 1)
                    (binary.le_value [d0; d1; d2; d3]) (byte_to_Z h) (byte_to_Z mi)
                    (byte_to_Z s)
                    ("." ++ fmt.decimal_padded 6 (binary.le_value [u0; u1; u2; u3]))
                    buf Ht Rd ltac:(lia) ltac:(lia) ltac:(lia)) as He.
      cbv zeta in He. unfold timeText.
      rewrite days_field_bytes, !byte_of_to_Z in He.
      destruct Hsign as [-> | ->]; exact He.
Qed.

Lemma microseconds_are_lost_on_reencoding_witness :
  exists v : value,
    readBinaryValue
      [x0b; xe7; x07; x06; x0f; x0a; x1e; x00; x40; xe2; x01; x00]
      {| col_Name := "created"; col_Type := FieldTypeDateTime; col_Flags := 0 |}
    = Return (v, 12%nat, None)
    /\ encodeColumn []
         (entry {| col_Name := "created"; col_Type := FieldTypeDateTime; col_Flags := 0 |} v)
       = Return ([] ++ [x07; xe7; x07; x06; x0f; x0a; x1e; x00], None).
Proof.
  apply (proj1 microseconds_are_lost_on_reencoding
           {| col_Name := "created"; col_Type := FieldTypeDateTime; col_Flags := 0 |}
           xe7 x07 x06 x0f x0a x1e x00 x40 xe2 x01 x00 [] []);
    (right; reflexivity) || (cbn; lia).
Defined.

(** ** Packets that are reproduced byte for byte *)

Lemma wire_field_reencodes (col : ColumnDefinition41) (field : list byte) :
  wireField col field -> fieldReencodes col field.
Proof.
  intros H. destruct H.
  - destruct (tiny_field col b H) as (v & Hr & _ & Hw). exists v. auto.
  - destruct (short_field col [b0; b1] H eq_refl) as (v & Hr & _ & Hw). exists v. auto.
  - destruct (long_field col [b0; b1; b2; b3] H eq_refl) as (v & Hr & _ & Hw).
    exists v. auto.
  - destruct (longlong_field col [b0; b1; b2; b3; b4; b5; b6; b7] H eq_refl)
      as (v & Hr & _ & Hw).
    exists v. auto.
  - exists (Str (string_of_list_byte payload)).
    assert (Hs : list_byte_of_string (string_of_list_byte payload) = payload)
      by apply list_byte_of_string_of_list_byte.
    assert (Hl : String.length (string_of_list_byte payload) = List.length payload).
    { rewrite <- list_byte_of_string_length, Hs. reflexivity. }
    split.
    + intros rest. unfold readBinaryValue.
      pose proof (ReadLengthEncodedString_written (string_of_list_byte payload) rest)
        as Hr.
      rewrite Hl, Hs in Hr. specialize (Hr H0). cbv zeta in Hr.
      destruct (col_Type col); try discriminate H; rewrite Hr; reflexivity.
    + intros buf. unfold encodeColumn, entry, utils.WriteLengthEncodedString.
      cbn [ce_Type ce_Value]. rewrite Hl, Hs.
      rewrite (AppendLengthEncodedInteger_app buf), <- app_assoc.
      destruct (col_Type col); try discriminate H; reflexivity.
  - pose proof (le_value_range [y0; y1]).
    pose proof (byte_to_Z_range m). pose proof (byte_to_Z_range d).
    eexists. split.
    + intros rest. cbn [app]. rewrite decode_date by (assumption || discriminate).
      reflexivity.
    + intros buf. unfold dateText.
      rewrite <- (append_assoc_nil (fmt.decimal_padded 2 (byte_to_Z d))).
      rewrite encode_date_text by (assumption || lia).
      rewrite year_field_bytes, !byte_of_to_Z. reflexivity.
  - pose proof (le_value_range [y0; y1]).
    pose proof (byte_to_Z_range m). pose proof (byte_to_Z_range d).
    pose proof (byte_to_Z_range h). pose proof (byte_to_Z_range mi).
    pose proof (byte_to_Z_range s).
    eexists. split.
    + intros rest. cbn [app].
      rewrite decode_datetime_without_fraction
        by (assumption || discriminate || (cbn; lia)).
      reflexivity.
    + intros buf. unfold dateTimeText.
      rewrite <- (append_assoc_nil (fmt.decimal_padded 2 (byte_to_Z s))).
      rewrite encode_datetime_text by (assumption || lia).
      rewrite year_field_bytes, !byte_of_to_Z. reflexivity.
  - pose proof (le_value_range [d0; d1; d2; d3]) as Rd.
    change (256 ^ Z.of_nat (List.length [d0; d1; d2; d3])) with (2 ^ 32) in Rd.
    pose proof (byte_to_Z_range h). pose proof (byte_to_Z_range mi).
    pose proof (byte_to_Z_range s).
    eexists. split.
    + intros rest. cbn [app].
      rewrite decode_time_without_fraction
        by (assumption || discriminate || (cbn; lia)).
      reflexivity.
    + intros buf.
      pose proof (encode_time_text col (byte_to_Z sign =? 1)
                    (binary.le_value [d0; d1; d2; d3]) (byte_to_Z h) (byte_to_Z mi)
                    (byte_to_Z s) ("." ++ fmt.decimal_padded 6 0)
                    buf H Rd ltac:(lia) ltac:(lia) ltac:(lia)) as He.
      cbv zeta in He. unfold timeText.
      rewrite days_field_bytes, !byte_of_to_Z in He.
      destruct H0 as [-> | ->]; exact He.
Qed.

(** The two column loops on the fields of a packet: the decoder reads the
    entries [es] and stops after the fields; the encoder, on a row whose
    entries from column [i] on are [es], writes the fields back. *)
Lemma wire_fields_reencode (bitmap : list byte) (i : nat)
    (columns : list ColumnDefinition41) (fields : list (list byte)) :
  wireFields bitmap i columns fields ->
  exists es : list ColumnEntry,
    (forall pre values trailing,
        decodeColumns (pre ++ List.concat fields ++ trailing) bitmap i columns
          (List.length pre) values
        = Return (Some (values ++ es),
                  (List.length pre + List.length (List.concat fields))%nat, None))
    /\ (forall (row : BinaryRow) (before : list ColumnEntry) (buf : list byte),
          RowNullBuffer row = bitmap ->
          Values row = before ++ es ->
          List.length before = i ->
          encodeColumns row i columns buf = Return (Some (buf ++ List.concat fields), None)).
Proof.
  induction 1 as [i | i col columns fields Hn _ IH | i col field columns fields Hn Hf _ IH].
  - exists []. split.
    + intros pre values trailing. cbn. now rewrite !app_nil_r, Nat.add_0_r.
    + intros row before buf _ _ _. cbn. now rewrite app_nil_r.
  - destruct IH as (es & Hdec & Henc). exists (entry col Nil :: es). split.
    + intros pre values trailing. rewrite decodeColumns_null by exact Hn.
      cbn [List.concat app]. rewrite Hdec, <- app_assoc. reflexivity.
    + intros row before buf Hb Hv Hl. cbn [encodeColumns List.concat app].
      rewrite Hb, Hn. cbn [bind].
      apply (Henc row (before ++ [entry col Nil]) buf Hb).
      * rewrite Hv, <- app_assoc. reflexivity.
      * rewrite length_app. cbn. lia.
  - destruct IH as (es & Hdec & Henc).
    destruct (wire_field_reencodes col field Hf) as (v & Hr & Hw).
    exists (entry col v :: es). split.
    + intros pre values trailing. cbn [List.concat]. rewrite <- !app_assoc.
      rewrite (decodeColumns_value (pre ++ field ++ List.concat fields ++ trailing) bitmap
                 (field ++ List.concat fields ++ trailing)
                 i col columns (List.length pre) (List.length field) values v Hn
                 (slice_from_suffix pre (field ++ List.concat fields ++ trailing))
                 (Hr (List.concat fields ++ trailing))).
      rewrite <- length_app, (app_assoc pre field), Hdec.
      rewrite <- app_assoc, !length_app, Nat.add_assoc. reflexivity.
    + intros row before buf Hb Hv Hl. cbn [encodeColumns List.concat].
      rewrite Hb, Hn. cbn [bind].
      assert (He : nth_error (Values row) i = Some (entry col v)).
      { rewrite Hv, nth_error_app2 by lia. now rewrite Hl, Nat.sub_diag. }
      rewrite He, Hw. cbn [bind]. rewrite app_assoc.
      apply (Henc row (before ++ [entry col v]) (buf ++ field) Hb).
      * rewrite Hv, <- app_assoc. reflexivity.
      * rewrite length_app. cbn. lia.
Qed.

(** X5: a packet made of a four-byte header, the row marker, a null
    bitmap of the length the column count gives, and, for each column the
    bitmap does not mark null, a field in a wire form the codec reproduces
    (an integer of the column's width, a shortest-prefix length-encoded
    string, a DATE with length byte 4, a DATETIME or TIMESTAMP with length
    byte 7, a TIME with length byte 8 and sign byte 0 or 1) is decoded
    without error, whatever bytes follow it, with exactly its length
    reported as consumed, and encoding the decoded row gives the packet
    back byte for byte. *)
Theorem packets_are_reproduced_byte_for_byte
    (h0 h1 h2 seq : byte) (bitmap : list byte) (columns : list ColumnDefinition41)
    (fields : list (list byte)) (trailing : list byte) :
  List.length bitmap = bitmapLength (List.length columns) ->
  wireFields bitmap 0 columns fields ->
  let packet := h0 :: h1 :: h2 :: seq :: x00 :: bitmap ++ List.concat fields in
  exists row : BinaryRow,
    DecodeBinaryRow (packet ++ trailing) columns
    = Return (Some row, List.length packet, None)
    /\ EncodeBinaryRow row columns = Return (Some packet, None).
Proof.
  intros Hlen Hfields packet.
  destruct (wire_fields_reencode bitmap 0 columns fields Hfields) as (es & Hdec & Henc).
  exists {| row_Header := {| PayloadLength := binary.le_value [h0; h1; h2];
                             SequenceID := seq |};
            Values := es; OkAfterRow := true; RowNullBuffer := bitmap |}.
  split.
  - unfold packet. cbn [app]. rewrite <- app_assoc.
    rewrite DecodeBinaryRow_packet by exact Hlen.
    pose proof (Hdec (h0 :: h1 :: h2 :: seq :: x00 :: bitmap) [] trailing) as Hd.
    cbn [List.length app] in Hd. cbn [Nat.add]. rewrite Hd. cbn [bind].
    cbn [List.length]. rewrite length_app. reflexivity.
  - unfold EncodeBinaryRow, utils.WriteUint24.
    cbn [row_Header PayloadLength SequenceID RowNullBuffer].
    rewrite (Henc {| row_Header := {| PayloadLength := binary.le_value [h0; h1; h2];
                                      SequenceID := seq |};
                     Values := es; OkAfterRow := true; RowNullBuffer := bitmap |}
               [] _ eq_refl eq_refl eq_refl).
    pose proof (le_bytes_le_value [h0; h1; h2]) as Hh. cbn [List.length] in Hh.
    rewrite Hh. unfold packet. cbn [app]. rewrite <- ?app_assoc. reflexivity.
Qed.

Lemma packets_are_reproduced_byte_for_byte_witness :
  exists row : BinaryRow,
    DecodeBinaryRow
      ((x0f :: x00 :: x00 :: x02 :: x00 :: [x08]
        ++ List.concat [[xff; xff; xff; xff]; []; [x07; xe7; x07; x06; x0f; x0a; x1e; x00]])
       ++ [x05; x00])
      [ {| col_Name := "id"; col_Type := FieldTypeLong; col_Flags := 32 |};
        {| col_Name := "ratio"; col_Type := FieldTypeFloat; col_Flags := 0 |};
        {| col_Name := "created"; col_Type := FieldTypeDateTime; col_Flags := 0 |} ]
    = Return (Some row, 18%nat, None)
    /\ EncodeBinaryRow row
         [ {| col_Name := "id"; col_Type := FieldTypeLong; col_Flags := 32 |};
           {| col_Name := "ratio"; col_Type := FieldTypeFloat; col_Flags := 0 |};
           {| col_Name := "created"; col_Type := FieldTypeDateTime; col_Flags := 0 |} ]
       = Return (Some (x0f :: x00 :: x00 :: x02 :: x00 :: [x08]
                       ++ List.concat [[xff; xff; xff; xff]; [];
                                  [x07; xe7; x07; x06; x0f; x0a; x1e; x00]]), None).
Proof.
  apply (packets_are_reproduced_byte_for_byte x0f x00 x00 x02 [x08]
           [ {| col_Name := "id"; col_Type := FieldTypeLong; col_Flags := 32 |};
             {| col_Name := "ratio"; col_Type := FieldTypeFloat; col_Flags := 0 |};
             {| col_Name := "created"; col_Type := FieldTypeDateTime; col_Flags := 0 |} ]
           [[xff; xff; xff; xff]; []; [x07; xe7; x07; x06; x0f; x0a; x1e; x00]]
           [x05; x00]).
  - reflexivity.
  - apply wireFields_value; [reflexivity | apply wire_long; reflexivity |].
    apply wireFields_null; [reflexivity |].
    apply wireFields_value; [reflexivity | | apply wireFields_nil].
    apply wire_datetime; (right; reflexivity) || (cbn; lia).
Defined.

(** ** Zero temporal values *)

(** X6: a temporal field whose length byte is 0 decodes to a nil value with
    one byte consumed and no error, but the encoder rejects a nil value in
    a temporal column that the bitmap does not mark null: the row decoded
    from a packet that holds such a field cannot be encoded again, the
    encoder returns an error and no bytes. *)
Theorem zero_temporal_value_cannot_be_reencoded (col : ColumnDefinition41) :
  isTemporal (col_Type col) = true ->
  (forall rest, readBinaryValue (x00 :: rest) col = Return (Nil, 1%nat, None))
  /\ (forall buf, exists msg,
        encodeColumn buf (entry col Nil)
        = Return (buf, Some (Wrap "failed to encode date/time value" (errors_New msg))))
  /\ (forall (h0 h1 h2 seq : byte) (trailing : list byte),
        exists (row : BinaryRow) (e : error),
          DecodeBinaryRow (h0 :: h1 :: h2 :: seq :: x00 :: x00 :: x00 :: trailing) [col]
          = Return (Some row, 7%nat, None)
          /\ Values row = [entry col Nil]
          /\ EncodeBinaryRow row [col] = Return (None, Some e)).
Proof.
  intros Ht.
  assert (Hread : forall rest, readBinaryValue (x00 :: rest) col
                               = Return (Nil, 1%nat, None)).
  { intros rest. unfold readBinaryValue.
    destruct (isTemporal_cases _ Ht) as [E|[E|[E|[E|E]]]]; rewrite E; reflexivity. }
  assert (Hwrite : forall buf, exists msg,
             encodeColumn buf (entry col Nil)
             = Return (buf, Some (Wrap "failed to encode date/time value"
                                    (errors_New msg)))).
  { intros buf. unfold encodeColumn, entry. cbn [ce_Type ce_Value].
    destruct (isTemporal_cases _ Ht) as [E|[E|[E|[E|E]]]]; rewrite E;
      eexists; reflexivity. }
  split; [exact Hread | split; [exact Hwrite |]].
  intros h0 h1 h2 seq trailing.
  destruct (Hwrite [h0; h1; h2; seq; x00; x00]) as (msg & Hmsg).
  do 2 eexists. split; [| split].
  - pose proof (DecodeBinaryRow_packet h0 h1 h2 seq [x00] (x00 :: trailing) [col]
                  eq_refl) as Hp.
    cbn [List.length Nat.add app] in Hp. rewrite Hp.
    erewrite decodeColumns_value; [| reflexivity | reflexivity | apply Hread].
    reflexivity.
  - reflexivity.
  - unfold EncodeBinaryRow, utils.WriteUint24.
    cbn [row_Header PayloadLength SequenceID RowNullBuffer app].
    pose proof (le_bytes_le_value [h0; h1; h2]) as Hl.
    cbn [List.length] in Hl. rewrite Hl.
    cbn [encodeColumns app RowNullBuffer Values].
    change (isNull [x00] 0) with (Return false).
    cbn [bind nth_error]. rewrite Hmsg. reflexivity.
Qed.

Lemma zero_temporal_value_cannot_be_reencoded_witness :
  readBinaryValue [x00; x2a]
    {| col_Name := "born"; col_Type := FieldTypeDate; col_Flags := 0 |}
  = Return (Nil, 1%nat, None).
Proof.
  apply (proj1 (zero_temporal_value_cannot_be_reencoded
                  {| col_Name := "born"; col_Type := FieldTypeDate; col_Flags := 0 |}
                  eq_refl)).
Defined.

(** ** The shape of a decoded row *)

Lemma decodeColumns_progress (columns : list ColumnDefinition41) :
  forall (data bitmap : list byte) (i offset : nat) (values vs : list ColumnEntry)
         (n : nat) (err : option error),
    decodeColumns data bitmap i columns offset values = Return (Some vs, n, err) ->
    List.length vs = (List.length values + List.length columns)%nat
    /\ (offset <= n)%nat.
Proof.
  induction columns as [|col rest IH]; intros data bitmap i offset values vs n err H.
  - cbn in H. inversion H; subst. cbn. lia.
  - cbn [decodeColumns] in H.
    destruct (isNull bitmap i) as [[|]|]; cbn [bind] in H; try discriminate H.
    + apply IH in H. rewrite length_app in H. cbn in *. lia.
    + destruct (slice_from data offset) as [rem|]; cbn [bind] in H; [| discriminate H].
      destruct (readBinaryValue rem col) as [[[v k] [e'|]]|]; cbn [bind] in H;
        try discriminate H.
      apply IH in H. rewrite length_app in H. cbn in *. lia.
Qed.

(** X7: whenever the decoder returns a row, it returns no error with it;
    the buffer starts with three header bytes whose little-endian value is
    the row's payload length (below 2^24), the row's sequence id and the
    row marker 0; the row records the marker; it holds exactly one entry
    per column, in order, each with the type and the name of its column;
    and the count of bytes consumed covers at least the header, the
    marker and the bitmap, which the buffer holds. *)
Theorem decoded_row_shape (data : list byte) (columns : list ColumnDefinition41)
    (row : BinaryRow) (n : nat) (err : option error) :
  DecodeBinaryRow data columns = Return (Some row, n, err) ->
  err = None
  /\ (exists (h0 h1 h2 : byte) (rest : list byte),
        data = h0 :: h1 :: h2 :: SequenceID (row_Header row) :: x00 :: rest
        /\ PayloadLength (row_Header row) = binary.le_value [h0; h1; h2])
  /\ 0 <= PayloadLength (row_Header row) < 2 ^ 24
  /\ OkAfterRow row = true
  /\ List.length (Values row) = List.length columns
  /\ (forall i col, nth_error columns i = Some col ->
        exists v, nth_error (Values row) i = Some (entry col v))
  /\ (5 + bitmapLength (List.length columns) <= n)%nat
  /\ (5 + bitmapLength (List.length columns) <= List.length data)%nat.
Proof.
  intros H.
  destruct (DecodeBinaryRow_success _ _ _ _ _ H) as (bitmap & Hs & Hd & Hb & Hok).
  destruct (decodeColumns_entries _ _ _ _ _ _ _ _ _ Hd) as (He & fresh & Hvs & Hnth).
  destruct (decodeColumns_progress _ _ _ _ _ _ _ _ _ Hd) as (Hlen & Hn).
  assert (Hhdr : exists (h0 h1 h2 : byte) (rest : list byte),
             data = h0 :: h1 :: h2 :: SequenceID (row_Header row) :: x00 :: rest
             /\ PayloadLength (row_Header row) = binary.le_value [h0; h1; h2]).
  { destruct data as [|h0 [|h1 [|h2 [|sq [|mk rest]]]]]; try discriminate H.
    unfold DecodeBinaryRow in H.
    change (slice (h0 :: h1 :: h2 :: sq :: mk :: rest) 0 (0 + 3))
      with (Return [h0; h1; h2]) in H.
    cbn [bind] in H. rewrite ReadUint24_le_value in H. cbn [bind] in H.
    change (index (h0 :: h1 :: h2 :: sq :: mk :: rest) (0 + 3)) with (Return sq) in H.
    change (index (h0 :: h1 :: h2 :: sq :: mk :: rest) (0 + 4)) with (Return mk) in H.
    cbn [bind] in H.
    destruct (byte_to_Z mk =? 0) eqn:Hmk; cbn [negb] in H; [| discriminate H].
    apply Z.eqb_eq in Hmk.
    assert (mk = x00) by (apply byte_to_Z_inj; rewrite Hmk; reflexivity). subst mk.
    destruct (slice _ _ _) as [bm|]; cbn [bind] in H; [| discriminate H].
    destruct (decodeColumns _ _ _ _ _ _) as [[[[vs|] off] e]|]; cbn [bind] in H;
      try discriminate H.
    inversion H; subst. cbn. exists h0, h1, h2, rest. auto. }
  split; [exact He | split; [exact Hhdr |]].
  destruct Hhdr as (h0 & h1 & h2 & rest & _ & Hpl).
  pose proof (le_value_range [h0; h1; h2]) as Hr.
  change (256 ^ Z.of_nat (List.length [h0; h1; h2])) with (2 ^ 24) in Hr.
  split; [rewrite Hpl; exact Hr | split; [exact Hok |]].
  cbn [List.length Nat.add] in Hlen. split; [exact Hlen |].
  split.
  - intros i col Hc. destruct (Hnth i col Hc) as (v & Hv & _).
    exists v. cbn [app] in Hvs. now rewrite Hvs.
  - unfold bitmapLength. unfold slice in Hs.
    destruct (_ && _) eqn:Hc; [| discriminate Hs].
    apply andb_true_iff in Hc. destruct Hc as [Hc _]. apply Nat.leb_le in Hc.
    split; [exact Hn | exact Hc].
Qed.

Lemma decoded_row_shape_witness :
  List.length (Values sampleRow) = List.length sampleColumns.
Proof.
  apply (decoded_row_shape
           [x1e; x00; x00; x05; x00; x40;
            xff; xff; xff; xff;
            x05; x68; x65; x6c; x6c; x6f;
            x07; xe7; x07; x06; x0f; x0a; x1e; x00;
            x08; x01; x03; x00; x00; x00; x02; x0f; x1e]
           sampleColumns sampleRow 33%nat None).
  reflexivity.
Defined.

(** ** What the encoder reads of the column definitions *)

Lemma encodeColumns_count (columns : list ColumnDefinition41) :
  forall (columns' : list ColumnDefinition41) (row : BinaryRow) (i : nat)
         (buf : list byte),
    List.length columns = List.length columns' ->
    encodeColumns row i columns buf = encodeColumns row i columns' buf.
Proof.
  induction columns as [|col rest IH]; intros [|col' rest'] row i buf Hlen;
    try discriminate Hlen; [reflexivity |].
  cbn [encodeColumns].
  destruct (isNull (RowNullBuffer row) i) as [[|]|]; cbn [bind]; try reflexivity.
  - apply IH. now inversion Hlen.
  - destruct (nth_error (Values row) i) as [e|]; [| reflexivity].
    destruct (encodeColumn buf e) as [[buf' [e'|]]|]; cbn [bind]; try reflexivity.
    apply IH. now inversion Hlen.
Qed.

(** X8: the encoder reads nothing of the column definitions but their
    number: the type it dispatches on is the one stored in each entry of
    the row, so two lists of definitions of the same length give the same
    result (bytes, error or panic) for every row. *)
Theorem encoder_uses_only_the_column_count
    (row : BinaryRow) (columns columns' : list ColumnDefinition41) :
  List.length columns = List.length columns' ->
  EncodeBinaryRow row columns = EncodeBinaryRow row columns'.
Proof.
  intros Hlen. unfold EncodeBinaryRow.
  destruct (utils.WriteUint24 [] (PayloadLength (row_Header row))) as [buf [e|]];
    [reflexivity |].
  now apply encodeColumns_count.
Qed.

Lemma encoder_uses_only_the_column_count_witness :
  EncodeBinaryRow sampleRow sampleColumns
  = EncodeBinaryRow sampleRow
      (map (fun c => {| col_Name := ""; col_Type := FieldTypeOther x00; col_Flags := 0 |})
           sampleColumns).
Proof.
  apply (encoder_uses_only_the_column_count sampleRow sampleColumns
           (map (fun c => {| col_Name := ""; col_Type := FieldTypeOther x00;
                             col_Flags := 0 |}) sampleColumns)).
  reflexivity.
Defined.

(** ** When the decoder cannot panic *)

Lemma readUint_enough (n : nat) (data : list byte) :
  (n <= List.length data)%nat -> exists u, readUint n data = Return u.
Proof.
  intros H. exists (binary.le_value (firstn n data)).
  rewrite <- (firstn_skipn n data) at 1.
  apply readUint_field. rewrite length_firstn. lia.
Qed.

Lemma checked_kind_reads_within_the_buffer (col : ColumnDefinition41) (data : list byte) :
  isCheckedKind (col_Type col) = true ->
  (exists e, readBinaryValue data col = Return (Nil, 0%nat, Some e))
  \/ (exists v w, readBinaryValue data col = Return (v, w, None)
                  /\ (w <= List.length data)%nat).
Proof.
  intros Hk. unfold readBinaryValue.
  destruct (col_Type col); try discriminate Hk;
    try (left; eexists; reflexivity);
    match goal with
    | |- context [(List.length data <? ?w)%nat] =>
        destruct (Nat.ltb_spec (List.length data) w) as [Hlt|Hge];
        [ left; eexists; reflexivity
        | right; destruct (readUint_enough w data Hge) as (u & Hu); rewrite Hu;
          cbn [bind]; destruct (isUnsigned col); do 2 eexists;
          (split; [reflexivity | exact Hge]) ]
    end.
Qed.

Lemma decodeColumns_checked (data bitmap : list byte)
    (columns : list ColumnDefinition41) :
  Forall (fun col => isCheckedKind (col_Type col) = true) columns ->
  forall (i offset : nat) (values : list ColumnEntry),
    (offset <= List.length data)%nat ->
    (forall j, (j < List.length columns)%nat ->
               exists b, isNull bitmap (i + j) = Return b) ->
    exists r n err,
      decodeColumns data bitmap i columns offset values = Return (r, n, err)
      /\ (n <= List.length data)%nat.
Proof.
  induction 1 as [|col rest Hk _ IH]; intros i offset values Hoff Hbits.
  - do 3 eexists. split; [reflexivity | exact Hoff].
  - cbn [decodeColumns].
    destruct (Hbits 0%nat ltac:(cbn; lia)) as (b & Hb). rewrite Nat.add_0_r in Hb.
    rewrite Hb. cbn [bind].
    assert (Hrest : forall j, (j < List.length rest)%nat ->
                exists b', isNull bitmap (S i + j) = Return b').
    { intros j Hj. replace (S i + j)%nat with (i + S j)%nat by lia.
      apply Hbits. cbn. lia. }
    destruct b.
    + apply IH; assumption.
    + unfold slice_from.
      assert (Hle : (offset <=? List.length data)%nat = true) by (apply Nat.leb_le; lia).
      rewrite Hle. cbn [bind].
      destruct (checked_kind_reads_within_the_buffer col (skipn offset data) Hk)
        as [(e & He) | (v & w & Hv & Hw)].
      * rewrite He. cbn [bind]. do 3 eexists. split; [reflexivity | exact Hoff].
      * rewrite Hv. cbn [bind]. rewrite length_skipn in Hw.
        apply IH; [lia | exact Hrest].
Qed.

Lemma DecodeBinaryRow_bad_marker (h0 h1 h2 sq mk : byte) (rest : list byte)
    (columns : list ColumnDefinition41) :
  mk <> x00 ->
  DecodeBinaryRow (h0 :: h1 :: h2 :: sq :: mk :: rest) columns
  = Return (None, 4%nat, Some (errors_New "malformed binary row packet")).
Proof.
  intros Hm. unfold DecodeBinaryRow.
  change (slice (h0 :: h1 :: h2 :: sq :: mk :: rest) 0 (0 + 3)) with (Return [h0; h1; h2]).
  cbn [bind]. rewrite ReadUint24_le_value. cbn [bind].
  change (index (h0 :: h1 :: h2 :: sq :: mk :: rest) (0 + 3)) with (Return sq).
  change (index (h0 :: h1 :: h2 :: sq :: mk :: rest) (0 + 4)) with (Return mk).
  cbn [bind]. rewrite (byte_to_Z_nonzero mk Hm). reflexivity.
Qed.

(** X9: on a buffer that holds the header, the marker and the bitmap, and
    for columns that are all of a kind whose decoder checks the remaining
    length before it reads (SHORT, YEAR, LONG, LONGLONG, FLOAT, DOUBLE) or
    of an unsupported kind, the row decoder never panics: it returns a row
    or an error, and the count it reports is within the buffer. *)
Theorem decoder_does_not_panic_on_checked_kinds
    (data : list byte) (columns : list ColumnDefinition41) :
  (5 + bitmapLength (List.length columns) <= List.length data)%nat ->
  Forall (fun col => isCheckedKind (col_Type col) = true) columns ->
  exists (row : option BinaryRow) (n : nat) (err : option error),
    DecodeBinaryRow data columns = Return (row, n, err)
    /\ (n <= List.length data)%nat.
Proof.
  intros Hlen Hk.
  destruct data as [|h0 [|h1 [|h2 [|sq [|mk rest]]]]]; cbn [List.length] in Hlen;
    try lia.
  destruct (Z.eq_dec (byte_to_Z mk) 0) as [Hz|Hz].
  - assert (mk = x00) by (apply byte_to_Z_inj; rewrite Hz; reflexivity). subst mk.
    set (L := bitmapLength (List.length columns)) in *.
    assert (HL : List.length (firstn L rest) = L) by (rewrite length_firstn; lia).
    rewrite <- (firstn_skipn L rest).
    rewrite DecodeBinaryRow_packet by exact HL.
    destruct (decodeColumns_checked
                (h0 :: h1 :: h2 :: sq :: x00 :: firstn L rest ++ skipn L rest)
                (firstn L rest) columns Hk 0 (5 + List.length (firstn L rest)) [])
      as (r & n & err & Hd & Hn).
    + cbn [List.length]. rewrite length_app, length_firstn, length_skipn. lia.
    + intros j Hj. cbn [Nat.add]. apply isNull_defined. rewrite HL.
      now apply bitmap_covers_columns.
    + rewrite Hd. cbn [bind]. destruct r as [vs|]; do 3 eexists;
        (split; [reflexivity | exact Hn]).
  - exists None, 4%nat, (Some (errors_New "malformed binary row packet")). split.
    + apply DecodeBinaryRow_bad_marker. intros E. apply Hz. now rewrite E.
    + cbn [List.length]. lia.
Qed.

Lemma decoder_does_not_panic_on_checked_kinds_witness :
  exists (row : option BinaryRow) (n : nat) (err : option error),
    DecodeBinaryRow [x05; x00; x00; x01; x00; x00; x2a; x00; x07]
      [ {| col_Name := "n"; col_Type := FieldTypeShort; col_Flags := 0 |};
        {| col_Name := "id"; col_Type := FieldTypeLong; col_Flags := 32 |} ]
    = Return (row, n, err)
    /\ (n <= List.length [x05; x00; x00; x01; x00; x00; x2a; x00; x07])%nat.
Proof.
  apply (decoder_does_not_panic_on_checked_kinds
           [x05; x00; x00; x01; x00; x00; x2a; x00; x07]
           [ {| col_Name := "n"; col_Type := FieldTypeShort; col_Flags := 0 |};
             {| col_Name := "id"; col_Type := FieldTypeLong; col_Flags := 32 |} ]).
  - cbn. lia.
  - repeat constructor.
Defined.

(** ** Truncated packets *)

(** X10: a buffer of fewer than five bytes, the empty buffer included,
    makes the row decoder panic, whatever the columns: it reads the
    header and the marker with no check of the length; and so does a
    buffer that holds the header and the marker 0 but fewer bytes than the
    null bitmap of the columns needs. *)
Theorem truncated_packets_panic :
  (forall (data : list byte) (columns : list ColumnDefinition41),
      (List.length data < 5)%nat ->
      exists p, DecodeBinaryRow data columns = Panic p)
  /\ (forall (h0 h1 h2 seq : byte) (rest : list byte)
             (columns : list ColumnDefinition41),
        (List.length rest < bitmapLength (List.length columns))%nat ->
        DecodeBinaryRow (h0 :: h1 :: h2 :: seq :: x00 :: rest) columns
        = Panic SliceBoundsOutOfRange).
Proof.
  split.
  - intros data columns Hlen.
    destruct data as [|h0 [|h1 [|h2 [|sq [|mk rest]]]]];
      try (eexists; reflexivity).
    cbn in Hlen. lia.
  - intros h0 h1 h2 seq rest columns Hlen. unfold DecodeBinaryRow.
    change (slice (h0 :: h1 :: h2 :: seq :: x00 :: rest) 0 (0 + 3))
      with (Return [h0; h1; h2]).
    cbn [bind]. rewrite ReadUint24_le_value. cbn [bind].
    change (index (h0 :: h1 :: h2 :: seq :: x00 :: rest) (0 + 3)) with (Return seq).
    change (index (h0 :: h1 :: h2 :: seq :: x00 :: rest) (0 + 4)) with (Return x00).
    cbn [bind]. change (negb (byte_to_Z x00 =? 0)) with false. cbv iota.
    unfold slice.
    assert (Hc : (0 + 4 + 1 + (List.length columns + 7 + 2) / 8
                  <=? List.length (h0 :: h1 :: h2 :: seq :: x00 :: rest))%nat = false).
    { apply Nat.leb_gt. unfold bitmapLength in Hlen. cbn [List.length]. lia. }
    rewrite Hc. reflexivity.
Qed.

Lemma truncated_packets_panic_witness :
  exists p,
    DecodeBinaryRow []
      [{| col_Name := "id"; col_Type := FieldTypeLong; col_Flags := 0 |}]
    = Panic p.
Proof.
  apply (proj1 truncated_packets_panic). cbn. lia.
Defined.

(** ** When the encoder panics *)

Lemma encodeColumn_returns (buf : list byte) (e : ColumnEntry) :
  (ce_Type e = FieldTypeTime -> ce_Value e <> Str "") ->
  exists r, encodeColumn buf e = Return r.
Proof.
  intros Htime. unfold encodeColumn.
  destruct (ce_Type e) eqn:Ht; destruct (ce_Value e) as [| | | | | | | | | | |s] eqn:Hv;
    cbn [encodeBinaryDateTime bind];
    try (eexists; reflexivity);
    try (destruct (utils.WriteLengthEncodedString buf s) as [? [?|]];
         eexists; reflexivity);
    try (destruct (fmt.Sscanf s _) as [got [err|]]; eexists; reflexivity).
  destruct s as [|c s]; [exfalso; now apply Htime |].
  cbn [string_index String.get bind].
  destruct (Ascii.eqb c "-"); cbn [string_from bind];
    match goal with |- context [fmt.Sscanf ?t ?f] =>
      destruct (fmt.Sscanf t f) as [got [err|]] end;
    eexists; reflexivity.
Qed.

Lemma encodeColumns_returns (columns : list ColumnDefinition41) :
  forall (row : BinaryRow) (i : nat) (buf : list byte),
    (forall j, (j < List.length columns)%nat ->
               exists b, isNull (RowNullBuffer row) (i + j) = Return b) ->
    (i + List.length columns <= List.length (Values row))%nat ->
    (forall e, In e (Values row) -> ce_Type e = FieldTypeTime -> ce_Value e <> Str "") ->
    exists r, encodeColumns row i columns buf = Return r.
Proof.
  induction columns as [|col rest IH]; intros row i buf Hbits Hlen Htime.
  - eexists. reflexivity.
  - cbn [encodeColumns].
    destruct (Hbits 0%nat ltac:(cbn; lia)) as (b & Hb). rewrite Nat.add_0_r in Hb.
    rewrite Hb. cbn [bind].
    assert (Hrest : forall j, (j < List.length rest)%nat ->
                exists b', isNull (RowNullBuffer row) (S i + j) = Return b').
    { intros j Hj. replace (S i + j)%nat with (i + S j)%nat by lia.
      apply Hbits. cbn. lia. }
    cbn [List.length] in Hlen.
    destruct b; [apply IH; (assumption || lia) |].
    destruct (nth_error (Values row) i) as [e|] eqn:He.
    + destruct (encodeColumn_returns buf e) as ([buf' [err|]] & Hr).
      * apply Htime. eapply nth_error_In. exact He.
      * rewrite Hr. cbn [bind]. eexists. reflexivity.
      * rewrite Hr. cbn [bind]. apply IH; (assumption || lia).
    + apply nth_error_None in He. lia.
Qed.

(** X11: the encoder does not panic on a row whose null bitmap holds a bit
    for every column, whose entries are at least as many as the columns
    and none of whose TIME entries holds the empty text: it returns bytes
    or an error. *)
Theorem encoder_does_not_panic_on_complete_rows
    (row : BinaryRow) (columns : list ColumnDefinition41) :
  (forall j, (j < List.length columns)%nat ->
             ((j + 2) / 8 < List.length (RowNullBuffer row))%nat) ->
  (List.length columns <= List.length (Values row))%nat ->
  (forall e, In e (Values row) -> ce_Type e = FieldTypeTime -> ce_Value e <> Str "") ->
  exists (out : option (list byte)) (err : option error),
    EncodeBinaryRow row columns = Return (out, err).
Proof.
  intros Hbits Hlen Htime. unfold EncodeBinaryRow, utils.WriteUint24.
  destruct (encodeColumns_returns columns row 0
              (([] ++ binary.le_bytes 3 (PayloadLength (row_Header row)))
               ++ [SequenceID (row_Header row)] ++ [x00] ++ RowNullBuffer row))
    as ([out err] & Hr).
  - intros j Hj. apply isNull_defined. cbn [Nat.add]. now apply Hbits.
  - cbn [Nat.add]. exact Hlen.
  - exact Htime.
  - exists out, err. rewrite <- Hr. cbn [app]. rewrite <- ?app_assoc. reflexivity.
Qed.

Lemma encoder_does_not_panic_on_complete_rows_witness :
  exists (out : option (list byte)) (err : option error),
    EncodeBinaryRow sampleRow sampleColumns = Return (out, err).
Proof.
  apply (encoder_does_not_panic_on_complete_rows sampleRow sampleColumns).
  - intros j Hj. cbn in Hj.
    do 5 (destruct j as [|j]; [cbn; lia |]). lia.
  - cbn. lia.
  - intros e He Ht Hv. cbn in He.
    repeat (destruct He as [<-|He]; [discriminate Ht || discriminate Hv |]).
    exact He.
Defined.

(** X12: the encoder panics, instead of returning an error, on three
    incomplete rows: a row with an empty null bitmap, for any non-empty
    list of columns; a row with no entry whose first column is not marked
    null; and a row whose first column is not marked null and holds a TIME
    entry with the empty text (the empty text in a DATE or DATETIME entry
    is a parse error, not a panic). *)
Theorem encoder_panics_on_incomplete_rows :
  (forall (row : BinaryRow) (col : ColumnDefinition41) (rest : list ColumnDefinition41),
      RowNullBuffer row = [] ->
      EncodeBinaryRow row (col :: rest) = Panic IndexOutOfRange)
  /\ (forall (row : BinaryRow) (col : ColumnDefinition41) (rest : list ColumnDefinition41),
        isNull (RowNullBuffer row) 0 = Return false ->
        Values row = [] ->
        EncodeBinaryRow row (col :: rest) = Panic IndexOutOfRange)
  /\ (forall (row : BinaryRow) (col : ColumnDefinition41) (rest : list ColumnDefinition41)
             (e : ColumnEntry) (others : list ColumnEntry),
        isNull (RowNullBuffer row) 0 = Return false ->
        Values row = e :: others ->
        ce_Type e = FieldTypeTime ->
        ce_Value e = Str "" ->
        EncodeBinaryRow row (col :: rest) = Panic IndexOutOfRange)
  /\ (forall (buf : list byte) (e : ColumnEntry),
        isTemporal (ce_Type e) = true ->
        ce_Type e <> FieldTypeTime ->
        ce_Value e = Str "" ->
        exists cause, encodeColumn buf e
                      = Return (buf, Some (Wrap "failed to encode date/time value"
                                             cause))).
Proof.
  split; [| split; [| split]].
  - intros row col rest Hb. unfold EncodeBinaryRow, utils.WriteUint24.
    cbn [encodeColumns]. rewrite Hb. reflexivity.
  - intros row col rest Hn Hv. unfold EncodeBinaryRow, utils.WriteUint24.
    cbn [encodeColumns]. rewrite Hn, Hv. reflexivity.
  - intros row col rest e others Hn Hv Ht Hs.
    unfold EncodeBinaryRow, utils.WriteUint24.
    cbn [encodeColumns]. rewrite Hn, Hv. cbn [bind nth_error].
    unfold encodeColumn. rewrite Ht, Hs. reflexivity.
  - intros buf e Ht Hn Hs. unfold encodeColumn.
    destruct (isTemporal_cases _ Ht) as [E|[E|[E|[E|E]]]]; try contradiction;
      rewrite E, Hs; eexists; reflexivity.
Qed.

Lemma encoder_panics_on_incomplete_rows_witness :
  EncodeBinaryRow
    {| row_Header := {| PayloadLength := 2; SequenceID := x01 |};
       Values := [];
       OkAfterRow := true;
       RowNullBuffer := [] |}
    [{| col_Name := "id"; col_Type := FieldTypeLong; col_Flags := 0 |}]
  = Panic IndexOutOfRange.
Proof.
  apply (proj1 encoder_panics_on_incomplete_rows). reflexivity.
Defined.

(** ** Bytes or an error *)

Lemma encodeColumns_bytes_or_error (columns : list ColumnDefinition41) :
  forall (row : BinaryRow) (i : nat) (buf : list byte)
         (out : option (list byte)) (err : option error),
    encodeColumns row i columns buf = Return (out, err) ->
    (exists bytes, out = Some bytes /\ err = None)
    \/ (out = None /\ exists e, err = Some e).
Proof.
  induction columns as [|col rest IH]; intros row i buf out err H.
  - cbn in H. inversion H; subst. left. eexists. auto.
  - cbn [encodeColumns] in H.
    destruct (isNull (RowNullBuffer row) i) as [[|]|]; cbn [bind] in H;
      try discriminate H.
    + eapply IH; eassumption.
    + destruct (nth_error (Values row) i) as [e|]; [| discriminate H].
      destruct (encodeColumn buf e) as [[buf' [e'|]]|]; cbn [bind] in H;
        try discriminate H.
      * inversion H; subst. right. split; [reflexivity | eexists; reflexivity].
      * eapply IH; eassumption.
Qed.

(** X13: whenever the encoder returns, it returns either bytes and no
    error, or an error and no bytes: a failure on any column discards what
    was written for the columns before it. *)
Theorem encoder_returns_bytes_or_an_error
    (row : BinaryRow) (columns : list ColumnDefinition41)
    (out : option (list byte)) (err : option error) :
  EncodeBinaryRow row columns = Return (out, err) ->
  (exists bytes, out = Some bytes /\ err = None)
  \/ (out = None /\ exists e, err = Some e).
Proof.
  unfold EncodeBinaryRow, utils.WriteUint24. apply encodeColumns_bytes_or_error.
Qed.

Lemma encoder_returns_bytes_or_an_error_witness :
  (exists bytes, @None (list byte) = Some bytes
                 /\ Some (errors_New "invalid value type for long field") = None)
  \/ (@None (list byte) = None
      /\ exists e, Some (errors_New "invalid value type for long field") = Some e).
Proof.
  apply (encoder_returns_bytes_or_an_error
           {| row_Header := {| PayloadLength := 10; SequenceID := x01 |};
              Values := [ {| ce_Type := FieldTypeTiny; ce_Name := "flag";
                             ce_Value := Uint8 1 |};
                          {| ce_Type := FieldTypeLong; ce_Name := "id";
                             ce_Value := Str "7" |} ];
              OkAfterRow := true;
              RowNullBuffer := [x00] |}
           [ {| col_Name := "flag"; col_Type := FieldTypeTiny; col_Flags := 32 |};
             {| col_Name := "id"; col_Type := FieldTypeLong; col_Flags := 0 |} ]).
  reflexivity.
Defined.

(** ** Short buffers on the kinds that check the length *)

(** X14: on a SHORT, YEAR, LONG, LONGLONG, FLOAT or DOUBLE column and a
    remainder shorter than the width of the kind, the value decoder returns
    a nil value, zero bytes consumed and a "malformed ... value" error (the
    error of a YEAR column names SHORT), and the row decoder, reaching such
    a column first, returns that error with no row and the offset of the
    column. *)
Theorem short_buffers_are_reported_by_checked_kinds
    (col : ColumnDefinition41) (data : list byte) (w : nat) :
  fixedWidth (col_Type col) = Some w ->
  col_Type col <> FieldTypeTiny ->
  (List.length data < w)%nat ->
  exists msg : string,
    readBinaryValue data col = Return (Nil, 0%nat, Some (errors_New msg))
    /\ (col_Type col = FieldTypeYear -> msg = "malformed FieldTypeShort value")
    /\ (forall (h0 h1 h2 seq : byte) (bitmap : list byte)
               (rest : list ColumnDefinition41),
          List.length bitmap = bitmapLength (S (List.length rest)) ->
          isNull bitmap 0 = Return false ->
          DecodeBinaryRow (h0 :: h1 :: h2 :: seq :: x00 :: bitmap ++ data) (col :: rest)
          = Return (None, (5 + List.length bitmap)%nat, Some (errors_New msg))).
Proof.
  intros Hw Ht Hlen.
  assert (Hread : exists msg,
             readBinaryValue data col = Return (Nil, 0%nat, Some (errors_New msg))
             /\ (col_Type col = FieldTypeYear -> msg = "malformed FieldTypeShort value")).
  { unfold readBinaryValue.
    destruct (col_Type col); cbn in Hw; try discriminate Hw; try congruence;
      inversion Hw; subst w;
      apply Nat.ltb_lt in Hlen; rewrite Hlen; eexists;
      (split; [reflexivity | intros E; (discriminate E || reflexivity)]). }
  destruct Hread as (msg & Hm & Hy). exists msg.
  split; [exact Hm | split; [exact Hy |]].
  intros h0 h1 h2 seq bitmap rest Hb Hn.
  rewrite DecodeBinaryRow_packet by exact Hb.
  erewrite decodeColumns_error; [reflexivity | exact Hn | | exact Hm].
  exact (slice_from_suffix (h0 :: h1 :: h2 :: seq :: x00 :: bitmap) data).
Qed.

Lemma short_buffers_are_reported_by_checked_kinds_witness :
  exists msg : string,
    readBinaryValue [x2a]
      {| col_Name := "y"; col_Type := FieldTypeYear; col_Flags := 32 |}
    = Return (Nil, 0%nat, Some (errors_New msg))
    /\ (col_Type {| col_Name := "y"; col_Type := FieldTypeYear; col_Flags := 32 |}
        = FieldTypeYear -> msg = "malformed FieldTypeShort value")
    /\ (forall (h0 h1 h2 seq : byte) (bitmap : list byte)
               (rest : list ColumnDefinition41),
          List.length bitmap = bitmapLength (S (List.length rest)) ->
          isNull bitmap 0 = Return false ->
          DecodeBinaryRow (h0 :: h1 :: h2 :: seq :: x00 :: bitmap ++ [x2a])
            ({| col_Name := "y"; col_Type := FieldTypeYear; col_Flags := 32 |} :: rest)
          = Return (None, (5 + List.length bitmap)%nat, Some (errors_New msg))).
Proof.
  apply (short_buffers_are_reported_by_checked_kinds
           {| col_Name := "y"; col_Type := FieldTypeYear; col_Flags := 32 |}
           [x2a] 2%nat).
  - reflexivity.
  - discriminate.
  - cbn. lia.
Defined.

(** ** Rows whose columns are all null *)

Lemma decodeColumns_all_null (data bitmap : list byte)
    (columns : list ColumnDefinition41) :
  forall (i offset : nat) (values : list ColumnEntry),
    (forall j, (j < List.length columns)%nat -> isNull bitmap (i + j) = Return true) ->
    decodeColumns data bitmap i columns offset values
    = Return (Some (values ++ map (fun col => entry col Nil) columns), offset, None).
Proof.
  induction columns as [|col rest IH]; intros i offset values H.
  - cbn. now rewrite app_nil_r.
  - pose proof (H 0%nat ltac:(cbn; lia)) as H0. rewrite Nat.add_0_r in H0.
    rewrite decodeColumns_null by exact H0.
    rewrite IH.
    + cbn [map]. rewrite <- app_assoc. reflexivity.
    + intros j Hj. replace (S i + j)%nat with (i + S j)%nat by lia.
      apply H. cbn. lia.
Qed.

(** X15: a packet whose bitmap marks every column null is decoded
    whatever the types of the columns, the unsupported ones included, and
    whatever follows the bitmap: the row holds a nil entry per column, the
    bytes consumed are the header, the marker and the bitmap, and encoding
    the row gives these bytes back. *)
Theorem all_null_rows_decode_for_any_column_types
    (h0 h1 h2 seq : byte) (bitmap trailing : list byte)
    (columns : list ColumnDefinition41) :
  List.length bitmap = bitmapLength (List.length columns) ->
  (forall j, (j < List.length columns)%nat -> isNull bitmap j = Return true) ->
  let row := {| row_Header := {| PayloadLength := binary.le_value [h0; h1; h2];
                                 SequenceID := seq |};
                Values := map (fun col => entry col Nil) columns;
                OkAfterRow := true;
                RowNullBuffer := bitmap |} in
  DecodeBinaryRow (h0 :: h1 :: h2 :: seq :: x00 :: bitmap ++ trailing) columns
  = Return (Some row, (5 + List.length bitmap)%nat, None)
  /\ EncodeBinaryRow row columns
     = Return (Some (h0 :: h1 :: h2 :: seq :: x00 :: bitmap), None).
Proof.
  intros Hlen Hnull row. split.
  - rewrite DecodeBinaryRow_packet by exact Hlen.
    rewrite decodeColumns_all_null by exact Hnull. reflexivity.
  - unfold EncodeBinaryRow, utils.WriteUint24.
    rewrite encodeColumns_all_null by exact Hnull.
    cbn [row row_Header PayloadLength SequenceID RowNullBuffer].
    pose proof (le_bytes_le_value [h0; h1; h2]) as Hh. cbn [List.length] in Hh.
    rewrite Hh. reflexivity.
Qed.

Lemma all_null_rows_decode_for_any_column_types_witness :
  DecodeBinaryRow (x02 :: x00 :: x00 :: x01 :: x00 :: [x0c] ++ [x07; x00])
    [ {| col_Name := "geo"; col_Type := FieldTypeOther xff; col_Flags := 0 |};
      {| col_Name := "ratio"; col_Type := FieldTypeFloat; col_Flags := 0 |} ]
  = Return (Some {| row_Header := {| PayloadLength := binary.le_value [x02; x00; x00];
                                     SequenceID := x01 |};
                    Values := map (fun col => entry col Nil)
                                [ {| col_Name := "geo"; col_Type := FieldTypeOther xff;
                                     col_Flags := 0 |};
                                  {| col_Name := "ratio"; col_Type := FieldTypeFloat;
                                     col_Flags := 0 |} ];
                    OkAfterRow := true;
                    RowNullBuffer := [x0c] |}, (5 + List.length [x0c])%nat, None).
Proof.
  apply (all_null_rows_decode_for_any_column_types x02 x00 x00 x01 [x0c] [x07; x00]
           [ {| col_Name := "geo"; col_Type := FieldTypeOther xff; col_Flags := 0 |};
             {| col_Name := "ratio"; col_Type := FieldTypeFloat; col_Flags := 0 |} ]).
  - reflexivity.
  - intros j Hj. cbn in Hj. do 2 (destruct j as [|j]; [reflexivity |]). lia.
Defined.
